(** * LLM summarisation analyser: a shallow embedding of [src/llm_analyzer.py]

    The development follows the class [LLMAnalyzer]: Python [str] values are
    sequences of Unicode code points, [int] is [Z], [float] is IEEE binary64
    as specified by the Standard Library's [SpecFloat], dictionaries whose
    iteration order is observed are association lists in insertion order, and
    the one list that is mutated in place ([analyses.sort]) is threaded through
    a small state monad.  After the class come [main] of the same file, with
    the files it reads as arguments and what it prints and writes as its
    value, and the counting functions of [generate_report.py] and
    [view_report.py]. *)

From Stdlib Require Import ZArith NArith QArith Lia Ascii String List.
From Stdlib Require Import Permutation Sorted.
From Stdlib Require Import Floats.SpecFloat.
From Stdlib Require Import Qpower.
From stdpp Require Import base option list gmap.

Local Open Scope Z_scope.

(* ===================================================================== *)
(** * Python strings *)
(* ===================================================================== *)

(** A Python [str] is a sequence of Unicode code points. *)
Definition str := list N.

Module Str.

(** Bytes of a Rocq string literal (the source file is UTF-8). *)
Fixpoint bytes (s : string) : list N :=
  match s with
  | EmptyString => []
  | String a s' => N_of_ascii a :: bytes s'
  end.

(** UTF-8 decoding of a well-formed byte sequence, used only to write the
    literals of the source as code points. *)
Fixpoint utf8_decode (bs : list N) : str :=
  match bs with
  | [] => []
  | b :: rest =>
      if (b <? 128)%N then b :: utf8_decode rest
      else if (b <? 224)%N then
        match rest with
        | c1 :: r => ((b - 192) * 64 + (c1 - 128))%N :: utf8_decode r
        | _ => []
        end
      else if (b <? 240)%N then
        match rest with
        | c1 :: c2 :: r =>
            ((b - 224) * 4096 + (c1 - 128) * 64 + (c2 - 128))%N :: utf8_decode r
        | _ => []
        end
      else
        match rest with
        | c1 :: c2 :: c3 :: r =>
            ((b - 240) * 262144 + (c1 - 128) * 4096 + (c2 - 128) * 64 + (c3 - 128))%N
              :: utf8_decode r
        | _ => []
        end
  end.

Definition lit (s : string) : str := utf8_decode (bytes s).

(** [p] is a prefix of [s]. *)
Fixpoint startswith (p s : str) : bool :=
  match p, s with
  | [], _ => true
  | _ :: _, [] => false
  | a :: p', b :: s' => (a =? b)%N && startswith p' s'
  end.

(** [needle in hay]: substring test. *)
Fixpoint contains (needle hay : str) : bool :=
  startswith needle hay ||
  match hay with
  | [] => false
  | _ :: hay' => contains needle hay'
  end.

(** Code points for which [str.isspace] holds; [str.split()] splits on
    them. *)
Definition isspace (c : N) : bool :=
  ((9 <=? c) && (c <=? 13) || (28 <=? c) && (c <=? 32)
   || (c =? 133) || (c =? 160) || (c =? 5760)
   || (8192 <=? c) && (c <=? 8202)
   || (c =? 8232) || (c =? 8233) || (c =? 8239) || (c =? 8287)
   || (c =? 12288))%N.

(** [s.split()]: maximal runs of non-whitespace code points.  [cur] is the
    word being read, reversed. *)
Fixpoint split_ws_from (cur : str) (s : str) : list str :=
  match s with
  | [] => match cur with [] => [] | _ => [rev cur] end
  | c :: s' =>
      if isspace c
      then match cur with
           | [] => split_ws_from [] s'
           | _ => rev cur :: split_ws_from [] s'
           end
      else split_ws_from (c :: cur) s'
  end.

Definition split_ws (s : str) : list str := split_ws_from [] s.

(** [s.split(sep)] for a one-character separator: empty fields are kept. *)
Fixpoint split_on_from (sep : N) (cur : str) (s : str) : list str :=
  match s with
  | [] => [rev cur]
  | c :: s' =>
      if (c =? sep)%N then rev cur :: split_on_from sep [] s'
      else split_on_from sep (c :: cur) s'
  end.

Definition split_on (sep : N) (s : str) : list str := split_on_from sep [] s.

(** [sep.join(parts)]. *)
Fixpoint join (sep : str) (parts : list str) : str :=
  match parts with
  | [] => []
  | [p] => p
  | p :: ps => p ++ sep ++ join sep ps
  end.

End Str.

Notation "'u#' s" := (Str.lit s%string) (at level 1, format "'u#' s").

(** [len(xs)] as a Python [int]. *)
Definition len {A} (xs : list A) : Z := Z.of_nat (length xs).


(* ===================================================================== *)
(** * Scoring functions on integers *)
(* ===================================================================== *)

Definition markers : list str := [u#"1."; u#"2."; u#"3."].

(** [all(marker in summary for marker in ['1.', '2.', '3.'])] *)
Definition has_all_markers (summary : str) : bool :=
  forallb (fun marker => Str.contains marker summary) markers.

Definition in_word_range (word_count min_words max_words : Z) : bool :=
  (min_words <=? word_count) && (word_count <=? max_words).

(** [LLMAnalyzer.calculate_prompt_adherence]; the defaults of [min_words] and
    [max_words] are 100 and 150. *)
Definition calculate_prompt_adherence
    (summary : str) (word_count : Z) (min_words max_words : Z) : Z :=
  let word_score := if in_word_range word_count min_words max_words then 40 else 0 in
  let structure_score := if has_all_markers summary then 30 else 15 in
  let style_score := 30 in
  word_score + structure_score + style_score.

Definition default_min_words : Z := 100.
Definition default_max_words : Z := 150.

(** [LLMAnalyzer.calculate_coherence] *)
Definition calculate_coherence (summary : str) : Z :=
  let sentences := Str.split_on 46%N summary in
  if 2 <? len sentences then 80 else 60.


(* ===================================================================== *)
(** * Exceptions *)
(* ===================================================================== *)

Inductive exn :=
| OverflowError
| ZeroDivisionError
| KeyError (key : str).

(** The outcome of evaluating an expression: a value or a raised exception. *)
Inductive result (A : Type) :=
| Ok (a : A)
| Raise (e : exn).
Arguments Ok {A} a.
Arguments Raise {A} e.

#[global] Instance result_ret : MRet result := fun _ a => Ok a.
#[global] Instance result_bind : MBind result := fun _ _ f m =>
  match m with
  | Ok a => f a
  | Raise e => Raise e
  end.

(* ===================================================================== *)
(** * Python numbers: [int] and [float] *)
(* ===================================================================== *)

Module PyFloat.

(** binary64 *)
Definition prec : Z := 53.
Definition emax : Z := 1024.

Definition float := spec_float.

Definition add : float -> float -> float := SFadd prec emax.
Definition mul : float -> float -> float := SFmul prec emax.
Definition div : float -> float -> float := SFdiv prec emax.

(** An integer as an exact, not yet rounded, binary number. *)
Definition raw (z : Z) : float :=
  match z with
  | Z0 => S754_zero false
  | Zpos p => S754_finite false p 0
  | Zneg p => S754_finite true p 0
  end.

Definition is_infinity (f : float) : bool :=
  match f with S754_infinity _ => true | _ => false end.

(** [float(z)]: the nearest double, or [OverflowError]. *)
Definition of_int (z : Z) : result float :=
  let f := binary_normalize prec emax z 0 false in
  if is_infinity f then Raise OverflowError else Ok f.

(** [a / b] on two [int]s: the correctly rounded quotient. *)
Definition int_true_div (a b : Z) : result float :=
  if b =? 0 then Raise ZeroDivisionError
  else
    let q := div (raw a) (raw b) in
    if is_infinity q then Raise OverflowError else Ok q.

(** The double written as the decimal literal [n / 10^k] in the source. *)
Definition literal (n : Z) (k : Z) : float := div (raw n) (raw (10 ^ k)).

(** [num / den] rounded to the nearest integer, ties to even ([0 < den]). *)
Definition div_half_even (num den : Z) : Z :=
  let q := num / den in
  let r := num mod den in
  match 2 * r ?= den with
  | Lt => q
  | Gt => q + 1
  | Eq => if Z.even q then q else q + 1
  end.

(** [round(|x| * 10^k)] to the nearest integer, ties to even, on the exact
    value [m * 2^e] of a finite double. *)
Definition scaled_magnitude (k : Z) (m : positive) (e : Z) : Z :=
  if 0 <=? e then Zpos m * 2 ^ e * 10 ^ k
  else div_half_even (Zpos m * 10 ^ k) (2 ^ (- e)).

(** [round(x, 2)] on a float: the exact value is rounded half-even to two
    decimals and the decimal is read back as the nearest double; zeros,
    infinities and NaN round to themselves. *)
Definition round2 (x : float) : float :=
  match x with
  | S754_finite s m e =>
      let n := scaled_magnitude 2 m e in
      match n with
      | Zpos p => div (S754_finite s p 0) (raw 100)
      | _ => S754_zero s
      end
  | _ => x
  end.

End PyFloat.

(** A Python number as the analyser handles them. *)
Inductive num :=
| Int (z : Z)
| Float (f : PyFloat.float).

Module Num.

Definition to_float (x : num) : result PyFloat.float :=
  match x with
  | Int z => PyFloat.of_int z
  | Float f => Ok f
  end.

(** [x * w] for a float [w]: an [int] operand is converted first. *)
Definition mul_float (x : num) (w : PyFloat.float) : result PyFloat.float :=
  f ← to_float x; mret (PyFloat.mul f w).

(** [x * k] for an [int] [k]. *)
Definition mul_int (x : num) (k : Z) : result num :=
  match x with
  | Int z => Ok (Int (z * k))
  | Float f => g ← PyFloat.of_int k; mret (Float (PyFloat.mul f g))
  end.

(** [round(x, 2)]: an [int] is returned as it is. *)
Definition round2 (x : num) : num :=
  match x with
  | Int z => Int z
  | Float f => Float (PyFloat.round2 f)
  end.

(** Exact mathematical value, the basis of Python's comparisons between
    [int] and [float]. *)
Inductive ext := NaNx | NegInf | Fin (q : Q) | PosInf.

Definition exact_float (f : PyFloat.float) : ext :=
  match f with
  | S754_nan => NaNx
  | S754_infinity true => NegInf
  | S754_infinity false => PosInf
  | S754_zero _ => Fin 0
  | S754_finite s m e =>
      Fin (inject_Z (if s then Zneg m else Zpos m) * Qpower 2 e)
  end.

Definition exact (x : num) : ext :=
  match x with
  | Int z => Fin (inject_Z z)
  | Float f => exact_float f
  end.

(** [None] when one side is NaN (every comparison is then false). *)
Definition ext_compare (a b : ext) : option comparison :=
  match a, b with
  | NaNx, _ | _, NaNx => None
  | NegInf, NegInf => Some Eq
  | NegInf, _ => Some Lt
  | _, NegInf => Some Gt
  | PosInf, PosInf => Some Eq
  | PosInf, _ => Some Gt
  | _, PosInf => Some Lt
  | Fin p, Fin q => Some (p ?= q)%Q
  end.

Definition compare (x y : num) : option comparison :=
  ext_compare (exact x) (exact y).

(** [x < y] and [x == y] *)
Definition ltb (x y : num) : bool :=
  match compare x y with Some Lt => true | _ => false end.
Definition eqb (x y : num) : bool :=
  match compare x y with Some Eq => true | _ => false end.

Definition is_nan (x : num) : bool :=
  match x with Float S754_nan => true | _ => false end.

End Num.

(* ===================================================================== *)
(** * Formatting numbers *)
(* ===================================================================== *)

Module Fmt.

Fixpoint digits (d : Decimal.uint) : str :=
  match d with
  | Decimal.Nil => []
  | Decimal.D0 d' => 48%N :: digits d'
  | Decimal.D1 d' => 49%N :: digits d'
  | Decimal.D2 d' => 50%N :: digits d'
  | Decimal.D3 d' => 51%N :: digits d'
  | Decimal.D4 d' => 52%N :: digits d'
  | Decimal.D5 d' => 53%N :: digits d'
  | Decimal.D6 d' => 54%N :: digits d'
  | Decimal.D7 d' => 55%N :: digits d'
  | Decimal.D8 d' => 56%N :: digits d'
  | Decimal.D9 d' => 57%N :: digits d'
  end.

(** [str(z)] for an [int]. *)
Definition int (z : Z) : str :=
  match Z.to_int z with
  | Decimal.Pos d => digits d
  | Decimal.Neg d => 45%N :: digits d
  end.

(** Two decimal digits, zero padded (the [%d] and [%m] of [strftime]). *)
Definition two_digits (z : Z) : str :=
  if z <? 10 then 48%N :: int z else int z.

Definition sign (s : bool) : str := if s then [45%N] else [].

(** [format(x, '.1f')] on a float: the exact value rounded half-even to one
    decimal. *)
Definition fixed1 (x : PyFloat.float) : str :=
  match x with
  | S754_nan => u#"nan"
  | S754_infinity s => sign s ++ u#"inf"
  | S754_zero s => sign s ++ u#"0.0"
  | S754_finite s m e =>
      let n := PyFloat.scaled_magnitude 1 m e in
      sign s ++ int (n / 10) ++ [46%N] ++ int (n mod 10)
  end.

(** [f"{value:.1f}"]: an [int] is converted to [float] first. *)
Definition num_fixed1 (x : num) : result str :=
  f ← Num.to_float x; mret (fixed1 f).

End Fmt.

(* ===================================================================== *)
(** * The interpreter's library *)
(* ===================================================================== *)

(** What the analyser takes from the interpreter without this development
    fixing it: Unicode lower-casing ([str.lower]), the builtin [sum] on a
    non-empty sequence of floats started from the [int] 0 (plain left-to-right
    addition up to Python 3.11, compensated summation from 3.12), and [repr]
    of a float.  Every theorem holds for every such library; two executable
    instances are given below. *)
Class PyRuntime := {
  str_lower : str -> str;
  sum_floats : list PyFloat.float -> PyFloat.float;
  float_repr : PyFloat.float -> str
}.

Module Runtime.

(** Simple case mapping of Basic Latin, Latin-1 and the basic Cyrillic
    block; other code points are left as they are. *)
Definition lower_cp (c : N) : N :=
  (if (65 <=? c) && (c <=? 90) then c + 32
   else if (192 <=? c) && (c <=? 222) && negb (c =? 215) then c + 32
   else if (1040 <=? c) && (c <=? 1071) then c + 32
   else if (1024 <=? c) && (c <=? 1039) then c + 80
   else c)%N.

Definition lower (s : str) : str := map lower_cp s.

(** [sum] up to Python 3.11: [0 + x0 + x1 + ...] from left to right. *)
Definition sum_plain (xs : list PyFloat.float) : PyFloat.float :=
  fold_left PyFloat.add xs (S754_zero false).

Definition fabs : PyFloat.float -> PyFloat.float := SFabs.
Definition fsub : PyFloat.float -> PyFloat.float -> PyFloat.float :=
  SFsub PyFloat.prec PyFloat.emax.
Definition fleb : PyFloat.float -> PyFloat.float -> bool := SFleb.

Definition is_finite (f : PyFloat.float) : bool :=
  match f with S754_zero _ | S754_finite _ _ _ => true | _ => false end.
Definition is_zero (f : PyFloat.float) : bool :=
  match f with S754_zero _ => true | _ => false end.

(** One step of the compensated loop: [(f_result, c)] and the next item. *)
Definition neumaier_step (st : PyFloat.float * PyFloat.float) (x : PyFloat.float)
    : PyFloat.float * PyFloat.float :=
  let '(f_result, c) := st in
  let t := PyFloat.add f_result x in
  let c' :=
    if fleb (fabs x) (fabs f_result)
    then PyFloat.add c (PyFloat.add (fsub f_result t) x)
    else PyFloat.add c (PyFloat.add (fsub x t) f_result) in
  (t, c').

(** [sum] from Python 3.12: the first item is added to the [int] 0, the
    others go through the compensated loop. *)
Definition sum_compensated (xs : list PyFloat.float) : PyFloat.float :=
  match xs with
  | [] => S754_zero false
  | x0 :: rest =>
      let '(f_result, c) :=
        fold_left neumaier_step rest
          (PyFloat.add (S754_zero false) x0, S754_zero false) in
      if negb (is_zero c) && is_finite c then PyFloat.add f_result c else f_result
  end.

End Runtime.

(* ===================================================================== *)
(** * Dictionaries and the call state *)
(* ===================================================================== *)

(** A [dict] whose iteration order is observed: items in insertion order. *)
Definition dict (V : Type) := list (str * V).

Module Dict.

Fixpoint find {V} (d : dict V) (k : str) : option V :=
  match d with
  | [] => None
  | (k', v) :: d' => if decide (k' = k) then Some v else find d' k
  end.

(** [d[k]] *)
Definition item {V} (d : dict V) (k : str) : result V :=
  match find d k with
  | Some v => Ok v
  | None => Raise (KeyError k)
  end.

(** [for k in d] *)
Definition keys {V} (d : dict V) : list str := map fst d.

End Dict.

(** [LLMAnalyzer]: the only attribute is the weight table. *)
Record LLMAnalyzer := { metrics_weights : dict PyFloat.float }.

(** [LLMAnalyzer.__init__] *)
Definition init : LLMAnalyzer :=
  {| metrics_weights :=
       [ (u#"faithfulness", PyFloat.literal 30 2);
         (u#"coverage", PyFloat.literal 25 2);
         (u#"prompt_adherence", PyFloat.literal 20 2);
         (u#"coherence", PyFloat.literal 15 2);
         (u#"compression", PyFloat.literal 10 2) ] |}.

(** The objects a method call can reach and mutate: the receiver [self] and
    the one mutable argument ([source_stats] or [analyses]). *)
Record call_state (Arg : Type) := CallState { self_obj : LLMAnalyzer; arg_obj : Arg }.
Arguments CallState {Arg} _ _.
Arguments self_obj {Arg} _.
Arguments arg_obj {Arg} _.

(** A method body: it reads and writes the call state and returns a value or
    raises; what was written before a raise stays written. *)
Record M (S A : Type) := MkM { run : S -> result A * S }.
Arguments MkM {S A} _.
Arguments run {S A} _ _.

#[global] Instance M_ret S : MRet (M S) := fun _ a => MkM (fun s => (Ok a, s)).
#[global] Instance M_bind S : MBind (M S) := fun _ _ f m =>
  MkM (fun s =>
    match run m s with
    | (Ok a, s') => run (f a) s'
    | (Raise e, s') => (Raise e, s')
    end).

Module Method.

Definition reads {S A} (f : S -> A) : M S A := MkM (fun s => (Ok (f s), s)).
Definition writes {S} (f : S -> S) : M S unit := MkM (fun s => (Ok tt, f s)).
Definition lift {S A} (r : result A) : M S A := MkM (fun s => (r, s)).

(** The value returned (or the exception raised) and the state left. *)
Definition returned {S A} (m : M S A) (s : S) : result A := fst (run m s).
Definition left_state {S A} (m : M S A) (s : S) : S := snd (run m s).

End Method.

(* ===================================================================== *)
(** * The scoring functions that divide *)
(* ===================================================================== *)

(** [sum(1 for x in xs if cond(x))] *)
Definition sum_ints (xs : list Z) : Z := fold_left Z.add xs 0.

Section Scorer.
Context `{PyRuntime}.

(** [element.lower() in summary.lower()] *)
Definition mentions (summary element : str) : bool :=
  Str.contains (str_lower element) (str_lower summary).

(** The body shared by [calculate_faithfulness] and [calculate_coverage]. *)
Definition containment_score (summary : str) (elements : list str) : result num :=
  let found := sum_ints (map (fun _ => 1) (List.filter (mentions summary) elements)) in
  match elements with
  | [] => Ok (Int 0)
  | _ :: _ =>
      q ← PyFloat.int_true_div found (len elements);
      Num.mul_int (Float q) 100
  end.

(** [LLMAnalyzer.calculate_faithfulness] *)
Definition calculate_faithfulness (summary : str) (source_facts : list str)
    : result num :=
  containment_score summary source_facts.

(** [LLMAnalyzer.calculate_coverage] *)
Definition calculate_coverage (summary : str) (key_elements : list str)
    : result num :=
  containment_score summary key_elements.

End Scorer.

(** [LLMAnalyzer.calculate_compression_ratio] *)
Definition calculate_compression_ratio (source_words summary_words : Z) : result num :=
  if 0 <? summary_words
  then q ← PyFloat.int_true_div source_words summary_words; mret (Float q)
  else Ok (Int 0).

(* ===================================================================== *)
(** * [analyze_model] *)
(* ===================================================================== *)

Record ScoreRecord := {
  model : str;
  word_count : Z;
  metrics : dict num;
  total_score : num
}.

(** The key elements of the article, as listed in [analyze_model]. *)
Definition key_elements : list str :=
  [ u#"1,75 трлн $"; u#"36%"; u#"40%"; u#"o3-mini"; u#"DeepSeek R1";
    u#"Qwen 2.5 Max"; u#"Grok"; u#"YandexGPT"; u#"GigaChat"; u#"Cotype";
    u#"Humanities Last Exam"; u#"13%"; u#"128K"; u#"1M токенов" ].

Definition default_source_words : Z := 4200.

Section Analyzer.
Context `{PyRuntime}.

(** [sum(items)] where every item is a float: the [int] 0 when there is
    none. *)
Definition py_sum (items : list PyFloat.float) : num :=
  match items with
  | [] => Int 0
  | _ :: _ => Float (sum_floats items)
  end.

(** [metrics[metric] * weights[metric]] *)
Definition weighted_item (metrics : dict num) (weights : dict PyFloat.float)
    (metric : str) : result PyFloat.float :=
  value ← Dict.item metrics metric;
  weight ← Dict.item weights metric;
  Num.mul_float value weight.

(** [sum(metrics[metric] * self.metrics_weights[metric] for metric in metrics)] *)
Definition weighted_score (metrics : dict num) (weights : dict PyFloat.float)
    : result num :=
  items ← mapM (weighted_item metrics weights) (Dict.keys metrics);
  mret (py_sum items).

(** [LLMAnalyzer.analyze_model]; the call state holds [self] and
    [source_stats]. *)
Definition analyze_model (model_name summary : str)
    : M (call_state (gmap str Z)) ScoreRecord :=
  let word_count := len (Str.split_ws summary) in
  coverage ← Method.lift (calculate_coverage summary key_elements);
  let prompt_adherence :=
    calculate_prompt_adherence summary word_count default_min_words default_max_words in
  let coherence := calculate_coherence summary in
  source_words ← Method.reads (fun s =>
    default default_source_words (arg_obj s !! u#"word_count"));
  compression ← Method.lift (calculate_compression_ratio source_words word_count);
  let metrics :=
    [ (u#"faithfulness", Int 100);
      (u#"coverage", coverage);
      (u#"prompt_adherence", Int prompt_adherence);
      (u#"coherence", Int coherence);
      (u#"compression", compression) ] in
  weights ← Method.reads (fun s => metrics_weights (self_obj s));
  total_score ← Method.lift (weighted_score metrics weights);
  mret {| model := model_name;
          word_count := word_count;
          metrics := metrics;
          total_score := Num.round2 total_score |}.

End Analyzer.

(* ===================================================================== *)
(** * [generate_comparison_report] *)
(* ===================================================================== *)

(** [list.sort(key=..., reverse=True)] for keys that Python orders totally
    (no NaN among them): the stable sort into descending order.  An element
    is inserted in front of the first one whose key is not greater, so equal
    keys keep the order they had. *)
Section Sort.
Context {A : Type} (key : A -> num).

Fixpoint insert_desc (x : A) (l : list A) : list A :=
  match l with
  | [] => [x]
  | y :: l' =>
      if Num.ltb (key x) (key y) then y :: insert_desc x l' else x :: y :: l'
  end.

Definition sort_reverse (l : list A) : list A := foldr insert_desc [] l.

End Sort.

(** The reading of the clock by [datetime.now()]. *)
Record date := { year : Z; month : Z; day : Z }.

(** [strftime('%d.%m.%Y')] for a four-digit year. *)
Definition strftime_dmY (d : date) : str :=
  Fmt.two_digits (day d) ++ [46%N] ++ Fmt.two_digits (month d) ++ [46%N] ++ Fmt.int (year d).

Definition nl : str := [10%N].

Section Report.
Context `{PyRuntime}.

(** [f"{x}"] on a number *)
Definition num_str (x : num) : str :=
  match x with
  | Int z => Fmt.int z
  | Float f => float_repr f
  end.

(** One row of the summary table. *)
Definition table_row (analysis : ScoreRecord) : str :=
  u#"| " ++ model analysis ++ u#" | " ++ num_str (total_score analysis)
    ++ u#" | " ++ Fmt.int (word_count analysis) ++ u#" |".

(** One bullet of a detail subsection. *)
Definition metric_line (item : str * num) : result str :=
  v ← Fmt.num_fixed1 (snd item);
  mret (u#"- **" ++ fst item ++ u#"**: " ++ v).

(** What the second loop appends for one record: the subsection header, a
    bullet per metric and an empty line. *)
Definition detail_lines (analysis : ScoreRecord) : result (list str) :=
  bullets ← mapM metric_line (metrics analysis);
  mret ([u#"### " ++ model analysis ++ nl] ++ bullets ++ [[]]).

Definition report_head (today : date) : list str :=
  [ u#"# Сравнительный анализ LLM моделей" ++ nl;
    u#"Дата: " ++ strftime_dmY today ++ nl ].

Definition table_head : list str :=
  [ u#"## Итоговые результаты" ++ nl;
    u#"| Модель | Общий балл | Слов |";
    u#"|--------|------------|------|" ].

Definition details_head : list str := [ nl ++ u#"## Детальные метрики" ++ nl ].

(** [LLMAnalyzer.generate_comparison_report]; the call state holds [self]
    and the caller's list [analyses], [today] is what the clock shows. *)
Definition generate_comparison_report (today : date)
    : M (call_state (list ScoreRecord)) str :=
  let report := report_head today in
  Method.writes (fun s =>
    CallState (self_obj s) (sort_reverse total_score (arg_obj s)));;
  let report := report ++ table_head in
  analyses ← Method.reads arg_obj;
  let report := report ++ map table_row analyses in
  let report := report ++ details_head in
  details ← Method.lift (mapM detail_lines analyses);
  let report := report ++ concat details in
  mret (Str.join nl report).

End Report.

(* ===================================================================== *)
(** * Executable instances of the interpreter's library *)
(* ===================================================================== *)

Module Repr.

(** [x < 10^p] for the positive rational [x = n / d]. *)
Definition below_pow10 (n d p : Z) : bool :=
  if 0 <=? p then n <? d * 10 ^ p else n * 10 ^ (- p) <? d.

(** The first [p] at or after [p0] with [x < 10^p]. *)
Fixpoint first_pow10 (fuel : nat) (n d p0 : Z) : Z :=
  match fuel with
  | O => p0
  | S fuel' => if below_pow10 n d p0 then p0 else first_pow10 fuel' n d (p0 + 1)
  end.

(** The decimal point position: [10^(p-1) <= m * 2^e < 10^p]. *)
Definition decpt (m : positive) (e : Z) : Z :=
  let n := if 0 <=? e then Zpos m * 2 ^ e else Zpos m in
  let d := if 0 <=? e then 1 else 2 ^ (- e) in
  let l := Z.log2 (Zpos m) + e in
  first_pow10 8 n d (l * 30103 / 100000 - 2).

(** The double nearest to [c * 10^q]. *)
Definition of_decimal (c q : Z) : PyFloat.float :=
  if 0 <=? q then PyFloat.div (PyFloat.raw (c * 10 ^ q)) (PyFloat.raw 1)
  else PyFloat.div (PyFloat.raw c) (PyFloat.raw (10 ^ (- q))).

Definition same (x y : PyFloat.float) : bool :=
  match x, y with
  | S754_finite s m e, S754_finite s' m' e' =>
      (Pos.eqb m m') && (e =? e') && Bool.eqb s s'
  | _, _ => false
  end.

(** [m * 2^e * 10^(k - p)] as a fraction: the value scaled so that its
    integer part has [k] digits. *)
Definition scaled (m : positive) (e p k : Z) : Z * Z :=
  let n := if 0 <=? e then Zpos m * 2 ^ e else Zpos m in
  let d := if 0 <=? e then 1 else 2 ^ (- e) in
  let q := p - k in
  (if 0 <=? q then n else n * 10 ^ (- q), if 0 <=? q then d * 10 ^ q else d).

(** With [k] significant digits: the digit string (as an integer) that
    reads back as [m * 2^e], the nearer one when two do. *)
Definition candidate (m : positive) (e p k : Z) : option Z :=
  let '(n, d) := scaled m e p k in
  let lo := n / d in
  let hi := lo + 1 in
  let x := S754_finite false m e in
  let ok_lo := (0 <? lo) && same (of_decimal lo (p - k)) x in
  let ok_hi := same (of_decimal hi (p - k)) x in
  match ok_lo, ok_hi with
  | true, false => Some lo
  | false, true => Some hi
  | true, true => Some (PyFloat.div_half_even n d)
  | false, false => None
  end.

(** The shortest digit string, tried from [k] digits on; seventeen digits
    always read back. *)
Fixpoint shortest (fuel : nat) (m : positive) (e p k : Z) : Z * Z :=
  match fuel with
  | O => let '(n, d) := scaled m e p k in (PyFloat.div_half_even n d, k)
  | S fuel' =>
      match candidate m e p k with
      | Some c => (c, k)
      | None => shortest fuel' m e p (k + 1)
      end
  end.

(** Trailing zeros of the digit string are dropped. *)
Fixpoint strip_zeros (fuel : nat) (c : Z) : Z :=
  match fuel with
  | O => c
  | S fuel' => if (c mod 10 =? 0) && (0 <? c) then strip_zeros fuel' (c / 10) else c
  end.

Definition zeros (n : Z) : str := repeat 48%N (Z.to_nat n).

(** [repr] of the digits [ds] with the decimal point after [pt] of them. *)
Definition layout (ds : str) (pt : Z) : str :=
  let k := len ds in
  if (pt <=? -4) || (16 <? pt) then
    let ex := pt - 1 in
    firstn 1 ds
      ++ (if 1 <? k then [46%N] ++ skipn 1 ds else [])
      ++ [101%N] ++ (if ex <? 0 then [45%N] else [43%N])
      ++ Fmt.two_digits (Z.abs ex)
  else if pt <=? 0 then u#"0." ++ zeros (- pt) ++ ds
  else if k <=? pt then ds ++ zeros (pt - k) ++ u#".0"
  else firstn (Z.to_nat pt) ds ++ [46%N] ++ skipn (Z.to_nat pt) ds.

(** [repr(x)]: the shortest digit string that reads back as [x]. *)
Definition repr (x : PyFloat.float) : str :=
  match x with
  | S754_nan => u#"nan"
  | S754_infinity s => Fmt.sign s ++ u#"inf"
  | S754_zero s => Fmt.sign s ++ u#"0.0"
  | S754_finite s m e =>
      let p := decpt m e in
      let '(c, k) := shortest 16 m e p 1 in
      let ds := Fmt.int (strip_zeros 17 c) in
      (* [c] has [k] digits, or [k + 1] when it was rounded up to [10^k] *)
      let pt := p + (len (Fmt.int c) - k) in
      Fmt.sign s ++ layout ds pt
  end.

End Repr.

(** The library of CPython up to 3.11 and from 3.12, on the code points that
    [Runtime.lower_cp] covers. *)
Definition cpython311 : PyRuntime :=
  {| str_lower := Runtime.lower;
     sum_floats := Runtime.sum_plain;
     float_repr := Repr.repr |}.

Definition cpython312 : PyRuntime :=
  {| str_lower := Runtime.lower;
     sum_floats := Runtime.sum_compensated;
     float_repr := Repr.repr |}.

(* ===================================================================== *)
(** * Vocabulary of the statements *)
(* ===================================================================== *)

(** A float that is a number: a zero or a finite value. *)
Definition proper (f : PyFloat.float) : Prop :=
  match f with
  | S754_zero _ | S754_finite _ _ _ => True
  | _ => False
  end.

(** The doubles 0.0, 1.0, 14.0, 80.0, 92.5 and 100.0. *)
Definition f_zero : PyFloat.float := S754_zero false.
Definition f_one : PyFloat.float := Eval vm_compute in PyFloat.literal 1 0.
Definition f_14 : PyFloat.float := Eval vm_compute in PyFloat.literal 14 0.
Definition f_80 : PyFloat.float := Eval vm_compute in PyFloat.literal 80 0.
Definition f_92_5 : PyFloat.float := Eval vm_compute in PyFloat.literal 925 1.
Definition f_100 : PyFloat.float := Eval vm_compute in PyFloat.literal 100 0.

(** [needle] occurs in [hay] as a contiguous run of code points. *)
Definition substring (needle hay : str) : Prop :=
  exists before after, hay = before ++ needle ++ after.

(** The five metric names, in the order of the weight table. *)
Definition metric_names : list str :=
  [ u#"faithfulness"; u#"coverage"; u#"prompt_adherence"; u#"coherence";
    u#"compression" ].

Section SpecSide.
Context `{PyRuntime}.

(** The number of elements whose lowercase form is a substring of the
    lowercased summary. *)
Definition covered_count (summary : str) (elements : list str) : Z :=
  len (List.filter (fun element =>
         Str.contains (str_lower element) (str_lower summary)) elements).

(** As the specification words the total:
    [round(sum(metrics[k] * weights[k] for k in weights), 2)]. *)
Definition spec_total (weights : dict PyFloat.float) (metrics : dict num)
    : result num :=
  items ← mapM (fun k =>
                  value ← Dict.item metrics k;
                  weight ← Dict.item weights k;
                  Num.mul_float value weight) (Dict.keys weights);
  mret (Num.round2 (py_sum items)).

End SpecSide.

Section Order.
Context {A : Type} (key : A -> num).

(** [a] may stand before [b] in a list sorted in descending order of
    [key]: [key a < key b] is false. *)
Definition desc (a b : A) : Prop := Num.ltb (key a) (key b) = false.

Definition no_nan (l : list A) : Prop :=
  Forall (fun a => Num.is_nan (key a) = false) l.

(** The elements whose key equals [v], in the order of the list. *)
Definition with_key (v : num) (l : list A) : list A :=
  List.filter (fun a => Num.eqb (key a) v) l.

End Order.

(** Every metric value of every record can be written with [:.1f]. *)
Definition printable (analyses : list ScoreRecord) : Prop :=
  Forall (fun r => Forall (fun item => exists f, Num.to_float (snd item) = Ok f)
                     (metrics r)) analyses.

(** [source_stats.get('word_count', 4200)] *)
Definition source_words_of (stats : gmap str Z) : Z :=
  default default_source_words (stats !! u#"word_count").

(** The [metrics] dictionary of [analyze_model], given the two values that
    can raise. *)
Definition metrics_of (summary : str) (coverage compression : num) : dict num :=
  let word_count := len (Str.split_ws summary) in
  [ (u#"faithfulness", Int 100);
    (u#"coverage", coverage);
    (u#"prompt_adherence",
      Int (calculate_prompt_adherence summary word_count
             default_min_words default_max_words));
    (u#"coherence", Int (calculate_coherence summary));
    (u#"compression", compression) ].

(** The lines of a report over the records [sorted], whose detail
    subsections are [details]: title, date, table head, one row per record,
    details head, the subsections. *)
Definition report_text `{PyRuntime} (today : date) (sorted : list ScoreRecord)
    (details : list (list str)) : list str :=
  report_head today ++ table_head ++ map table_row sorted ++ details_head
    ++ concat details.

(** Two records and two days for the examples. *)
Module Sample.

Definition rec_80 : ScoreRecord :=
  {| model := u#"A"; word_count := 120;
     metrics := [(u#"faithfulness", Int 100); (u#"coverage", Float f_80)];
     total_score := Float f_80 |}.

Definition rec_92_5 : ScoreRecord :=
  {| model := u#"B"; word_count := 130;
     metrics := [(u#"faithfulness", Int 100); (u#"coverage", Float f_92_5)];
     total_score := Float f_92_5 |}.

Definition day1 : date := {| year := 2024; month := 3; day := 7 |}.
Definition day2 : date := {| year := 2024; month := 3; day := 8 |}.

Definition summary : str :=
  u#"1. Рынок ИИ вырастет до 1,75 трлн $. 2. DeepSeek R1 и grok. 3. YANDEXGPT и GigaChat.".

(** What [analyze_model("Claude", summary, {})] returns: coverage
    35.714285714285715 (5 of 14), compression 247.05882352941177 (4200 / 17),
    total 87.63. *)
Definition analysed : ScoreRecord :=
  {| model := u#"Claude";
     word_count := 17;
     metrics :=
       [ (u#"faithfulness", Int 100);
         (u#"coverage", Float (PyFloat.literal 35714285714285715 15));
         (u#"prompt_adherence", Int 60);
         (u#"coherence", Int 80);
         (u#"compression", Float (PyFloat.literal 24705882352941177 14)) ];
     total_score := Float (PyFloat.literal 8763 2) |}.

(** Source statistics without a ['word_count'] key. *)
Definition other_stats : gmap str Z := <[u#"sentences" := 250]> ∅.

End Sample.


(* ===================================================================== *)
(** * More of [str]: [strip], [split] on a string, [splitlines] *)
(* ===================================================================== *)

Module Text.

(** [s.count(c)] for one code point. *)
Definition count (c : N) (s : str) : Z :=
  len (List.filter (fun d => (d =? c)%N) s).

(** All code points are whitespace ([s.strip() == ""]). *)
Definition blank (s : str) : bool := forallb Str.isspace s.

(** [s.lstrip()], [s.rstrip()] and [s.strip()] *)
Fixpoint lstrip (s : str) : str :=
  match s with
  | c :: s' => if Str.isspace c then lstrip s' else s
  | [] => []
  end.

Definition rstrip (s : str) : str := rev (lstrip (rev s)).

Definition strip (s : str) : str := rstrip (lstrip s).

(** [s.split(sep)] for a non-empty [sep]: the occurrences of [sep] are taken
    from the left and do not overlap.  [skip] counts the code points of a
    separator just matched that are still to be passed over, [cur] is the
    field being read, reversed. *)
Fixpoint split_by_from (sep : str) (skip : nat) (cur : str) (s : str) : list str :=
  match s with
  | [] => [rev cur]
  | c :: s' =>
      match skip with
      | S k => split_by_from sep k cur s'
      | O =>
          if Str.startswith sep s
          then rev cur :: split_by_from sep (length sep - 1) [] s'
          else split_by_from sep 0 (c :: cur) s'
      end
  end.

Definition split_by (sep : str) (s : str) : list str := split_by_from sep 0 [] s.

(** The code points at which [str.splitlines] ends a line. *)
Definition is_linebreak (c : N) : bool :=
  ((10 <=? c) && (c <=? 13) || (28 <=? c) && (c <=? 30)
   || (c =? 133) || (c =? 8232) || (c =? 8233))%N.

(** [s.splitlines()]: a carriage return followed by a line feed ends one
    line, and there is no empty last line.  [after_cr] tells that the code
    point before was a carriage return. *)
Fixpoint splitlines_from (after_cr : bool) (cur : str) (s : str) : list str :=
  match s with
  | [] => match cur with [] => [] | _ => [rev cur] end
  | c :: s' =>
      if after_cr && (c =? 10)%N then splitlines_from false cur s'
      else if is_linebreak c
      then rev cur :: splitlines_from (c =? 13)%N [] s'
      else splitlines_from false (c :: cur) s'
  end.

Definition splitlines (s : str) : list str := splitlines_from false [] s.

End Text.

(* ===================================================================== *)
(** * [generate_report.py] and [view_report.py]: counting *)
(* ===================================================================== *)

(** [ReportGenerator.count_words] *)
Definition count_words (text : str) : Z := len (Str.split_ws text).

(** What is found at a path by [os.path.exists] and [open] ... [read] (or
    [json.load]): no file, a file whose reading raises (with the text of the
    exception), or the value read. *)
Inductive file (A : Type) :=
| Missing
| Unreadable (error : str)
| Readable (content : A).
Arguments Missing {A}.
Arguments Unreadable {A} error.
Arguments Readable {A} content.

(** The three numbers of [display_report_stats]: lines, words, characters. *)
Record report_stats := { stat_lines : Z; stat_words : Z; stat_chars : Z }.

Definition stats_of (content : str) : report_stats :=
  {| stat_lines := len (Text.splitlines content);
     stat_words := len (Str.split_ws content);
     stat_chars := len content |}.

Definition rule : str := repeat 45%N 60.

(** [display_report_stats]: the lines printed and the exit status;
    [report_path] is [os.path.join("reports", "FINAL_STRUCTURED_REPORT.md")]. *)
Definition display_report_stats (report_path : str) (report : file str)
    : list str * Z :=
  match report with
  | Missing => ([u#"[ERROR] Final report not found at: " ++ report_path], 1)
  | Unreadable error =>
      ([ u#"[INFO] Displaying statistics for: " ++ report_path; rule;
         u#"[ERROR] Failed to read and parse report: " ++ error ], 1)
  | Readable content =>
      let st := stats_of content in
      ([ u#"[INFO] Displaying statistics for: " ++ report_path; rule;
         u#"  Lines: " ++ Fmt.int (stat_lines st);
         u#"  Words: " ++ Fmt.int (stat_words st);
         u#"  Characters: " ++ Fmt.int (stat_chars st);
         rule;
         u#"[SUCCESS] Statistics displayed." ], 0)
  end.

(* ===================================================================== *)
(** * [main] of [llm_analyzer.py] *)
(* ===================================================================== *)

Definition summary_marker : str := u#"**Суммаризация:**".
Definition statistics_marker : str := u#"**Статистика:**".

(** What the statements of [main] can raise: an exception of reading or
    parsing a file, [AttributeError] (a method that the object does not
    have), [IndexError], or what the analyser raises. *)
Inductive main_exn :=
| ReadError (error : str)
| AttributeError
| IndexError
| Raised (e : exn).

Inductive main_result (A : Type) :=
| Done (a : A)
| Failed (e : main_exn).
Arguments Done {A} a.
Arguments Failed {A} e.

#[global] Instance main_result_ret : MRet main_result := fun _ a => Done a.
#[global] Instance main_result_bind : MBind main_result := fun _ _ f m =>
  match m with
  | Done a => f a
  | Failed e => Failed e
  end.

(** [l[i]] for [i >= 0] *)
Definition index {A} (l : list A) (i : nat) : main_result A :=
  match l !! i with
  | Some x => Done x
  | None => Failed IndexError
  end.

(** The summary that [main] takes out of the text of
    [new_claude_summary.md]. *)
Definition claude_summary_of (content : str) : main_result str :=
  if Str.contains summary_marker content
  then
    parts ← index (Text.split_by summary_marker content) 1;
    first ← index (Text.split_by statistics_marker parts) 0;
    mret (Text.strip first)
  else mret content.

(** A value that [json.load] returns. *)
#[warnings="-register-all"] Inductive json :=
| JNull
| JBool (b : bool)
| JNumber (n : num)
| JString (s : str)
| JArray (items : list json)
| JObject (members : list (str * json)).

(** [groq_data.get("summary", "")]: only a [dict] has the method. *)
Definition get_summary (groq_data : json) : main_result json :=
  match groq_data with
  | JObject members => Done (default (JString []) (Dict.find members u#"summary"))
  | _ => Failed AttributeError
  end.

(** What [main] prints (one entry per [print]) and the files it writes. *)
Record main_output := { printed : list str; written : list (str * str) }.

Definition no_files_line : str := u#"[ERROR] No summary files found for analysis".
Definition saved_line : str := nl ++ u#"[OK] Report saved to analysis_report.md".
Definition report_name : str := u#"analysis_report.md".

Section Main.
Context `{PyRuntime}.

(** [analyses.append(analyzer.analyze_model(model_name, summary, source_stats))];
    the state holds [analyzer] and [source_stats]. *)
Definition analyze_into (model_name summary : str)
    (st : call_state (gmap str Z) * list ScoreRecord)
    : main_result (call_state (gmap str Z) * list ScoreRecord) :=
  match run (analyze_model model_name summary) (fst st) with
  | (Ok r, s') => Done (s', snd st ++ [r])
  | (Raise e, _) => Failed (Raised e)
  end.

(** The block of [main] for [new_claude_summary.md]. *)
Definition analyze_claude (claude : file str)
    (st : call_state (gmap str Z) * list ScoreRecord)
    : main_result (call_state (gmap str Z) * list ScoreRecord) :=
  match claude with
  | Missing => Done st
  | Unreadable error => Failed (ReadError error)
  | Readable content =>
      claude_summary ← claude_summary_of content;
      analyze_into u#"Claude 3.5 Sonnet" claude_summary st
  end.

(** The block of [main] for [groq_new_result.json]; [summary.split()] in
    [analyze_model] is the first use of the summary, and only a [str] has
    the method. *)
Definition analyze_groq (groq : file json)
    (st : call_state (gmap str Z) * list ScoreRecord)
    : main_result (call_state (gmap str Z) * list ScoreRecord) :=
  match groq with
  | Missing => Done st
  | Unreadable error => Failed (ReadError error)
  | Readable groq_data =>
      groq_summary ← get_summary groq_data;
      match groq_summary with
      | JString summary => analyze_into u#"Groq Llama3-8B" summary st
      | _ => Failed AttributeError
      end
  end.

(** The last block of [main]: [if analyses: ... else: ...]. *)
Definition write_report (today : date)
    (st : call_state (gmap str Z) * list ScoreRecord) : main_result main_output :=
  match snd st with
  | [] => Done {| printed := [no_files_line]; written := [] |}
  | _ :: _ =>
      match run (generate_comparison_report today)
                (CallState (self_obj (fst st)) (snd st)) with
      | (Ok report, _) =>
          Done {| printed := [report; saved_line];
                  written := [(report_name, report)] |}
      | (Raise e, _) => Failed (Raised e)
      end
  end.

(** [main]; [claude] and [groq] are what is found at
    [results/new_claude_summary.md] and [results/groq_new_result.json],
    [today] is what the clock shows. *)
Definition main (today : date) (claude : file str) (groq : file json)
    : main_result main_output :=
  let analyzer := init in
  let source_stats : gmap str Z := <[u#"word_count" := 4200]> ∅ in
  st ← analyze_claude claude (CallState analyzer source_stats, []);
  st ← analyze_groq groq st;
  write_report today st.

End Main.

(* ===================================================================== *)
(** * Vocabulary of the further statements *)
(* ===================================================================== *)

(** [x <= y] on numbers, by exact value; false when one of them is NaN. *)
Definition num_le (x y : num) : Prop :=
  match Num.compare x y with
  | Some Lt | Some Eq => True
  | _ => False
  end.

(** Every occurrence of [sep] in [s] starts at index [n] or later. *)
Definition none_before (sep : str) (n : nat) (s : str) : Prop :=
  forall p q, s = p ++ sep ++ q -> (n <= length p)%nat.

(** The records [analyze_model] returned, for some names, summaries,
    receivers and statistics. *)
Definition analysed `{PyRuntime} (analyses : list ScoreRecord) : Prop :=
  Forall (fun r => exists model_name summary s,
            Method.returned (analyze_model model_name summary) s = Ok r)
         analyses.

(** The state in which [main] makes its calls. *)
Definition main_state : call_state (gmap str Z) :=
  CallState init (<[u#"word_count" := 4200]> ∅).

(** A float that is not negative: a zero, a positive finite value or
    [+inf]. *)
Definition nonneg (f : PyFloat.float) : Prop :=
  match f with
  | S754_zero _ | S754_finite false _ _ | S754_infinity false => True
  | _ => False
  end.

(** A finite float greater than zero. *)
Definition positive_finite (f : PyFloat.float) : Prop :=
  match f with
  | S754_finite false _ _ => True
  | _ => False
  end.

(** The two summation algorithms of CPython. *)
Definition known_sum `{PyRuntime} : Prop :=
  sum_floats = Runtime.sum_plain \/ sum_floats = Runtime.sum_compensated.

(* ===================================================================== *)
(** * Facts about binary64 rounding *)
(* ===================================================================== *)

Lemma digits2_pos_size p : digits2_pos p = Pos.size p.
Proof. induction p; simpl; congruence. Qed.

Lemma Zdigits2_pos_log2 p : Zdigits2 (Zpos p) = Z.log2 (Zpos p) + 1.
Proof.
  simpl. rewrite digits2_pos_size. destruct p; simpl; try lia.
Qed.

Lemma Zdigits2_le m k : 0 <= k -> 0 <= m -> m < 2 ^ k -> Zdigits2 m <= k.
Proof.
  intros Hk Hm Hlt. destruct m as [|p|p]; [simpl; lia| |lia].
  rewrite Zdigits2_pos_log2.
  assert (Z.log2 (Zpos p) < k); [|lia].
  apply Z.log2_lt_pow2; lia.
Qed.

Lemma shr_1_m mrs : 0 <= shr_m mrs -> shr_m (shr_1 mrs) = shr_m mrs / 2.
Proof.
  destruct mrs as [m r s]. simpl. intros Hm.
  destruct m as [|[p|p|]|p]; cbn [shr_m]; [reflexivity| | |reflexivity|lia].
  - apply Z.div_unique with 1; lia.
  - apply Z.div_unique with 0; lia.
Qed.

Lemma iter_shr_1_m n : forall mrs, 0 <= shr_m mrs ->
  shr_m (SpecFloat.iter_pos shr_1 n mrs) = shr_m mrs / 2 ^ Zpos n.
Proof.
  assert (Hnn : forall mrs, 0 <= shr_m mrs -> 0 <= shr_m (shr_1 mrs)).
  { intros mrs Hm. rewrite shr_1_m by done. apply Z.div_pos; lia. }
  induction n as [n IH|n IH|]; intros mrs Hm; simpl.
  - rewrite IH, IH, shr_1_m; try done.
    + rewrite !Z.div_div by lia. f_equal.
      replace (Z.pos n~1) with (1 + Z.pos n + Z.pos n) by lia.
      rewrite !Z.pow_add_r by lia. ring.
    + apply Hnn, Hm.
    + rewrite IH by (apply Hnn, Hm). apply Z.div_pos; [apply Hnn, Hm|lia].
  - rewrite IH, IH; try done.
    + rewrite !Z.div_div by lia. f_equal.
      replace (Z.pos n~0) with (Z.pos n + Z.pos n) by lia.
      rewrite !Z.pow_add_r by lia. ring.
    + rewrite IH by done. apply Z.div_pos; [done|lia].
  - rewrite shr_1_m by done. done.
Qed.

Lemma shr_record_of_loc_m m l : shr_m (shr_record_of_loc m l) = m.
Proof. destruct l as [|[]]; reflexivity. Qed.

Lemma shr_fexp_spec m e l : 0 <= m ->
  snd (shr_fexp 53 1024 m e l) = Z.max e (fexp 53 1024 (Zdigits2 m + e)) /\
  shr_m (fst (shr_fexp 53 1024 m e l))
    = m / 2 ^ (snd (shr_fexp 53 1024 m e l) - e).
Proof.
  intros Hm. unfold shr_fexp, shr.
  destruct (fexp 53 1024 (Zdigits2 m + e) - e) as [|n|n] eqn:En; cbn [fst snd].
  - rewrite shr_record_of_loc_m, Z.sub_diag, Z.div_1_r. split; lia.
  - rewrite iter_shr_1_m by (rewrite shr_record_of_loc_m; done).
    rewrite shr_record_of_loc_m. split; [lia|]. do 2 f_equal. lia.
  - rewrite shr_record_of_loc_m, Z.sub_diag, Z.div_1_r. split; lia.
Qed.

Lemma round_nearest_even_bounds m l :
  m <= round_nearest_even m l <= m + 1.
Proof.
  destruct l as [|[]]; simpl; try lia. destruct (Z.even m); lia.
Qed.

Lemma fexp_unfold x : fexp 53 1024 x = Z.max (x - 53) (-1074).
Proof. reflexivity. Qed.

Lemma binary_round_aux_proper s m e l :
  0 <= m -> e <= 971 -> m < 2 ^ (1023 - e) ->
  proper (binary_round_aux 53 1024 s m e l).
Proof.
  intros Hm He Hlt. unfold binary_round_aux.
  destruct (shr_fexp_spec m e l Hm) as [He' Hm'].
  destruct (shr_fexp 53 1024 m e l) as [mrs' e']. cbn [fst snd] in He', Hm'.
  pose proof (round_nearest_even_bounds (shr_m mrs') (loc_of_shr_record mrs')) as Hr.
  set (m1 := round_nearest_even (shr_m mrs') (loc_of_shr_record mrs')) in *.
  assert (Hd : Zdigits2 m <= 1023 - e) by (apply Zdigits2_le; lia).
  rewrite fexp_unfold in He'.
  assert (He'971 : e' <= 971) by lia.
  assert (Hm'pos : 0 <= shr_m mrs').
  { rewrite Hm'. apply Z.div_pos; [done|]. apply Z.pow_pos_nonneg; lia. }
  assert (Hm'lt : shr_m mrs' < 2 ^ (1023 - e')).
  { rewrite Hm'. apply Z.div_lt_upper_bound; [apply Z.pow_pos_nonneg; lia|].
    rewrite <- Z.pow_add_r by lia. replace (e' - e + (1023 - e')) with (1023 - e) by lia.
    done. }
  assert (Hm1 : 0 <= m1) by lia.
  assert (Hd1 : Zdigits2 m1 <= 1024 - e').
  { apply Zdigits2_le; [lia|lia|].
    replace (1024 - e') with (Z.succ (1023 - e')) by lia.
    rewrite Z.pow_succ_r by lia. lia. }
  destruct (shr_fexp_spec m1 e' loc_Exact Hm1) as [He'' Hm''].
  destruct (shr_fexp 53 1024 m1 e' loc_Exact) as [mrs'' e'']. cbn [fst snd] in He'', Hm''.
  rewrite fexp_unfold in He''.
  assert (0 <= shr_m mrs'').
  { rewrite Hm''. apply Z.div_pos; [done|]. apply Z.pow_pos_nonneg; lia. }
  destruct (shr_m mrs'') as [|p|p]; [done| |lia].
  replace (e'' <=? 1024 - 53) with true by (symmetry; apply Z.leb_le; lia).
  done.
Qed.

Lemma div_eucl_div_mod a b : Z.div_eucl a b = (a / b, a mod b).
Proof. unfold Z.div, Z.modulo. destruct (Z.div_eucl a b); reflexivity. Qed.

Lemma new_location_zero nb : new_location nb 0 = loc_Exact.
Proof. unfold new_location. destruct (Z.even nb); reflexivity. Qed.

(** The quotient step on two integers: the exponent and the truncated
    quotient. *)
Lemma SFdiv_core_ints (a b : positive) :
  let e' := Z.min (fexp 53 1024 (Zdigits2 (Zpos a) - Zdigits2 (Zpos b))) 0 in
  SFdiv_core_binary 53 1024 (Zpos a) 0 (Zpos b) 0
  = (Zpos a * 2 ^ (- e') / Zpos b, e',
     new_location (Zpos b) ((Zpos a * 2 ^ (- e')) mod Zpos b)).
Proof.
  intros e'. unfold SFdiv_core_binary.
  replace (Zdigits2 (Zpos a) + 0 - (Zdigits2 (Zpos b) + 0))
    with (Zdigits2 (Zpos a) - Zdigits2 (Zpos b)) by lia.
  change (0 - 0) with 0. fold e'.
  assert (He' : e' <= 0) by (unfold e'; lia).
  assert (Hm : match 0 - e' with
               | 0 => Zpos a
               | Zpos _ => Z.shiftl (Zpos a) (0 - e')
               | Zneg _ => 0
               end = Zpos a * 2 ^ (- e')).
  { destruct (0 - e') as [|p|p] eqn:Es; [| |lia].
    - replace (- e') with 0 by lia. lia.
    - rewrite Z.shiftl_mul_pow2 by lia. do 2 f_equal. lia. }
  rewrite Hm, div_eucl_div_mod. reflexivity.
Qed.

Lemma SFdiv_ints_proper (sa sb : bool) (a b : positive) :
  Zpos a < 2 ^ 1023 * Zpos b ->
  proper (SFdiv 53 1024 (S754_finite sa a 0) (S754_finite sb b 0)).
Proof.
  intros Hab. unfold SFdiv. rewrite SFdiv_core_ints.
  set (e' := Z.min _ 0). assert (He' : e' <= 0) by (unfold e'; lia).
  apply binary_round_aux_proper.
  - apply Z.div_pos; [|lia]. apply Z.mul_nonneg_nonneg; [lia|].
    apply Z.pow_nonneg; lia.
  - lia.
  - apply Z.div_lt_upper_bound; [lia|].
    replace (1023 - e') with (1023 + - e') by lia.
    rewrite Z.pow_add_r by lia.
    assert (0 < 2 ^ (- e')) by (apply Z.pow_pos_nonneg; lia). nia.
Qed.

Lemma SFdiv_ints_same (sa sb : bool) (a : positive) :
  SFdiv 53 1024 (S754_finite sa a 0) (S754_finite sb a 0)
  = S754_finite (xorb sa sb) 4503599627370496 (-52).
Proof.
  unfold SFdiv. rewrite SFdiv_core_ints. rewrite Z.sub_diag.
  change (Z.min (fexp 53 1024 0) 0) with (-53).
  change (- -53) with 53.
  rewrite (Z.mul_comm (Zpos a)), Z.mod_mul, Z.div_mul by lia.
  rewrite new_location_zero. reflexivity.
Qed.

(* ===================================================================== *)
(** * Facts about the order of numbers and the sort *)
(* ===================================================================== *)

Module NumOrder.

Lemma ext_compare_antisym a b :
  Num.ext_compare b a = CompOpp <$> Num.ext_compare a b.
Proof.
  destruct a, b; simpl; try reflexivity. f_equal. symmetry. apply Qcompare_antisym.
Qed.

Lemma compare_antisym x y : Num.compare y x = CompOpp <$> Num.compare x y.
Proof. apply ext_compare_antisym. Qed.

Lemma ltb_asym x y : Num.ltb x y = true -> Num.ltb y x = false.
Proof.
  unfold Num.ltb. rewrite (compare_antisym x y).
  destruct (Num.compare x y) as [[]|]; simpl; congruence.
Qed.

Lemma ext_not_lt_trans a b c :
  a <> Num.NaNx -> b <> Num.NaNx -> c <> Num.NaNx ->
  Num.ext_compare a b <> Some Lt -> Num.ext_compare b c <> Some Lt ->
  Num.ext_compare a c <> Some Lt.
Proof.
  destruct a as [| |p|], b as [| |q|], c as [| |r|]; simpl; try congruence.
  intros _ _ _ Hab Hbc Hac.
  assert (~ (p < q)%Q) by (rewrite Qlt_alt; congruence).
  assert (~ (q < r)%Q) by (rewrite Qlt_alt; congruence).
  assert ((p < r)%Q) by (rewrite Qlt_alt; congruence).
  apply Qnot_lt_le in H, H0.
  apply (Qlt_irrefl p). eapply Qlt_le_trans; [eassumption|].
  eapply Qle_trans; eassumption.
Qed.

Lemma exact_nan x : Num.is_nan x = false -> Num.exact x <> Num.NaNx.
Proof. destruct x as [z|[[]|[]| |]]; simpl in *; congruence. Qed.

(** Without NaN, "not less than" is transitive. *)
Lemma not_ltb_trans x y z :
  Num.is_nan x = false -> Num.is_nan y = false -> Num.is_nan z = false ->
  Num.ltb x y = false -> Num.ltb y z = false -> Num.ltb x z = false.
Proof.
  unfold Num.ltb, Num.compare. intros Hx Hy Hz Hxy Hyz.
  pose proof (ext_not_lt_trans _ _ _
    (exact_nan _ Hx) (exact_nan _ Hy) (exact_nan _ Hz)) as Ht.
  destruct (Num.ext_compare (Num.exact x) (Num.exact y)) as [[]|];
  destruct (Num.ext_compare (Num.exact y) (Num.exact z)) as [[]|];
  destruct (Num.ext_compare (Num.exact x) (Num.exact z)) as [[]|];
  try reflexivity; try discriminate; exfalso; apply Ht; congruence.
Qed.

Lemma ext_eq_lt a b v :
  Num.ext_compare a v = Some Eq -> Num.ext_compare b v = Some Eq ->
  Num.ext_compare a b <> Some Lt.
Proof.
  destruct a as [| |p|], b as [| |q|], v as [| |r|]; simpl; try congruence.
  intros Ha Hb Hab.
  assert (p == r)%Q by (rewrite Qeq_alt; congruence).
  assert (q == r)%Q by (rewrite Qeq_alt; congruence).
  assert (p < q)%Q by (rewrite Qlt_alt; congruence).
  rewrite H, H0 in H1. exact (Qlt_irrefl _ H1).
Qed.

(** Two numbers equal to a third are not strictly ordered. *)
Lemma eqb_not_ltb x y v :
  Num.eqb x v = true -> Num.eqb y v = true -> Num.ltb x y = false.
Proof.
  unfold Num.eqb, Num.ltb, Num.compare. intros Hx Hy.
  pose proof (ext_eq_lt (Num.exact x) (Num.exact y) (Num.exact v)) as Ht.
  destruct (Num.ext_compare (Num.exact x) (Num.exact v)) as [[]|]; try discriminate.
  destruct (Num.ext_compare (Num.exact y) (Num.exact v)) as [[]|]; try discriminate.
  destruct (Num.ext_compare (Num.exact x) (Num.exact y)) as [[]|]; try reflexivity.
  exfalso. apply Ht; reflexivity.
Qed.

End NumOrder.

Section SortFacts.
Context {A : Type} (key : A -> num).

Lemma insert_desc_perm x l : Permutation (x :: l) (insert_desc key x l).
Proof.
  induction l as [|y l IH]; simpl; [reflexivity|].
  destruct (Num.ltb (key x) (key y)); [|reflexivity].
  rewrite perm_swap. apply perm_skip, IH.
Qed.

Lemma sort_reverse_perm l : Permutation l (sort_reverse key l).
Proof.
  induction l as [|x l IH]; simpl; [reflexivity|].
  rewrite <- insert_desc_perm. apply perm_skip, IH.
Qed.

Lemma insert_desc_hd x l :
  HdRel (desc key) x l -> insert_desc key x l = x :: l.
Proof.
  destruct l as [|y l]; [reflexivity|]. intros Hd.
  apply HdRel_inv in Hd. simpl. unfold desc in Hd. rewrite Hd. reflexivity.
Qed.

Lemma insert_desc_sorted x l :
  Sorted (desc key) l -> Sorted (desc key) (insert_desc key x l).
Proof.
  induction 1 as [|y l Hl IH Hy]; simpl; [repeat constructor|].
  destruct (Num.ltb (key x) (key y)) eqn:Exy.
  - constructor; [exact IH|].
    destruct l as [|z l]; simpl.
    + constructor. apply NumOrder.ltb_asym, Exy.
    + destruct (Num.ltb (key x) (key z)).
      * constructor. apply HdRel_inv in Hy. exact Hy.
      * constructor. apply NumOrder.ltb_asym, Exy.
  - constructor; [constructor; assumption|]. constructor. exact Exy.
Qed.

Lemma sort_reverse_sorted l : Sorted (desc key) (sort_reverse key l).
Proof.
  induction l as [|x l IH]; simpl; [constructor|]. apply insert_desc_sorted, IH.
Qed.

Lemma sort_reverse_fixed l : Sorted (desc key) l -> sort_reverse key l = l.
Proof.
  induction 1 as [|x l Hl IH Hx]; simpl; [reflexivity|].
  fold (sort_reverse key l). rewrite IH. apply insert_desc_hd, Hx.
Qed.

Lemma sort_reverse_idem l :
  sort_reverse key (sort_reverse key l) = sort_reverse key l.
Proof. apply sort_reverse_fixed, sort_reverse_sorted. Qed.

Lemma sorted_strongly l :
  no_nan key l -> Sorted (desc key) l -> StronglySorted (desc key) l.
Proof.
  intros Hn Hs. induction Hs as [|x l Hl IH Hx]; [constructor|].
  apply Forall_cons in Hn as [Hnx Hnl]. specialize (IH Hnl).
  constructor; [exact IH|].
  destruct l as [|y l]; [constructor|].
  apply HdRel_inv in Hx. apply StronglySorted_inv in IH as [_ Hy].
  apply Forall_cons in Hnl as [Hny Hnl].
  constructor; [exact Hx|].
  clear Hl. induction Hy as [|z l Hyz Hy IH]; [constructor|].
  apply Forall_cons in Hnl as [Hnz Hnl]. constructor; [|apply IH; assumption].
  apply (NumOrder.not_ltb_trans _ (key y)); assumption.
Qed.

Lemma sort_reverse_descending l :
  no_nan key l -> StronglySorted (desc key) (sort_reverse key l).
Proof.
  intros Hn. apply sorted_strongly; [|apply sort_reverse_sorted].
  unfold no_nan. rewrite <- (sort_reverse_perm l). exact Hn.
Qed.

(** Stability: the records of any one score keep their order. *)
Lemma insert_desc_filter v x l :
  List.filter (fun a => Num.eqb (key a) v) (insert_desc key x l)
  = List.filter (fun a => Num.eqb (key a) v) (x :: l).
Proof.
  induction l as [|y l IH]; [reflexivity|].
  cbn [insert_desc]. destruct (Num.ltb (key x) (key y)) eqn:Exy; [|reflexivity].
  cbn [List.filter] in *. rewrite IH.
  destruct (Num.eqb (key x) v) eqn:Ex, (Num.eqb (key y) v) eqn:Ey; try reflexivity.
  rewrite (NumOrder.eqb_not_ltb _ _ _ Ex Ey) in Exy. discriminate.
Qed.

Lemma sort_reverse_stable v l :
  with_key key v (sort_reverse key l) = with_key key v l.
Proof.
  unfold with_key. induction l as [|x l IH]; [reflexivity|].
  cbn [sort_reverse foldr]. rewrite insert_desc_filter.
  cbn [List.filter]. fold (sort_reverse key l). rewrite IH. reflexivity.
Qed.

End SortFacts.

(* ===================================================================== *)
(** * Facts about integer division and the containment score *)
(* ===================================================================== *)

Module FloatFacts.

Lemma div_raw_proper a b :
  b <> 0 -> Z.abs a < 2 ^ 1023 * Z.abs b ->
  proper (PyFloat.div (PyFloat.raw a) (PyFloat.raw b)).
Proof.
  intros Hb Hab. unfold PyFloat.div, PyFloat.prec, PyFloat.emax.
  destruct b as [|b|b]; [done| |]; destruct a as [|a|a]; cbn [PyFloat.raw];
    try exact I; apply SFdiv_ints_proper; lia.
Qed.

Lemma proper_not_infinity f : proper f -> PyFloat.is_infinity f = false.
Proof. destruct f; simpl; tauto. Qed.

(** Integer division returns whenever the quotient is below [2^1023]. *)
Lemma int_true_div_proper a b :
  b <> 0 -> Z.abs a < 2 ^ 1023 * Z.abs b ->
  exists q, PyFloat.int_true_div a b = Ok q /\ proper q.
Proof.
  intros Hb Hab. unfold PyFloat.int_true_div.
  destruct (Z.eqb_spec b 0) as [|_]; [done|].
  pose proof (div_raw_proper a b Hb Hab) as Hp.
  rewrite (proper_not_infinity _ Hp). eauto.
Qed.

Lemma int_true_div_same n : n <> 0 -> PyFloat.int_true_div n n = Ok f_one.
Proof.
  intros Hn. unfold PyFloat.int_true_div.
  destruct (Z.eqb_spec n 0) as [|_]; [done|].
  unfold PyFloat.div, PyFloat.prec, PyFloat.emax.
  destruct n as [|n|n]; [done| |]; cbn [PyFloat.raw];
    rewrite SFdiv_ints_same; reflexivity.
Qed.

Lemma int_true_div_zero n : 0 < n -> PyFloat.int_true_div 0 n = Ok f_zero.
Proof.
  intros Hn. unfold PyFloat.int_true_div.
  destruct (Z.eqb_spec n 0) as [|_]; [lia|].
  destruct n as [|n|n]; [lia| |lia]. reflexivity.
Qed.

Lemma of_int_100 : PyFloat.of_int 100 = Ok f_100.
Proof. vm_compute. reflexivity. Qed.

Lemma mul_int_100 q : Num.mul_int (Float q) 100 = Ok (Float (PyFloat.mul q f_100)).
Proof. unfold Num.mul_int. rewrite of_int_100. reflexivity. Qed.

(** The two summations differ on [0.1, 0.2, 0.3]: 0.6000000000000001 against
    0.6. *)
Lemma sum_floats_versions :
  Runtime.sum_plain [PyFloat.literal 1 1; PyFloat.literal 2 1; PyFloat.literal 3 1]
  = PyFloat.literal 6000000000000001 16
  /\ Runtime.sum_compensated
       [PyFloat.literal 1 1; PyFloat.literal 2 1; PyFloat.literal 3 1]
     = PyFloat.literal 6 1
  /\ PyFloat.literal 6000000000000001 16 <> PyFloat.literal 6 1.
Proof.
  split; [vm_compute; reflexivity|]. split; [vm_compute; reflexivity|].
  vm_compute. discriminate.
Qed.

End FloatFacts.

Section ScorerFacts.
Context `{PyRuntime}.

Lemma sum_ints_ones {A} (l : list A) : sum_ints (map (fun _ => 1) l) = len l.
Proof.
  unfold sum_ints, len.
  assert (Hg : forall acc, fold_left Z.add (map (fun _ : A => 1) l) acc
                           = acc + Z.of_nat (length l)).
  { induction l as [|x l IH]; intros acc; simpl; [lia|]. rewrite IH. lia. }
  apply Hg.
Qed.

Lemma covered_count_bounds summary elements :
  0 <= covered_count summary elements <= len elements.
Proof.
  unfold covered_count, len. split; [lia|].
  apply Nat2Z.inj_le. apply List.filter_length_le.
Qed.

Lemma covered_count_all summary elements :
  Forall (fun e => mentions summary e = true) elements ->
  covered_count summary elements = len elements.
Proof.
  unfold covered_count, mentions. intros Ha. f_equal.
  induction Ha as [|e l He _ IH]; simpl; [reflexivity|]. rewrite He, IH.
  reflexivity.
Qed.

Lemma covered_count_none summary elements :
  Forall (fun e => mentions summary e = false) elements ->
  covered_count summary elements = 0.
Proof.
  unfold covered_count, mentions. intros Ha.
  induction Ha as [|e l He _ IH]; simpl; [reflexivity|]. rewrite He. exact IH.
Qed.

Lemma len_pos {A} (x : A) l : 0 < len (x :: l).
Proof. unfold len. simpl. lia. Qed.

(** On a non-empty list the score is the correctly rounded fraction times
    100, and the division does not raise. *)
Lemma containment_score_cons summary e elements :
  exists q,
    PyFloat.int_true_div (covered_count summary (e :: elements)) (len (e :: elements))
      = Ok q
    /\ proper q
    /\ containment_score summary (e :: elements) = Ok (Float (PyFloat.mul q f_100)).
Proof.
  pose proof (covered_count_bounds summary (e :: elements)) as Hb.
  pose proof (len_pos e elements) as Hl.
  destruct (FloatFacts.int_true_div_proper
              (covered_count summary (e :: elements)) (len (e :: elements)))
    as (q & Hq & Hp); [lia| |].
  { assert (0 < 2 ^ 1023) by (apply Z.pow_pos_nonneg; lia). nia. }
  exists q. split; [exact Hq|]. split; [exact Hp|].
  unfold containment_score. rewrite sum_ints_ones.
  change (len (List.filter (mentions summary) (e :: elements)))
    with (covered_count summary (e :: elements)).
  rewrite Hq. apply FloatFacts.mul_int_100.
Qed.

End ScorerFacts.

(* ===================================================================== *)
(** * Strings and [calculate_prompt_adherence] *)
(* ===================================================================== *)

Module StrFacts.

Lemma startswith_spec p s :
  Str.startswith p s = true <-> exists rest, s = p ++ rest.
Proof.
  revert s. induction p as [|a p IH]; intros s; simpl.
  - split; [eauto|reflexivity].
  - destruct s as [|b s].
    + split; [discriminate|]. intros [rest Hr]. discriminate.
    + rewrite andb_true_iff, N.eqb_eq, IH. split.
      * intros [-> [rest ->]]. eauto.
      * intros [rest Hr]. injection Hr as -> ->. eauto.
Qed.

(** [needle in hay] holds exactly when [needle] occurs in [hay]. *)
Lemma contains_spec needle hay :
  Str.contains needle hay = true <-> substring needle hay.
Proof.
  unfold substring. induction hay as [|c hay IH]; simpl.
  - rewrite orb_false_r, startswith_spec. split.
    + intros [rest Hr]. exists [], rest. exact Hr.
    + intros (before & after & Hr). destruct before; [|discriminate].
      exists after. exact Hr.
  - rewrite orb_true_iff, startswith_spec, IH. split.
    + intros [[rest Hr]|(before & after & Hr)].
      * exists [], rest. exact Hr.
      * exists (c :: before), after. simpl. congruence.
    + intros (before & after & Hr). destruct before as [|c' before].
      * left. exists after. exact Hr.
      * right. injection Hr as -> ->. eauto.
Qed.

Lemma has_all_markers_spec summary :
  has_all_markers summary = true <->
  substring u#"1." summary /\ substring u#"2." summary /\ substring u#"3." summary.
Proof.
  unfold has_all_markers, markers. cbn [forallb].
  rewrite !andb_true_iff, !contains_spec. tauto.
Qed.

End StrFacts.

(** The three parts of [calculate_prompt_adherence]. *)
Lemma prompt_adherence_parts summary word_count min_words max_words :
  calculate_prompt_adherence summary word_count min_words max_words
  = (if in_word_range word_count min_words max_words then 40 else 0)
    + (if has_all_markers summary then 30 else 15) + 30.
Proof. reflexivity. Qed.

Lemma in_word_range_spec word_count min_words max_words :
  in_word_range word_count min_words max_words = true
  <-> min_words <= word_count <= max_words.
Proof. unfold in_word_range. rewrite andb_true_iff, !Z.leb_le. tauto. Qed.

(** C3 as amended: [calculate_prompt_adherence] is the sum of three
    independent parts: 40 when [min_words <= word_count <= max_words] and 0
    otherwise; 30 when the markers "1.", "2." and "3." all occur in the
    summary and 15 otherwise; a fixed 30.  Its value lies between 45 and 100;
    with word count 120 and the three markers it is 100, with word count 50
    and a marker missing it is 45. *)
Theorem C3_amended :
  (forall summary word_count min_words max_words,
     calculate_prompt_adherence summary word_count min_words max_words
     = (if in_word_range word_count min_words max_words then 40 else 0)
       + (if has_all_markers summary then 30 else 15) + 30
     /\ (in_word_range word_count min_words max_words = true
         <-> min_words <= word_count <= max_words)
     /\ (has_all_markers summary = true
         <-> substring u#"1." summary /\ substring u#"2." summary
             /\ substring u#"3." summary)
     /\ 45 <= calculate_prompt_adherence summary word_count min_words max_words <= 100)
  /\ (forall summary, has_all_markers summary = true ->
        calculate_prompt_adherence summary 120 default_min_words default_max_words = 100)
  /\ (forall summary, has_all_markers summary = false ->
        calculate_prompt_adherence summary 50 default_min_words default_max_words = 45).
Proof.
  split; [|split].
  - intros summary word_count min_words max_words.
    split; [reflexivity|]. split; [apply in_word_range_spec|].
    split; [apply StrFacts.has_all_markers_spec|].
    rewrite prompt_adherence_parts.
    destruct (in_word_range _ _ _), (has_all_markers _); lia.
  - intros summary Hm. rewrite prompt_adherence_parts, Hm. reflexivity.
  - intros summary Hm. rewrite prompt_adherence_parts, Hm. reflexivity.
Qed.

Lemma C3_amended_witness :
  has_all_markers u#"1. one 2. two 3. three" = true
  /\ calculate_prompt_adherence u#"1. one 2. two 3. three" 120
       default_min_words default_max_words = 100
  /\ has_all_markers u#"plain text" = false
  /\ calculate_prompt_adherence u#"plain text" 50
       default_min_words default_max_words = 45.
Proof.
  destruct C3_amended as (_ & Hmax & Hmin).
  split; [reflexivity|]. split; [apply Hmax; reflexivity|].
  split; [reflexivity|]. apply Hmin; reflexivity.
Defined.

(** The claim as stated fails: with word count 50 and no marker the score
    is 45, not 15. *)
Lemma C3_counterexample :
  has_all_markers u#"plain text" = false
  /\ calculate_prompt_adherence u#"plain text" 50 default_min_words default_max_words = 45
  /\ calculate_prompt_adherence u#"plain text" 50 default_min_words default_max_words <> 15.
Proof. split; [reflexivity|]. split; [reflexivity|]. discriminate. Qed.

(** C9: when exactly one qualifying condition of
    [calculate_prompt_adherence] goes from false to true (the word count
    enters [min_words, max_words], or the three markers become present) and
    the other one stays as it is, the score does not decrease. *)
Theorem C9_prompt_adherence_monotonic
    summary summary' word_count word_count' min_words max_words :
  (in_word_range word_count min_words max_words = false
   /\ in_word_range word_count' min_words max_words = true
   /\ has_all_markers summary' = has_all_markers summary)
  \/ (has_all_markers summary = false
      /\ has_all_markers summary' = true
      /\ in_word_range word_count' min_words max_words
         = in_word_range word_count min_words max_words) ->
  calculate_prompt_adherence summary word_count min_words max_words
  <= calculate_prompt_adherence summary' word_count' min_words max_words.
Proof.
  rewrite !prompt_adherence_parts.
  intros [(Hw & Hw' & Hm)|(Hm & Hm' & Hw)].
  - rewrite Hw, Hw', Hm. lia.
  - rewrite Hm, Hm', Hw. lia.
Qed.

Lemma C9_witness :
  in_word_range 50 100 150 = false
  /\ in_word_range 120 100 150 = true
  /\ calculate_prompt_adherence u#"plain text" 50 100 150
     <= calculate_prompt_adherence u#"plain text" 120 100 150.
Proof.
  split; [reflexivity|]. split; [reflexivity|].
  apply C9_prompt_adherence_monotonic. left.
  split; [reflexivity|]. split; reflexivity.
Defined.

(* ===================================================================== *)
(** * [calculate_coverage] and [calculate_compression_ratio] *)
(* ===================================================================== *)

Section CoverageClaims.
Context `{PyRuntime}.

Lemma mentions_spec summary element :
  mentions summary element = true
  <-> substring (str_lower element) (str_lower summary).
Proof. apply StrFacts.contains_spec. Qed.

Lemma Forall_mentions summary elements :
  Forall (fun e => substring (str_lower e) (str_lower summary)) elements ->
  Forall (fun e => mentions summary e = true) elements.
Proof.
  intros Hf. eapply Forall_impl; [exact Hf|]. intros e. apply mentions_spec.
Qed.

Lemma Forall_not_mentions summary elements :
  Forall (fun e => ~ substring (str_lower e) (str_lower summary)) elements ->
  Forall (fun e => mentions summary e = false) elements.
Proof.
  intros Hf. eapply Forall_impl; [exact Hf|]. intros e He.
  apply not_true_is_false. rewrite mentions_spec. exact He.
Qed.

Lemma containment_score_none summary elements :
  elements <> [] ->
  Forall (fun e => ~ substring (str_lower e) (str_lower summary)) elements ->
  containment_score summary elements = Ok (Float f_zero).
Proof.
  destruct elements as [|e elements]; [congruence|]. intros _ Hnone.
  destruct (containment_score_cons summary e elements) as (q & Hq & _ & Hs).
  rewrite (covered_count_none _ _ (Forall_not_mentions _ _ Hnone)) in Hq.
  rewrite FloatFacts.int_true_div_zero in Hq by apply len_pos.
  injection Hq as <-. rewrite Hs. reflexivity.
Qed.

Lemma containment_score_all summary elements :
  elements <> [] ->
  Forall (fun e => substring (str_lower e) (str_lower summary)) elements ->
  containment_score summary elements = Ok (Float f_100).
Proof.
  destruct elements as [|e elements]; [congruence|]. intros _ Hall.
  destruct (containment_score_cons summary e elements) as (q & Hq & _ & Hs).
  rewrite (covered_count_all _ _ (Forall_mentions _ _ Hall)) in Hq.
  rewrite FloatFacts.int_true_div_same in Hq
    by (pose proof (len_pos e elements); lia).
  injection Hq as <-. rewrite Hs. reflexivity.
Qed.

(** C4: [calculate_coverage] returns 0 on an empty list without failing; on
    a non-empty list it does not fail either and returns the correctly
    rounded quotient of the number of elements whose lowercase form occurs in
    the lowercased summary by the number of elements, times 100; this is 0
    when no element occurs and 100 when all do. *)
Theorem C4_coverage summary key_elements :
  (key_elements = [] -> calculate_coverage summary key_elements = Ok (Int 0))
  /\ (key_elements <> [] ->
      exists q,
        PyFloat.int_true_div (covered_count summary key_elements) (len key_elements)
          = Ok q
        /\ calculate_coverage summary key_elements = Ok (Float (PyFloat.mul q f_100)))
  /\ (key_elements <> [] ->
      Forall (fun e => ~ substring (str_lower e) (str_lower summary)) key_elements ->
      calculate_coverage summary key_elements = Ok (Float f_zero)
      /\ Num.eqb (Float f_zero) (Int 0) = true)
  /\ (key_elements <> [] ->
      Forall (fun e => substring (str_lower e) (str_lower summary)) key_elements ->
      calculate_coverage summary key_elements = Ok (Float f_100)
      /\ Num.eqb (Float f_100) (Int 100) = true).
Proof.
  unfold calculate_coverage.
  split; [intros ->; reflexivity|].
  split; [|split].
  - destruct key_elements as [|e elements]; [congruence|]. intros _.
    destruct (containment_score_cons summary e elements) as (q & Hq & _ & Hs).
    exists q. split; assumption.
  - intros Hne Hnone. split; [|reflexivity].
    apply containment_score_none; assumption.
  - intros Hne Hall. split; [|reflexivity].
    apply containment_score_all; assumption.
Qed.

End CoverageClaims.

Lemma C4_witness :
  @calculate_coverage cpython311 u#"Grok and GigaChat" [u#"grok"; u#"GIGACHAT"]
  = Ok (Float f_100)
  /\ @calculate_coverage cpython311 u#"Grok and GigaChat" [u#"Qwen"; u#"Cotype"]
     = Ok (Float f_zero)
  /\ @calculate_coverage cpython311 u#"Grok and GigaChat" [] = Ok (Int 0).
Proof.
  split; [|split].
  - destruct (@C4_coverage cpython311 u#"Grok and GigaChat" [u#"grok"; u#"GIGACHAT"])
      as (_ & _ & _ & Hall).
    apply Hall; [discriminate|].
    repeat constructor; apply StrFacts.contains_spec; reflexivity.
  - destruct (@C4_coverage cpython311 u#"Grok and GigaChat" [u#"Qwen"; u#"Cotype"])
      as (_ & _ & Hnone & _).
    apply Hnone; [discriminate|].
    repeat constructor; rewrite <- StrFacts.contains_spec; discriminate.
  - destruct (@C4_coverage cpython311 u#"Grok and GigaChat" []) as (Hempty & _).
    apply Hempty. reflexivity.
Defined.

(** [calculate_compression_ratio] raises nothing but [OverflowError], and
    what it returns converts to a float. *)
Lemma compression_ratio_cases source_words summary_words :
  calculate_compression_ratio source_words summary_words = Raise OverflowError
  \/ exists v cf,
       calculate_compression_ratio source_words summary_words = Ok v
       /\ Num.to_float v = Ok cf.
Proof.
  unfold calculate_compression_ratio, PyFloat.int_true_div.
  destruct (Z.ltb_spec 0 summary_words) as [Hpos|Hneg].
  - destruct (Z.eqb_spec summary_words 0) as [|_]; [lia|].
    destruct (PyFloat.is_infinity _); [left; reflexivity|].
    right. eexists _, _. split; reflexivity.
  - right. exists (Int 0), f_zero. split; reflexivity.
Qed.

(** Below [2^1023] source words the ratio never raises. *)
Lemma compression_ratio_total source_words summary_words :
  Z.abs source_words < 2 ^ 1023 ->
  exists v, calculate_compression_ratio source_words summary_words = Ok v.
Proof.
  intros Hs. unfold calculate_compression_ratio.
  destruct (Z.ltb_spec 0 summary_words) as [Hpos|Hneg]; [|eauto].
  destruct (FloatFacts.int_true_div_proper source_words summary_words)
    as (q & Hq & _); [lia| |rewrite Hq; cbn; eauto].
  set (K := 2 ^ 1023) in *. nia.
Qed.

Lemma compression_ratio_4200 summary_words :
  exists v, calculate_compression_ratio 4200 summary_words = Ok v.
Proof.
  apply compression_ratio_total.
  assert (2 ^ 13 <= 2 ^ 1023) by (apply Z.pow_le_mono_r; lia).
  change (2 ^ 13) with 8192 in *. lia.
Qed.

Lemma compression_ratio_not_zero_division source_words summary_words :
  calculate_compression_ratio source_words summary_words <> Raise ZeroDivisionError.
Proof.
  destruct (compression_ratio_cases source_words summary_words)
    as [Hr|(v & cf & Hv & _)]; congruence.
Qed.

(** C5 as amended: [calculate_compression_ratio] returns the true quotient
    [source_words / summary_words] when [summary_words > 0] and 0 whenever
    [summary_words <= 0], for negative counts too; it never raises
    [ZeroDivisionError]; [(4200, 0)] gives 0 and [(4200, 300)] gives 14.0. *)
Theorem C5_amended source_words summary_words :
  (0 < summary_words ->
     calculate_compression_ratio source_words summary_words
     = (q ← PyFloat.int_true_div source_words summary_words; mret (Float q)))
  /\ (summary_words <= 0 ->
        calculate_compression_ratio source_words summary_words = Ok (Int 0))
  /\ calculate_compression_ratio source_words summary_words <> Raise ZeroDivisionError
  /\ calculate_compression_ratio 4200 0 = Ok (Int 0)
  /\ calculate_compression_ratio 4200 300 = Ok (Float f_14).
Proof.
  split; [|split; [|split; [|split]]].
  - intros Hpos. unfold calculate_compression_ratio.
    destruct (Z.ltb_spec 0 summary_words); [reflexivity|lia].
  - intros Hneg. unfold calculate_compression_ratio.
    destruct (Z.ltb_spec 0 summary_words); [lia|reflexivity].
  - apply compression_ratio_not_zero_division.
  - reflexivity.
  - vm_compute. reflexivity.
Qed.

Lemma C5_amended_witness :
  calculate_compression_ratio 4200 300
  = (q ← PyFloat.int_true_div 4200 300; mret (Float q))
  /\ calculate_compression_ratio 4200 (-300) = Ok (Int 0).
Proof.
  split.
  - destruct (C5_amended 4200 300) as (Hpos & _). apply Hpos. lia.
  - destruct (C5_amended 4200 (-300)) as (_ & Hneg & _). apply Hneg. lia.
Defined.

(** The claim as stated fails on a negative word count: the true quotient
    of 4200 by -300 is -14.0, and -300 is not 0, yet the function returns 0. *)
Lemma C5_counterexample :
  PyFloat.int_true_div 4200 (-300) = Ok (SFopp f_14)
  /\ calculate_compression_ratio 4200 (-300) = Ok (Int 0)
  /\ Num.eqb (Int 0) (Float (SFopp f_14)) = false
  /\ calculate_compression_ratio 4200 (-300)
     <> (q ← PyFloat.int_true_div 4200 (-300); mret (Float q)).
Proof.
  assert (Hq : PyFloat.int_true_div 4200 (-300) = Ok (SFopp f_14))
    by (vm_compute; reflexivity).
  split; [exact Hq|]. split; [reflexivity|]. split; [reflexivity|].
  rewrite Hq. discriminate.
Qed.

(* ===================================================================== *)
(** * [analyze_model] *)
(* ===================================================================== *)

Section AnalyzerFacts.
Context `{PyRuntime}.

Lemma analyze_model_run model_name summary s :
  run (analyze_model model_name summary) s
  = (coverage ← calculate_coverage summary key_elements;
     compression ← calculate_compression_ratio
                      (source_words_of (arg_obj s)) (len (Str.split_ws summary));
     total ← weighted_score (metrics_of summary coverage compression)
                (metrics_weights (self_obj s));
     mret {| model := model_name;
             word_count := len (Str.split_ws summary);
             metrics := metrics_of summary coverage compression;
             total_score := Num.round2 total |}, s).
Proof.
  unfold analyze_model.
  cbn [mbind M_bind run Method.lift Method.reads mret M_ret].
  destruct (calculate_coverage summary key_elements) as [coverage|e];
    [|reflexivity].
  cbn [mbind result_bind].
  fold (source_words_of (arg_obj s)).
  destruct (calculate_compression_ratio _ _) as [compression|e]; [|reflexivity].
  cbn [mbind result_bind].
  fold (metrics_of summary coverage compression).
  destruct (weighted_score _ _) as [total|e]; reflexivity.
Qed.

Lemma metrics_of_keys summary coverage compression :
  Dict.keys (metrics_of summary coverage compression) = metric_names.
Proof. reflexivity. Qed.

(** When both tables list the same keys in the same order, the total as
    the specification words it is the rounded weighted score. *)
Lemma spec_total_weighted_score weights metrics :
  Dict.keys weights = Dict.keys metrics ->
  spec_total weights metrics
  = (total ← weighted_score metrics weights; mret (Num.round2 total)).
Proof.
  intros Hk. unfold spec_total, weighted_score. rewrite Hk.
  fold (weighted_item metrics weights).
  destruct (mapM (weighted_item metrics weights) (Dict.keys metrics)); reflexivity.
Qed.

Lemma prompt_adherence_float summary word_count :
  exists f, PyFloat.of_int
    (calculate_prompt_adherence summary word_count default_min_words default_max_words)
    = Ok f.
Proof.
  rewrite prompt_adherence_parts.
  destruct (in_word_range _ _ _), (has_all_markers _); vm_compute; eauto.
Qed.

Lemma coherence_float summary :
  exists f, PyFloat.of_int (calculate_coherence summary) = Ok f.
Proof.
  unfold calculate_coherence. destruct (2 <? _); vm_compute; eauto.
Qed.

Lemma mapM_ok {A B} (f : A -> result B) l ys :
  Forall2 (fun x y => f x = Ok y) l ys -> mapM f l = Ok ys.
Proof.
  induction 1 as [|x y l ys Hxy _ IH]; [reflexivity|].
  cbn [mapM]. cbn [mapM] in IH. rewrite Hxy, IH. reflexivity.
Qed.

Lemma mapM_ok_inv {A B} (f : A -> result B) l ys :
  mapM f l = Ok ys -> Forall2 (fun x y => f x = Ok y) l ys.
Proof.
  revert ys. induction l as [|x l IH]; intros ys; cbn [mapM].
  - intros [= <-]. constructor.
  - destruct (f x) as [y|e] eqn:Ex; cbn [mbind result_bind]; [|discriminate].
    cbn [mapM] in IH.
    destruct (mapM f l) as [ys'|e] eqn:El; cbn [mbind result_bind mret result_ret];
      [|discriminate].
    intros [= <-]. constructor; [exact Ex|]. apply IH. reflexivity.
Qed.

(** The weighted score under the constructor's table, written out. *)
Lemma weighted_score_init summary c compression cf pf hf :
  Num.to_float compression = Ok cf ->
  PyFloat.of_int (calculate_prompt_adherence summary (len (Str.split_ws summary))
                    default_min_words default_max_words) = Ok pf ->
  PyFloat.of_int (calculate_coherence summary) = Ok hf ->
  weighted_score (metrics_of summary (Float c) compression) (metrics_weights init)
  = Ok (Float (sum_floats
         [ PyFloat.mul f_100 (PyFloat.literal 30 2);
           PyFloat.mul c (PyFloat.literal 25 2);
           PyFloat.mul pf (PyFloat.literal 20 2);
           PyFloat.mul hf (PyFloat.literal 15 2);
           PyFloat.mul cf (PyFloat.literal 10 2) ])).
Proof.
  intros Hc Hp Hh. unfold weighted_score. rewrite metrics_of_keys.
  rewrite (mapM_ok _ _
    [ PyFloat.mul f_100 (PyFloat.literal 30 2);
      PyFloat.mul c (PyFloat.literal 25 2);
      PyFloat.mul pf (PyFloat.literal 20 2);
      PyFloat.mul hf (PyFloat.literal 15 2);
      PyFloat.mul cf (PyFloat.literal 10 2) ]); [reflexivity|].
  constructor; [reflexivity|].
  constructor; [reflexivity|].
  constructor.
  { change (Num.mul_float
              (Int (calculate_prompt_adherence summary (len (Str.split_ws summary))
                      default_min_words default_max_words))
              (PyFloat.literal 20 2) = Ok (PyFloat.mul pf (PyFloat.literal 20 2))).
    unfold Num.mul_float, Num.to_float. rewrite Hp. reflexivity. }
  constructor.
  { change (Num.mul_float (Int (calculate_coherence summary)) (PyFloat.literal 15 2)
            = Ok (PyFloat.mul hf (PyFloat.literal 15 2))).
    unfold Num.mul_float, Num.to_float. rewrite Hh. reflexivity. }
  constructor; [|constructor].
  change (Num.mul_float compression (PyFloat.literal 10 2)
          = Ok (PyFloat.mul cf (PyFloat.literal 10 2))).
  unfold Num.mul_float. rewrite Hc. reflexivity.
Qed.

Lemma coverage_key_elements summary :
  exists q,
    PyFloat.int_true_div (covered_count summary key_elements) 14 = Ok q
    /\ proper q
    /\ calculate_coverage summary key_elements = Ok (Float (PyFloat.mul q f_100)).
Proof.
  unfold calculate_coverage, key_elements. apply containment_score_cons.
Qed.

(** What a call returns, for any receiver and any statistics. *)
Lemma analyze_model_returned model_name summary s r :
  Method.returned (analyze_model model_name summary) s = Ok r ->
  exists coverage compression total,
    calculate_coverage summary key_elements = Ok coverage
    /\ calculate_compression_ratio
         (source_words_of (arg_obj s)) (len (Str.split_ws summary)) = Ok compression
    /\ weighted_score (metrics_of summary coverage compression)
         (metrics_weights (self_obj s)) = Ok total
    /\ r = {| model := model_name;
              word_count := len (Str.split_ws summary);
              metrics := metrics_of summary coverage compression;
              total_score := Num.round2 total |}.
Proof.
  unfold Method.returned. rewrite analyze_model_run. cbn [fst].
  destruct (calculate_coverage summary key_elements) as [coverage|e] eqn:Ecov;
    [|discriminate].
  cbn [mbind result_bind].
  destruct (calculate_compression_ratio _ _) as [compression|e] eqn:Ecomp;
    [|discriminate].
  cbn [mbind result_bind].
  destruct (weighted_score _ _) as [total|e] eqn:Etot; [|discriminate].
  cbn [mbind result_bind mret result_ret]. intros [= <-].
  exists coverage, compression, total. auto.
Qed.

(** With the constructor's weight table a call raises only when the
    compression ratio overflows. *)
Lemma analyze_model_init model_name summary stats :
  match calculate_compression_ratio
          (source_words_of stats) (len (Str.split_ws summary)) with
  | Raise e =>
      e = OverflowError
      /\ Method.returned (analyze_model model_name summary) (CallState init stats)
         = Raise OverflowError
  | Ok compression =>
      exists c total,
        calculate_coverage summary key_elements = Ok (Float c)
        /\ weighted_score (metrics_of summary (Float c) compression)
             (metrics_weights init) = Ok (Float total)
        /\ Method.returned (analyze_model model_name summary) (CallState init stats)
           = Ok {| model := model_name;
                   word_count := len (Str.split_ws summary);
                   metrics := metrics_of summary (Float c) compression;
                   total_score := Float (PyFloat.round2 total) |}
  end.
Proof.
  unfold Method.returned. rewrite analyze_model_run. cbn [fst arg_obj self_obj].
  destruct (coverage_key_elements summary) as (q & _ & _ & Hcov).
  rewrite Hcov. cbn [mbind result_bind].
  destruct (compression_ratio_cases
              (source_words_of stats) (len (Str.split_ws summary)))
    as [Hr|(v & cf & Hv & Hcf)].
  - rewrite Hr. split; reflexivity.
  - rewrite Hv. cbn [mbind result_bind].
    destruct (prompt_adherence_float summary (len (Str.split_ws summary))) as [pf Hpf].
    destruct (coherence_float summary) as [hf Hhf].
    pose proof (weighted_score_init summary (PyFloat.mul q f_100) v cf pf hf
                  Hcf Hpf Hhf) as Hw.
    rewrite Hw. eexists _, _.
    split; [reflexivity|]. split; [exact Hw|reflexivity].
Qed.

End AnalyzerFacts.

Section AnalyzeClaims.
Context `{PyRuntime}.

(** C1: under the constructor's weight table
    [{faithfulness: 0.30, coverage: 0.25, prompt_adherence: 0.20,
      coherence: 0.15, compression: 0.10}], for every model name, summary and
    source statistics, the record returned by [analyze_model] has exactly the
    five metric keys and its [total_score] is
    [round(sum(metrics[k] * weights[k] for k in weights), 2)].  A record is
    returned whenever the source word count is below [2^1023] in absolute
    value; none is returned only when the compression ratio raises
    [OverflowError]. *)
Theorem C1_total_score model_name summary stats :
  metrics_weights init
  = [ (u#"faithfulness", PyFloat.literal 30 2);
      (u#"coverage", PyFloat.literal 25 2);
      (u#"prompt_adherence", PyFloat.literal 20 2);
      (u#"coherence", PyFloat.literal 15 2);
      (u#"compression", PyFloat.literal 10 2) ]
  /\ match Method.returned (analyze_model model_name summary) (CallState init stats) with
     | Ok r =>
         Dict.keys (metrics r) = metric_names
         /\ spec_total (metrics_weights init) (metrics r) = Ok (total_score r)
     | Raise e =>
         e = OverflowError
         /\ calculate_compression_ratio
              (source_words_of stats) (len (Str.split_ws summary))
            = Raise OverflowError
     end
  /\ (Z.abs (source_words_of stats) < 2 ^ 1023 ->
      exists r, Method.returned (analyze_model model_name summary)
                  (CallState init stats) = Ok r).
Proof.
  split; [reflexivity|].
  pose proof (analyze_model_init model_name summary stats) as Hr.
  pose proof (compression_ratio_total
                (source_words_of stats) (len (Str.split_ws summary))) as Ht.
  destruct (calculate_compression_ratio _ _) as [compression|e].
  - destruct Hr as (c & total & _ & Hw & ->). cbn [metrics total_score].
    split; [|eauto]. split; [reflexivity|].
    rewrite spec_total_weighted_score by reflexivity.
    rewrite Hw. reflexivity.
  - destruct Hr as [-> ->]. split; [split; reflexivity|].
    intros Hs. destruct (Ht Hs) as [v Hv]. discriminate.
Qed.

(** C2: whatever the summary and the source statistics, the record that
    [analyze_model] returns has [metrics['faithfulness']] equal to the
    constant 100, the same for every summary, also where
    [calculate_faithfulness] gives another value (0 on an empty list of facts
    and on facts none of which occurs in the summary): that function is not
    on the path. *)
Theorem C2_faithfulness_constant model_name summary s r :
  Method.returned (analyze_model model_name summary) s = Ok r ->
  Dict.find (metrics r) u#"faithfulness" = Some (Int 100)
  /\ calculate_faithfulness summary [] = Ok (Int 0)
  /\ (forall source_facts,
        source_facts <> [] ->
        Forall (fun fact => ~ substring (str_lower fact) (str_lower summary))
          source_facts ->
        calculate_faithfulness summary source_facts = Ok (Float f_zero))
  /\ (forall model_name' summary' s' r',
        Method.returned (analyze_model model_name' summary') s' = Ok r' ->
        Dict.find (metrics r') u#"faithfulness"
        = Dict.find (metrics r) u#"faithfulness").
Proof.
  intros Hr.
  assert (Hc : forall n x t q, Method.returned (analyze_model n x) t = Ok q ->
                 Dict.find (metrics q) u#"faithfulness" = Some (Int 100)).
  { intros n x t q Hq.
    apply analyze_model_returned in Hq as (cov & comp & total & _ & _ & _ & ->).
    reflexivity. }
  split; [exact (Hc _ _ _ _ Hr)|]. split; [reflexivity|].
  split; [apply containment_score_none|].
  intros n x t q Hq. rewrite (Hc _ _ _ _ Hr), (Hc _ _ _ _ Hq). reflexivity.
Qed.

(** C10: the coverage metric of every returned record is computed against
    the built-in list of fourteen key elements; and when [source_stats] has no
    ['word_count'] key the call does not fail and the compression metric is
    [calculate_compression_ratio(4200, word count of the summary)]. *)
Theorem C10_default_source_words model_name summary :
  length key_elements = 14%nat
  /\ (forall s r,
        Method.returned (analyze_model model_name summary) s = Ok r ->
        exists coverage,
          calculate_coverage summary key_elements = Ok coverage
          /\ Dict.find (metrics r) u#"coverage" = Some coverage)
  /\ (forall stats : gmap str Z,
        stats !! u#"word_count" = None ->
        exists r compression,
          Method.returned (analyze_model model_name summary) (CallState init stats)
          = Ok r
          /\ calculate_compression_ratio 4200 (len (Str.split_ws summary))
             = Ok compression
          /\ Dict.find (metrics r) u#"compression" = Some compression).
Proof.
  split; [reflexivity|]. split.
  - intros s r Hr.
    apply analyze_model_returned in Hr as (cov & comp & total & Hcov & _ & _ & ->).
    exists cov. split; [exact Hcov|reflexivity].
  - intros stats Hs.
    pose proof (analyze_model_init model_name summary stats) as Hr.
    unfold source_words_of in Hr. rewrite Hs in Hr. cbn [default] in Hr.
    change default_source_words with 4200 in Hr.
    destruct (compression_ratio_4200 (len (Str.split_ws summary))) as [comp Hcomp].
    rewrite Hcomp in Hr. destruct Hr as (c & total & _ & _ & Hr).
    eexists _, comp. split; [exact Hr|]. split; [exact Hcomp|reflexivity].
Qed.

End AnalyzeClaims.

Lemma C1_witness :
  Method.returned (@analyze_model cpython311 u#"Claude" Sample.summary)
    (CallState init ∅) = Ok Sample.analysed
  /\ Dict.keys (metrics Sample.analysed) = metric_names
  /\ @spec_total cpython311 (metrics_weights init) (metrics Sample.analysed)
     = Ok (total_score Sample.analysed).
Proof.
  assert (He : Method.returned (@analyze_model cpython311 u#"Claude" Sample.summary)
                 (CallState init ∅) = Ok Sample.analysed)
    by (vm_compute; reflexivity).
  split; [exact He|].
  destruct (@C1_total_score cpython311 u#"Claude" Sample.summary ∅) as (_ & Hr & _).
  rewrite He in Hr. exact Hr.
Defined.

Lemma C2_witness :
  Method.returned (@analyze_model cpython312 u#"Claude" Sample.summary)
    (CallState init ∅) = Ok Sample.analysed
  /\ Dict.find (metrics Sample.analysed) u#"faithfulness" = Some (Int 100).
Proof.
  assert (He : Method.returned (@analyze_model cpython312 u#"Claude" Sample.summary)
                 (CallState init ∅) = Ok Sample.analysed)
    by (vm_compute; reflexivity).
  split; [exact He|].
  apply (@C2_faithfulness_constant cpython312 u#"Claude" Sample.summary
           (CallState init ∅) Sample.analysed He).
Defined.

Lemma C10_witness :
  Sample.other_stats !! u#"word_count" = None
  /\ exists r compression,
       Method.returned (@analyze_model cpython311 u#"Claude" Sample.summary)
         (CallState init Sample.other_stats) = Ok r
       /\ calculate_compression_ratio 4200 (len (Str.split_ws Sample.summary))
          = Ok compression
       /\ Dict.find (metrics r) u#"compression" = Some compression.
Proof.
  assert (Hs : Sample.other_stats !! u#"word_count" = None)
    by (vm_compute; reflexivity).
  split; [exact Hs|].
  destruct (@C10_default_source_words cpython311 u#"Claude" Sample.summary)
    as (_ & _ & Hdefault).
  exact (Hdefault Sample.other_stats Hs).
Defined.

(* ===================================================================== *)
(** * [generate_comparison_report] *)
(* ===================================================================== *)

Section ReportFacts.
Context `{PyRuntime}.

Lemma generate_comparison_report_run today s :
  run (generate_comparison_report today) s
  = let sorted := sort_reverse total_score (arg_obj s) in
    (details ← mapM detail_lines sorted;
     mret (Str.join nl (report_text today sorted details)),
     CallState (self_obj s) sorted).
Proof.
  unfold generate_comparison_report, report_text.
  cbn [mbind M_bind run Method.lift Method.reads Method.writes mret M_ret
       arg_obj self_obj].
  destruct (mapM detail_lines _) as [details|e]; cbn [mbind result_bind];
    [|reflexivity].
  rewrite <- !app_assoc. reflexivity.
Qed.

Lemma mapM_total {A B} (f : A -> result B) l :
  Forall (fun x => exists y, f x = Ok y) l -> exists ys, mapM f l = Ok ys.
Proof.
  induction 1 as [|x l [y Hy] _ [ys IH]]; [exists []; reflexivity|].
  exists (y :: ys). cbn [mapM]. cbn [mapM] in IH. rewrite Hy, IH. reflexivity.
Qed.

Lemma metric_line_spec item f :
  Num.to_float (snd item) = Ok f ->
  metric_line item = Ok (u#"- **" ++ fst item ++ u#"**: " ++ Fmt.fixed1 f).
Proof.
  intros Hf. unfold metric_line, Fmt.num_fixed1. rewrite Hf. reflexivity.
Qed.

Lemma detail_lines_total r :
  Forall (fun item => exists f, Num.to_float (snd item) = Ok f) (metrics r) ->
  exists d, detail_lines r = Ok d.
Proof.
  intros Hp. unfold detail_lines.
  destruct (mapM_total metric_line (metrics r)) as [bullets Hb].
  - eapply Forall_impl; [exact Hp|]. intros item [f Hf].
    rewrite (metric_line_spec item f Hf). eauto.
  - unfold str in *. rewrite Hb. cbn. eauto.
Qed.

(** What the second loop appends for a record: its header, one bullet per
    metric with the value to one decimal, an empty line. *)
Lemma detail_lines_spec r d :
  detail_lines r = Ok d ->
  exists bullets,
    d = [u#"### " ++ model r ++ nl] ++ bullets ++ [[]]
    /\ Forall2 (fun item line =>
                 exists f, Num.to_float (snd item) = Ok f
                   /\ line = u#"- **" ++ fst item ++ u#"**: " ++ Fmt.fixed1 f)
               (metrics r) bullets.
Proof.
  unfold detail_lines.
  destruct (mapM _ (metrics r)) as [bullets|e] eqn:Eb;
    cbn [mbind result_bind mret result_ret]; [|intros [=]].
  intros [= <-]. exists bullets. split; [reflexivity|].
  apply mapM_ok_inv in Eb. eapply Forall2_impl; [exact Eb|].
  intros item line. unfold metric_line, Fmt.num_fixed1.
  destruct (Num.to_float _) as [f|e];
    cbn [mbind result_bind mret result_ret]; [|intros [=]].
  intros [= <-]. eauto.
Qed.

Lemma digit_str r : 0 <= r < 10 -> Fmt.int r = [(48 + Z.to_N r)%N].
Proof.
  intros Hr.
  assert (Hc : r = 0 \/ r = 1 \/ r = 2 \/ r = 3 \/ r = 4 \/ r = 5 \/ r = 6
               \/ r = 7 \/ r = 8 \/ r = 9) by lia.
  repeat (destruct Hc as [->|Hc]; [reflexivity|]). subst r. reflexivity.
Qed.

(** [:.1f] writes exactly one digit after the point. *)
Lemma fixed1_one_decimal f :
  proper f ->
  exists int_part d,
    Fmt.fixed1 f = int_part ++ [46%N; d] /\ (48 <= d <= 57)%N.
Proof.
  destruct f as [s| | |s m e]; cbn [proper]; try tauto; intros _.
  - exists (Fmt.sign s ++ [48%N]), 48%N. split; [|lia].
    destruct s; reflexivity.
  - cbn [Fmt.fixed1].
    set (n := PyFloat.scaled_magnitude 1 m e).
    assert (Hr : 0 <= n mod 10 < 10) by (apply Z.mod_pos_bound; lia).
    exists (Fmt.sign s ++ Fmt.int (n / 10)), (48 + Z.to_N (n mod 10))%N.
    rewrite (digit_str _ Hr), <- app_assoc. split; [reflexivity|lia].
Qed.

Lemma printable_perm l l' : Permutation l l' -> printable l -> printable l'.
Proof. unfold printable. intros Hp. rewrite Hp. trivial. Qed.

Lemma details_total l :
  printable l -> exists details, mapM detail_lines l = Ok details.
Proof.
  intros Hp. apply mapM_total. eapply Forall_impl; [exact Hp|].
  intros r. apply detail_lines_total.
Qed.

(** The value returned, whether or not formatting raises. *)
Lemma generate_comparison_report_returned today s :
  Method.returned (generate_comparison_report today) s
  = (details ← mapM detail_lines (sort_reverse total_score (arg_obj s));
     mret (Str.join nl
             (report_text today (sort_reverse total_score (arg_obj s)) details))).
Proof.
  unfold Method.returned. rewrite generate_comparison_report_run. reflexivity.
Qed.

Lemma generate_comparison_report_left today s :
  Method.left_state (generate_comparison_report today) s
  = CallState (self_obj s) (sort_reverse total_score (arg_obj s)).
Proof.
  unfold Method.left_state. rewrite generate_comparison_report_run. reflexivity.
Qed.

Lemma sort_two_example (r1 r2 : ScoreRecord) :
  total_score r1 = Float f_80 -> total_score r2 = Float f_92_5 ->
  sort_reverse total_score [r1; r2] = [r2; r1]
  /\ sort_reverse total_score [r2; r1] = [r2; r1].
Proof.
  intros H1 H2. cbn [sort_reverse foldr insert_desc]. rewrite H1, H2.
  split; reflexivity.
Qed.


End ReportFacts.


Section ReportClaims.
Context `{PyRuntime}.

Lemma analyze_model_left model_name summary s :
  Method.left_state (analyze_model model_name summary) s = s.
Proof. unfold Method.left_state. rewrite analyze_model_run. reflexivity. Qed.



End ReportClaims.





(* ===================================================================== *)
(** * Words, lines and sentences *)
(* ===================================================================== *)

Module SplitFacts.


Lemma split_on_from_length sep cur s :
  len (Str.split_on_from sep cur s) = 1 + Text.count sep s.
Proof.
  unfold Text.count, len, str in *. revert cur.
  induction s as [|c s IH]; intros cur; cbn [Str.split_on_from List.filter].
  - reflexivity.
  - destruct (c =? sep)%N; cbn [length].
    + specialize (IH []). lia.
    + specialize (IH (c :: cur)). lia.
Qed.

(** [len(s.split(c))] is one more than the number of [c] in [s]. *)
Lemma split_on_length sep s : len (Str.split_on sep s) = 1 + Text.count sep s.
Proof. apply split_on_from_length. Qed.

Lemma split_ws_from_app cur a sp b :
  Str.isspace sp = true ->
  Str.split_ws_from cur (a ++ sp :: b) = Str.split_ws_from cur a ++ Str.split_ws b.
Proof.
  intros Hsp. revert cur. induction a as [|c a IH]; intros cur.
  - cbn [app Str.split_ws_from]. rewrite Hsp. destruct cur; reflexivity.
  - cbn [app Str.split_ws_from]. destruct (Str.isspace c).
    + destruct cur; rewrite IH; reflexivity.
    + apply IH.
Qed.

Lemma split_ws_from_nil cur s :
  Str.split_ws_from cur s = [] <-> cur = [] /\ Text.blank s = true.
Proof.
  unfold Text.blank. revert cur. induction s as [|c s IH]; intros cur.
  - cbn. destruct cur; split; intros; try tauto; try discriminate.
    destruct H; discriminate.
  - cbn [Str.split_ws_from forallb]. destruct (Str.isspace c); cbn [andb].
    + destruct cur.
      * apply IH.
      * split; [discriminate|]. intros [? _]. discriminate.
    + rewrite IH. split; [intros [? _]; discriminate|intros [_ ?]; discriminate].
Qed.

Lemma split_ws_from_bound cur s :
  2 * len (Str.split_ws_from cur s) <= len s + (match cur with [] => 1 | _ => 2 end).
Proof.
  unfold len, str in *. revert cur. induction s as [|c s IH]; intros cur.
  - cbn. destruct cur; cbn; lia.
  - cbn [Str.split_ws_from]. destruct (Str.isspace c).
    + destruct cur; cbn [length]; specialize (IH []); cbn in IH; lia.
    + specialize (IH (c :: cur)). cbn [length]. destruct cur; lia.
Qed.

Lemma split_ws_from_concat cur s :
  concat (Str.split_ws_from cur s)
  = rev cur ++ List.filter (fun c => negb (Str.isspace c)) s.
Proof.
  revert cur. induction s as [|c s IH]; intros cur.
  - cbn. destruct cur; [reflexivity|]. cbn [concat]. rewrite !app_nil_r. reflexivity.
  - cbn [Str.split_ws_from List.filter]. destruct (Str.isspace c); cbn [negb].
    + destruct cur; [apply IH|]. cbn [concat]. rewrite IH. reflexivity.
    + rewrite IH. cbn [rev]. rewrite <- app_assoc. reflexivity.
Qed.

(** A word: not empty and without whitespace. *)
Lemma split_ws_from_words cur s :
  forallb (fun c => negb (Str.isspace c)) cur = true ->
  Forall (fun w => w <> [] /\ forallb (fun c => negb (Str.isspace c)) w = true)
    (Str.split_ws_from cur s).
Proof.
  assert (Hrev : forall l, forallb (fun c => negb (Str.isspace c)) l = true ->
                   forallb (fun c => negb (Str.isspace c)) (rev l) = true).
  { intros l. rewrite !forallb_forall. intros Hl x Hx. apply Hl.
    apply in_rev. exact Hx. }
  assert (Hne : forall (x : N) l, rev (x :: l) <> []).
  { intros x l Hn. apply (f_equal (@length N)) in Hn.
    rewrite length_rev in Hn. discriminate. }
  revert cur. induction s as [|c s IH]; intros cur Hcur.
  - cbn. destruct cur; constructor; [|constructor]. split; [apply Hne|apply Hrev, Hcur].
  - cbn [Str.split_ws_from]. destruct (Str.isspace c) eqn:Ec.
    + destruct cur; [apply IH; reflexivity|].
      constructor; [split; [apply Hne|apply Hrev, Hcur]|apply IH; reflexivity].
    + apply IH. cbn [forallb]. rewrite Ec, Hcur. reflexivity.
Qed.

Lemma splitlines_from_bound after_cr cur s :
  len (Text.splitlines_from after_cr cur s)
  <= len s + (match cur with [] => 0 | _ => 1 end).
Proof.
  unfold len, str in *. revert after_cr cur. induction s as [|c s IH]; intros after_cr cur.
  - cbn. destruct cur; cbn; lia.
  - cbn [Text.splitlines_from].
    destruct (after_cr && (c =? 10)%N).
    + specialize (IH false cur). cbn [length]. lia.
    + destruct (Text.is_linebreak c).
      * specialize (IH (c =? 13)%N []). cbn [length] in *. destruct cur; lia.
      * specialize (IH false (c :: cur)). cbn [length]. destruct cur; lia.
Qed.

Lemma splitlines_nil s : Text.splitlines s = [] <-> s = [].
Proof.
  split; [|intros ->; reflexivity].
  destruct s as [|c s]; [reflexivity|]. unfold Text.splitlines.
  cbn [Text.splitlines_from andb]. destruct (Text.is_linebreak c); [discriminate|].
  assert (Hg : forall after_cr cur t, cur <> [] ->
                 Text.splitlines_from after_cr cur t <> []).
  { intros after_cr cur t. revert after_cr cur.
    induction t as [|d t IH]; intros after_cr cur Hcur.
    - cbn. destruct cur; [congruence|discriminate].
    - cbn [Text.splitlines_from]. destruct (after_cr && (d =? 10)%N); [apply IH, Hcur|].
      destruct (Text.is_linebreak d); [discriminate|]. apply IH. discriminate. }
  intros Hn. exfalso. apply (Hg false [c] s); [discriminate|exact Hn].
Qed.

Lemma count_words_app text sp text' :
  Str.isspace sp = true ->
  count_words (text ++ sp :: text') = count_words text + count_words text'.
Proof.
  intros Hsp. unfold count_words, Str.split_ws.
  rewrite (split_ws_from_app [] text sp text' Hsp).
  unfold Str.split_ws, len, str in *. rewrite length_app. lia.
Qed.

Lemma count_words_blank text : count_words text = 0 <-> Text.blank text = true.
Proof.
  unfold count_words, Str.split_ws.
  pose proof (split_ws_from_nil [] text) as [Hn Hb].
  unfold len. split.
  - intros Hz. destruct (Str.split_ws_from [] text); [|discriminate].
    apply Hn. reflexivity.
  - intros Ht. rewrite Hb by auto. reflexivity.
Qed.

Lemma count_words_bound text : 0 <= 2 * count_words text <= len text + 1.
Proof.
  pose proof (split_ws_from_bound [] text) as Hb.
  unfold count_words, Str.split_ws, len in *. lia.
Qed.

End SplitFacts.

(** X1: [calculate_coherence] returns 80 exactly when the summary holds at
    least two full stops, and 60 otherwise: the "sentences" of
    [summary.split('.')] are one more than the full stops, empty ones
    included. *)
Theorem X1_coherence_full_stops summary :
  len (Str.split_on 46%N summary) = 1 + Text.count 46%N summary
  /\ (calculate_coherence summary = 80 <-> 2 <= Text.count 46%N summary)
  /\ (calculate_coherence summary = 60 <-> Text.count 46%N summary < 2).
Proof.
  pose proof (SplitFacts.split_on_length 46%N summary) as Hl.
  split; [exact Hl|]. unfold calculate_coherence. rewrite Hl.
  destruct (Z.ltb_spec 2 (1 + Text.count 46%N summary)); split; split;
    intros; try lia; try reflexivity; discriminate.
Qed.

(** X2: [count_words] is additive over texts joined by a whitespace
    character, is 0 exactly on texts made of whitespace only, and twice the
    count never exceeds the number of characters plus one; every word is
    non-empty and free of whitespace, and the words together are the
    non-whitespace characters of the text in order. *)
Theorem X2_count_words text text' (sp : N) :
  (Str.isspace sp = true ->
     count_words (text ++ sp :: text') = count_words text + count_words text')
  /\ (count_words text = 0 <-> Text.blank text = true)
  /\ 0 <= 2 * count_words text <= len text + 1
  /\ Forall (fun w => w <> [] /\ forallb (fun c => negb (Str.isspace c)) w = true)
       (Str.split_ws text)
  /\ concat (Str.split_ws text)
     = List.filter (fun c => negb (Str.isspace c)) text.
Proof.
  split; [apply SplitFacts.count_words_app|].
  split; [apply SplitFacts.count_words_blank|].
  split; [apply SplitFacts.count_words_bound|].
  split; [apply SplitFacts.split_ws_from_words; reflexivity|].
  apply (SplitFacts.split_ws_from_concat [] text).
Qed.

Lemma X2_witness :
  count_words (u#"two words" ++ 10%N :: u#"and three more") = 2 + 3.
Proof.
  destruct (X2_count_words u#"two words" u#"and three more" 10%N) as (Hadd & _).
  rewrite Hadd by reflexivity. reflexivity.
Defined.



(* ===================================================================== *)
(** * More on the scoring functions *)
(* ===================================================================== *)

Lemma substring_extend needle hay before after :
  substring needle hay -> substring needle (before ++ hay ++ after).
Proof.
  intros (b & a & ->). exists (before ++ b), (a ++ after).
  rewrite <- !app_assoc. reflexivity.
Qed.

Lemma has_all_markers_extend summary before after :
  has_all_markers summary = true ->
  has_all_markers (before ++ summary ++ after) = true.
Proof.
  rewrite !StrFacts.has_all_markers_spec. intros (H1 & H2 & H3).
  repeat split; apply substring_extend; assumption.
Qed.

(** X4: text added before or after a summary never lowers
    [calculate_prompt_adherence] at the same word count: the markers are
    looked for anywhere in the text, so the structure points once earned
    stay. *)
Theorem X4_prompt_adherence_extend summary before after word_count min_words max_words :
  calculate_prompt_adherence summary word_count min_words max_words
  <= calculate_prompt_adherence (before ++ summary ++ after) word_count
       min_words max_words.
Proof.
  rewrite !prompt_adherence_parts.
  destruct (has_all_markers summary) eqn:Hm.
  - rewrite (has_all_markers_extend _ before after Hm). lia.
  - destruct (has_all_markers (before ++ summary ++ after)); lia.
Qed.

(** X5: when [max_words < min_words] no word count earns the 40 points of
    the length check: the score is 60 with the three markers and 45
    without. *)
Theorem X5_prompt_adherence_empty_window summary word_count min_words max_words :
  max_words < min_words ->
  calculate_prompt_adherence summary word_count min_words max_words
  = if has_all_markers summary then 60 else 45.
Proof.
  intros Hw. rewrite prompt_adherence_parts.
  replace (in_word_range word_count min_words max_words) with false.
  - destruct (has_all_markers summary); reflexivity.
  - symmetry. apply not_true_is_false. rewrite in_word_range_spec. lia.
Qed.

Lemma X5_witness :
  150 < 200
  /\ calculate_prompt_adherence u#"1. a 2. b 3. c" 170 200 150 = 60.
Proof.
  split; [lia|].
  rewrite (X5_prompt_adherence_empty_window u#"1. a 2. b 3. c" 170 200 150) by lia.
  reflexivity.
Defined.

Section ContainmentOrder.
Context `{PyRuntime}.

Lemma filter_length_perm {A} (f : A -> bool) l l' :
  Permutation l l' -> length (List.filter f l) = length (List.filter f l').
Proof.
  induction 1 as [|x l l' _ IH|x y l|l1 l2 l3 _ IH1 _ IH2]; cbn [List.filter].
  - reflexivity.
  - destruct (f x); cbn [length]; congruence.
  - destruct (f x), (f y); reflexivity.
  - congruence.
Qed.

Lemma containment_score_perm summary elements elements' :
  Permutation elements elements' ->
  containment_score summary elements = containment_score summary elements'.
Proof.
  intros Hp. unfold containment_score. rewrite !sum_ints_ones. unfold len.
  rewrite (filter_length_perm (mentions summary) _ _ Hp).
  rewrite (Permutation_length Hp).
  destruct elements as [|e l], elements' as [|e' l']; try reflexivity.
  - apply Permutation_nil_cons in Hp. destruct Hp.
  - symmetry in Hp. apply Permutation_nil_cons in Hp. destruct Hp.
Qed.

(** X6: [calculate_faithfulness] and [calculate_coverage] do not depend on
    the order in which the facts or key elements are listed. *)
Theorem X6_containment_order summary elements elements' :
  Permutation elements elements' ->
  calculate_faithfulness summary elements = calculate_faithfulness summary elements'
  /\ calculate_coverage summary elements = calculate_coverage summary elements'.
Proof.
  intros Hp. split; apply containment_score_perm, Hp.
Qed.

End ContainmentOrder.

Lemma X6_witness :
  @calculate_coverage cpython311 u#"Grok and GigaChat" [u#"grok"; u#"Qwen"; u#"Cotype"]
  = @calculate_coverage cpython311 u#"Grok and GigaChat" [u#"Cotype"; u#"Qwen"; u#"grok"].
Proof.
  apply (@X6_containment_order cpython311).
  apply perm_trans with [u#"Qwen"; u#"Cotype"; u#"grok"].
  - apply (Permutation_cons_append [u#"Qwen"; u#"Cotype"] u#"grok").
  - apply perm_swap.
Defined.

(* ===================================================================== *)
(** * Bounds on rounded quotients and products *)
(* ===================================================================== *)

Module RoundBound.

Lemma shr_1_exact m :
  0 <= m -> (2 | m) ->
  shr_1 (Build_shr_record m false false) = Build_shr_record (m / 2) false false.
Proof.
  intros Hm [k Hk]. destruct m as [|[p|p|]|p]; try lia; [reflexivity|].
  cbn [shr_1 orb]. f_equal. apply Z.div_unique with 0; lia.
Qed.

Lemma pow2_divide_split a b m :
  0 <= a -> 0 <= b -> (2 ^ (a + b) | m) -> (2 ^ a | m) /\ (2 ^ b | m / 2 ^ a).
Proof.
  intros Ha Hb [k Hk]. rewrite Z.pow_add_r in Hk by lia.
  assert (0 < 2 ^ a) by (apply Z.pow_pos_nonneg; lia).
  split.
  - exists (k * 2 ^ b). lia.
  - exists k. subst m. replace (k * (2 ^ a * 2 ^ b)) with (k * 2 ^ b * 2 ^ a) by ring.
    rewrite Z.div_mul by lia. reflexivity.
Qed.

Lemma iter_shr_1_exact n : forall m,
  0 <= m -> (2 ^ Zpos n | m) ->
  SpecFloat.iter_pos shr_1 n (Build_shr_record m false false)
  = Build_shr_record (m / 2 ^ Zpos n) false false.
Proof.
  induction n as [n IH|n IH|]; intros m Hm Hd; cbn [SpecFloat.iter_pos].
  - replace (Z.pos n~1) with (1 + (Z.pos n + Z.pos n)) in * by lia.
    apply pow2_divide_split in Hd as [H1 Hd]; [|lia|lia].
    apply pow2_divide_split in Hd as [H2 H3]; [|lia|lia].
    change (2 ^ 1) with 2 in *.
    rewrite shr_1_exact by assumption.
    assert (0 <= m / 2) by (apply Z.div_pos; lia).
    assert (0 < 2 ^ Z.pos n) by (apply Z.pow_pos_nonneg; lia).
    rewrite IH by assumption.
    rewrite IH; [|apply Z.div_pos; lia|assumption].
    f_equal. rewrite !Z.div_div by lia. f_equal.
    rewrite !Z.pow_add_r by lia. reflexivity.
  - replace (Z.pos n~0) with (Z.pos n + Z.pos n) in * by lia.
    apply pow2_divide_split in Hd as [H2 H3]; [|lia|lia].
    assert (0 < 2 ^ Z.pos n) by (apply Z.pow_pos_nonneg; lia).
    rewrite IH by assumption.
    rewrite IH; [|apply Z.div_pos; lia|assumption].
    f_equal. rewrite !Z.div_div by lia. f_equal.
    rewrite !Z.pow_add_r by lia. reflexivity.
  - apply shr_1_exact; assumption.
Qed.

(** Shifting out zero bits of an exact number leaves it exact. *)
Lemma shr_fexp_exact m e :
  0 <= m ->
  (2 ^ (snd (shr_fexp 53 1024 m e loc_Exact) - e) | m) ->
  loc_of_shr_record (fst (shr_fexp 53 1024 m e loc_Exact)) = loc_Exact.
Proof.
  intros Hm. unfold shr_fexp, shr. cbn [shr_record_of_loc].
  destruct (fexp 53 1024 (Zdigits2 m + e) - e) as [|n|n] eqn:En; cbn [fst snd];
    try reflexivity.
  replace (e + Z.pos n - e) with (Z.pos n) by lia. intros Hd.
  rewrite iter_shr_1_exact by assumption. reflexivity.
Qed.

(** An upper bound [Y], counted in units of [2^ex], that lies on the grid of
    the result is not exceeded by rounding. *)
Lemma binary_round_aux_upper s mx ex l Y :
  0 <= mx -> mx <= Y -> (l <> loc_Exact -> mx + 1 <= Y) ->
  (2 ^ (Z.max ex (fexp 53 1024 (Zdigits2 mx + ex)) - ex) | Y) ->
  match binary_round_aux 53 1024 s mx ex l with
  | S754_finite _ m e => ex <= e /\ Zpos m * 2 ^ (e - ex) <= Y
  | _ => True
  end.
Proof.
  intros Hm HY Hl Hg. unfold binary_round_aux.
  destruct (shr_fexp_spec mx ex l Hm) as [He' Hm'].
  pose proof (shr_fexp_exact mx ex Hm) as Hex.
  assert (Hloc : l = loc_Exact ->
            shr_fexp 53 1024 mx ex l = shr_fexp 53 1024 mx ex loc_Exact)
    by (intros ->; reflexivity).
  destruct (shr_fexp 53 1024 mx ex l) as [mrs' e']. cbn [fst snd] in He', Hm'.
  rewrite <- He' in Hg. set (d := e' - ex) in *.
  assert (Hd : 0 <= d) by (unfold d; lia).
  assert (Hp : 0 < 2 ^ d) by (apply Z.pow_pos_nonneg; lia).
  destruct Hg as [Y' HY'].
  pose proof (round_nearest_even_bounds (shr_m mrs') (loc_of_shr_record mrs')) as Hr.
  set (m1 := round_nearest_even (shr_m mrs') (loc_of_shr_record mrs')) in *.
  assert (Hm'pos : 0 <= shr_m mrs') by (rewrite Hm'; apply Z.div_pos; lia).
  assert (Hm1 : m1 * 2 ^ d <= Y).
  { assert (Hle : shr_m mrs' <= Y').
    { rewrite Hm'. apply Z.div_le_upper_bound; [lia|]. lia. }
    destruct (Z.eq_dec (shr_m mrs') Y') as [Heq|Hne]; [|nia].
    assert (Hge : Y <= mx).
    { rewrite HY', <- Heq, Hm'. rewrite Z.mul_comm. apply Z.mul_div_le. lia. }
    assert (mx = Y) by lia.
    assert (Hlx : l = loc_Exact).
    { destruct l; [reflexivity|]. exfalso.
      assert (mx + 1 <= Y) by (apply Hl; discriminate). lia. }
    specialize (Hloc Hlx). rewrite <- Hloc in Hex. cbn [fst snd] in Hex.
    fold d in Hex. unfold m1. rewrite Hex.
    + cbn [round_nearest_even]. lia.
    + exists Y'. lia. }
  assert (Hm1pos : 0 <= m1) by lia.
  destruct (shr_fexp_spec m1 e' loc_Exact Hm1pos) as [He'' Hm''].
  destruct (shr_fexp 53 1024 m1 e' loc_Exact) as [mrs'' e''].
  cbn [fst snd] in He'', Hm''.
  destruct (shr_m mrs'') as [|p|p] eqn:Ep; try exact I.
  destruct (e'' <=? 1024 - 53); [|exact I].
  assert (He''e' : e' <= e'') by lia.
  split; [lia|].
  assert (Hq : 0 < 2 ^ (e'' - e')) by (apply Z.pow_pos_nonneg; lia).
  assert (Z.pos p * 2 ^ (e'' - e') <= m1).
  { rewrite Hm'', Z.mul_comm. apply Z.mul_div_le. lia. }
  replace (e'' - ex) with ((e'' - e') + d) by (unfold d; lia).
  rewrite Z.pow_add_r by lia. nia.
Qed.

(** The quotient of two positive integers [c <= n] is at most 1. *)
Lemma div_ints_le_one (c n : positive) :
  (c <= n)%positive ->
  match SFdiv 53 1024 (S754_finite false c 0) (S754_finite false n 0) with
  | S754_finite s m e => s = false /\ e <= 0 /\ Zpos m <= 2 ^ (- e)
  | _ => True
  end.
Proof.
  intros Hcn. unfold SFdiv. rewrite SFdiv_core_ints.
  set (E0 := Z.min _ 0). assert (HE0 : E0 <= 0) by (unfold E0; lia).
  assert (Hp : 0 < 2 ^ (- E0)) by (apply Z.pow_pos_nonneg; lia).
  set (q := Z.pos c * 2 ^ (- E0) / Z.pos n).
  assert (Hq0 : 0 <= q) by (apply Z.div_pos; lia).
  assert (HqY : q <= 2 ^ (- E0)).
  { apply Z.div_le_upper_bound; [lia|]. nia. }
  pose proof (binary_round_aux_upper (xorb false false) q E0
                (new_location (Z.pos n) ((Z.pos c * 2 ^ (- E0)) mod Z.pos n))
                (2 ^ (- E0)) Hq0 HqY) as Hu.
  destruct (binary_round_aux 53 1024 (xorb false false) q E0 _) as [| | |s m e] eqn:Er;
    try exact I.
  assert (Hs : s = false).
  { unfold binary_round_aux in Er.
    destruct (shr_fexp 53 1024 q E0 _) as [mrs' e'].
    destruct (shr_fexp 53 1024 _ e' loc_Exact) as [mrs'' e''].
    destruct (shr_m mrs''); try discriminate.
    destruct (e'' <=? 1024 - 53); [|discriminate]. injection Er as <- _ _.
    reflexivity. }
  destruct Hu as [He Hm].
  - intros Hl.
    assert (Hr : (Z.pos c * 2 ^ (- E0)) mod Z.pos n <> 0).
    { intros Hz. apply Hl. rewrite Hz. apply new_location_zero. }
    pose proof (Z.div_mod (Z.pos c * 2 ^ (- E0)) (Z.pos n) ltac:(lia)) as Hdm.
    pose proof (Z.mod_pos_bound (Z.pos c * 2 ^ (- E0)) (Z.pos n) ltac:(lia)) as Hmb.
    fold q in Hdm. nia.
  - assert (Hdg : Zdigits2 q <= 53 - E0).
    { apply Zdigits2_le; [lia|lia|].
      replace (53 - E0) with (53 + - E0) by lia. rewrite Z.pow_add_r by lia.
      assert (1 < 2 ^ 53) by reflexivity. nia. }
    rewrite fexp_unfold.
    exists (2 ^ (- E0 - (Z.max E0 (Z.max (Zdigits2 q + E0 - 53) (-1074)) - E0))).
    rewrite <- Z.pow_add_r by lia. f_equal. lia.
  - split; [exact Hs|].
    assert (Hm1 : 1 * 2 ^ (e - E0) <= 2 ^ (- E0)) by nia.
    assert (He0 : e <= 0).
    { destruct (Z.le_gt_cases e 0) as [|Hgt]; [assumption|exfalso].
      assert (2 ^ (- E0) < 2 ^ (e - E0)) by (apply Z.pow_lt_mono_r; lia). lia. }
    split; [exact He0|].
    replace (- E0) with (- e + (e - E0)) in Hm by lia.
    rewrite Z.pow_add_r in Hm by lia.
    assert (0 < 2 ^ (e - E0)) by (apply Z.pow_pos_nonneg; lia). nia.
Qed.

(** A float of value at most 1, times 100.0, is at most [25 * 2^2]. *)
Lemma mul_100_upper (m : positive) e :
  e <= 0 -> Zpos m <= 2 ^ (- e) ->
  match PyFloat.mul (S754_finite false m e) f_100 with
  | S754_finite s m' e' =>
      s = false /\ e - 46 <= e' /\ Zpos m' * 2 ^ (e' - (e - 46)) <= 25 * 2 ^ (2 - (e - 46))
  | S754_zero _ => True
  | _ => False
  end.
Proof.
  intros He Hm. unfold PyFloat.mul, f_100, SFmul, PyFloat.prec, PyFloat.emax.
  cbn [xorb]. rewrite Pos2Z.inj_mul.
  replace (e + -46) with (e - 46) by lia.
  set (M := Z.pos 7036874417766400).
  assert (HM : M = 25 * 2 ^ 48) by reflexivity.
  assert (Hp : 0 < 2 ^ (- e)) by (apply Z.pow_pos_nonneg; lia).
  assert (HY : Z.pos m * M <= 25 * 2 ^ (2 - (e - 46))).
  { replace (2 - (e - 46)) with (- e + 48) by lia. rewrite Z.pow_add_r by lia.
    rewrite HM. nia. }
  pose proof (binary_round_aux_upper false (Z.pos m * M) (e - 46) loc_Exact
                (25 * 2 ^ (2 - (e - 46))) ltac:(lia) HY) as Hu.
  assert (Hpr : proper (binary_round_aux 53 1024 false (Z.pos m * M) (e - 46) loc_Exact)).
  { apply binary_round_aux_proper; [lia|lia|].
    replace (1023 - (e - 46)) with (1021 + (2 - (e - 46))) by lia.
    rewrite Z.pow_add_r by lia.
    assert (0 < 2 ^ (2 - (e - 46))) by (apply Z.pow_pos_nonneg; lia).
    assert (25 < 2 ^ 1021) by reflexivity. nia. }
  destruct (binary_round_aux 53 1024 false (Z.pos m * M) (e - 46) loc_Exact)
    as [| | |s m' e'] eqn:Er; try exact I; try exact Hpr.
  assert (Hs : s = false).
  { unfold binary_round_aux in Er.
    destruct (shr_fexp 53 1024 _ (e - 46) _) as [mrs' e1].
    destruct (shr_fexp 53 1024 _ e1 loc_Exact) as [mrs'' e2].
    destruct (shr_m mrs''); try discriminate.
    destruct (e2 <=? 1024 - 53); [|discriminate]. injection Er as <- _ _.
    reflexivity. }
  destruct Hu as [He' Hm'].
  - intros Hl. congruence.
  - assert (Hdg : Zdigits2 (Z.pos m * M) <= 7 - (e - 46)).
    { apply Zdigits2_le; [lia|lia|].
      replace (7 - (e - 46)) with (5 + (2 - (e - 46))) by lia.
      rewrite Z.pow_add_r by lia. change (2 ^ 5) with 32.
      assert (0 < 2 ^ (2 - (e - 46))) by (apply Z.pow_pos_nonneg; lia). nia. }
    rewrite fexp_unfold.
    set (g := Z.max (e - 46) (Z.max (Zdigits2 (Z.pos m * M) + (e - 46) - 53) (-1074))
              - (e - 46)).
    assert (0 <= g <= 2 - (e - 46)) by (unfold g; lia).
    exists (25 * 2 ^ (2 - (e - 46) - g)).
    rewrite <- Z.mul_assoc, <- Z.pow_add_r by lia. do 2 f_equal. lia.
  - auto.
Qed.

(** The quotient of two positive integers, the first below [2^53], does not
    exceed the first. *)
Lemma div_ints_le_num (c n : positive) :
  Zpos c < 2 ^ 53 ->
  match SFdiv 53 1024 (S754_finite false c 0) (S754_finite false n 0) with
  | S754_finite s m e =>
      s = false /\ exists ex, ex <= 0 /\ ex <= e
                   /\ Zpos m * 2 ^ (e - ex) <= Zpos c * 2 ^ (0 - ex)
  | _ => True
  end.
Proof.
  intros Hc. unfold SFdiv. rewrite SFdiv_core_ints.
  set (E0 := Z.min _ 0). assert (HE0 : E0 <= 0) by (unfold E0; lia).
  assert (Hp : 0 < 2 ^ (- E0)) by (apply Z.pow_pos_nonneg; lia).
  set (q := Z.pos c * 2 ^ (- E0) / Z.pos n).
  assert (Hq0 : 0 <= q) by (apply Z.div_pos; lia).
  assert (HqY : q <= Z.pos c * 2 ^ (- E0)).
  { apply Z.div_le_upper_bound; [lia|]. nia. }
  pose proof (binary_round_aux_upper (xorb false false) q E0
                (new_location (Z.pos n) ((Z.pos c * 2 ^ (- E0)) mod Z.pos n))
                (Z.pos c * 2 ^ (- E0)) Hq0 HqY) as Hu.
  destruct (binary_round_aux 53 1024 (xorb false false) q E0 _) as [| | |s m e] eqn:Er;
    try exact I.
  assert (Hs : s = false).
  { unfold binary_round_aux in Er.
    destruct (shr_fexp 53 1024 q E0 _) as [mrs' e'].
    destruct (shr_fexp 53 1024 _ e' loc_Exact) as [mrs'' e''].
    destruct (shr_m mrs''); try discriminate.
    destruct (e'' <=? 1024 - 53); [|discriminate]. injection Er as <- _ _.
    reflexivity. }
  destruct Hu as [He Hm].
  - intros Hl.
    assert (Hr : (Z.pos c * 2 ^ (- E0)) mod Z.pos n <> 0).
    { intros Hz. apply Hl. rewrite Hz. apply new_location_zero. }
    pose proof (Z.div_mod (Z.pos c * 2 ^ (- E0)) (Z.pos n) ltac:(lia)) as Hdm.
    pose proof (Z.mod_pos_bound (Z.pos c * 2 ^ (- E0)) (Z.pos n) ltac:(lia)) as Hmb.
    fold q in Hdm. nia.
  - assert (Hdg : Zdigits2 q <= 53 - E0).
    { apply Zdigits2_le; [lia|lia|].
      replace (53 - E0) with (53 + - E0) by lia. rewrite Z.pow_add_r by lia. nia. }
    rewrite fexp_unfold.
    exists (Z.pos c * 2 ^ (- E0 - (Z.max E0 (Z.max (Zdigits2 q + E0 - 53) (-1074)) - E0))).
    rewrite <- Z.mul_assoc, <- Z.pow_add_r by lia. do 2 f_equal. lia.
  - split; [exact Hs|]. exists E0. replace (0 - E0) with (- E0) by lia. auto.
Qed.

(** From integers back to exact values. *)
Lemma Q_scaled (z : Z) e ex :
  ex <= e ->
  (inject_Z z * Qpower 2 e == inject_Z (z * 2 ^ (e - ex)) * Qpower 2 ex)%Q.
Proof.
  intros He. rewrite inject_Z_mult, (Zpower_Qpower 2 (e - ex)) by lia.
  rewrite <- Qmult_assoc, <- Qpower_plus by discriminate.
  replace (e - ex + ex) with e by lia. reflexivity.
Qed.

Lemma finite_le_int (m : positive) e ex B k :
  ex <= e -> ex <= k -> 0 <= k ->
  Zpos m * 2 ^ (e - ex) <= B * 2 ^ (k - ex) ->
  num_le (Float (S754_finite false m e)) (Int (B * 2 ^ k)).
Proof.
  intros He Hk Hk0 Hle. unfold num_le, Num.compare.
  cbn [Num.exact Num.exact_float Num.ext_compare].
  assert (Hq : (inject_Z (Z.pos m) * Qpower 2 e <= inject_Z (B * 2 ^ k))%Q).
  { rewrite (Q_scaled (Z.pos m) e ex He).
    assert (Hr : (inject_Z (B * 2 ^ k) == inject_Z (B * 2 ^ (k - ex)) * Qpower 2 ex)%Q).
    { rewrite <- (Q_scaled B k ex Hk).
      rewrite inject_Z_mult, (Zpower_Qpower 2 k) by lia. reflexivity. }
    rewrite Hr. apply Qmult_le_compat_r.
    - rewrite <- Zle_Qle. exact Hle.
    - apply Qpower_0_le. discriminate. }
  apply Qle_alt in Hq.
  destruct (_ ?= _)%Q eqn:Ec; [exact I|exact I|]. apply Hq. exact Ec.
Qed.

Lemma zero_le_finite (m : positive) e :
  num_le (Int 0) (Float (S754_finite false m e)).
Proof.
  unfold num_le, Num.compare.
  cbn [Num.exact Num.exact_float Num.ext_compare].
  assert (Hq : (inject_Z 0 <= inject_Z (Z.pos m) * Qpower 2 e)%Q).
  { apply Qmult_le_0_compat; [unfold Qle; simpl; lia|].
    apply Qpower_0_le. discriminate. }
  apply Qle_alt in Hq.
  destruct (_ ?= _)%Q eqn:Ec; [exact I|exact I|]. apply Hq. exact Ec.
Qed.

End RoundBound.

(* ===================================================================== *)
(** * Ranges of the metrics *)
(* ===================================================================== *)

Lemma num_le_int a b : a <= b -> num_le (Int a) (Int b).
Proof.
  intros Hab. unfold num_le, Num.compare. cbn [Num.exact Num.ext_compare].
  assert (Hq : (inject_Z a <= inject_Z b)%Q) by (rewrite <- Zle_Qle; exact Hab).
  apply Qle_alt in Hq.
  destruct (_ ?= _)%Q eqn:Ec; [exact I|exact I|]. apply Hq. exact Ec.
Qed.

Lemma num_le_zero_float s b : 0 <= b ->
  num_le (Int 0) (Float (S754_zero s)) /\ num_le (Float (S754_zero s)) (Int b).
Proof.
  intros Hb. split; [exact I|]. apply (num_le_int 0 b Hb).
Qed.

(** A rounded fraction [c / n] with [0 <= c <= n], times 100.0, lies between
    0 and 100. *)
Lemma fraction_times_100_bounds c n q :
  0 <= c <= n -> 0 < n ->
  PyFloat.int_true_div c n = Ok q ->
  num_le (Int 0) (Float (PyFloat.mul q f_100))
  /\ num_le (Float (PyFloat.mul q f_100)) (Int 100).
Proof.
  intros Hc Hn. unfold PyFloat.int_true_div.
  destruct (Z.eqb_spec n 0) as [|_]; [lia|].
  destruct (PyFloat.is_infinity _); [discriminate|]. intros [= <-].
  assert (Hpr : proper (PyFloat.div (PyFloat.raw c) (PyFloat.raw n))).
  { apply FloatFacts.div_raw_proper; [lia|].
    assert (0 < 2 ^ 1023) by (apply Z.pow_pos_nonneg; lia). nia. }
  unfold PyFloat.div, PyFloat.prec, PyFloat.emax in *.
  destruct n as [|n|n]; try lia. destruct c as [|c|c]; try lia;
    cbn [PyFloat.raw] in *.
  - cbn [SFdiv xorb]. apply (num_le_zero_float false 100). lia.
  - pose proof (RoundBound.div_ints_le_one c n ltac:(lia)) as Hq.
    destruct (SFdiv 53 1024 (S754_finite false c 0) (S754_finite false n 0))
      as [s| | |s m e]; try (exfalso; exact Hpr).
    + destruct s; apply (num_le_zero_float _ 100); lia.
    + destruct Hq as (-> & He & Hm).
      pose proof (RoundBound.mul_100_upper m e He Hm) as Hu.
      destruct (PyFloat.mul (S754_finite false m e) f_100) as [s'| | |s' m' e'];
        try (exfalso; exact Hu).
      * apply (num_le_zero_float s' 100). lia.
      * destruct Hu as (-> & He' & Hm'). split.
        -- apply RoundBound.zero_le_finite.
        -- apply (RoundBound.finite_le_int m' e' (e - 46) 25 2); lia.
Qed.

Section RangeFacts.
Context `{PyRuntime}.

Lemma containment_score_bounds summary elements :
  exists v, containment_score summary elements = Ok v
            /\ num_le (Int 0) v /\ num_le v (Int 100).
Proof.
  destruct elements as [|e elements].
  - exists (Int 0). split; [reflexivity|]. split; apply num_le_int; lia.
  - destruct (containment_score_cons summary e elements) as (q & Hq & _ & Hs).
    exists (Float (PyFloat.mul q f_100)). split; [exact Hs|].
    apply (fraction_times_100_bounds _ _ q (covered_count_bounds _ _) (len_pos e elements) Hq).
Qed.

(** X7: [calculate_faithfulness] and [calculate_coverage] never raise, and
    what they return lies between 0 and 100, as their docstrings say, for
    every summary and every list, rounding included. *)
Theorem X7_containment_range summary elements :
  (exists v, calculate_faithfulness summary elements = Ok v
             /\ num_le (Int 0) v /\ num_le v (Int 100))
  /\ (exists v, calculate_coverage summary elements = Ok v
                /\ num_le (Int 0) v /\ num_le v (Int 100)).
Proof. split; apply containment_score_bounds. Qed.

End RangeFacts.

(** A quotient of a non-negative integer below [2^53] by a positive one lies
    between 0 and the dividend. *)
Lemma quotient_bounds a b q :
  0 <= a < 2 ^ 53 -> 0 < b ->
  PyFloat.int_true_div a b = Ok q ->
  num_le (Int 0) (Float q) /\ num_le (Float q) (Int a).
Proof.
  intros Ha Hb. unfold PyFloat.int_true_div.
  destruct (Z.eqb_spec b 0) as [|_]; [lia|].
  destruct (PyFloat.is_infinity _); [discriminate|]. intros [= <-].
  assert (Hpr : proper (PyFloat.div (PyFloat.raw a) (PyFloat.raw b))).
  { apply FloatFacts.div_raw_proper; [lia|].
    assert (2 ^ 53 <= 2 ^ 1023) by (apply Z.pow_le_mono_r; lia). nia. }
  unfold PyFloat.div, PyFloat.prec, PyFloat.emax in *.
  destruct b as [|b|b]; try lia. destruct a as [|a|a]; try lia;
    cbn [PyFloat.raw] in *.
  - cbn [SFdiv xorb]. apply (num_le_zero_float false 0). lia.
  - pose proof (RoundBound.div_ints_le_num a b ltac:(lia)) as Hq.
    destruct (SFdiv 53 1024 (S754_finite false a 0) (S754_finite false b 0))
      as [s| | |s m e]; try (exfalso; exact Hpr).
    + apply (num_le_zero_float s (Z.pos a)). lia.
    + destruct Hq as (-> & ex & Hex & He & Hm). split.
      * apply RoundBound.zero_le_finite.
      * pose proof (RoundBound.finite_le_int m e ex (Z.pos a) 0 He Hex
                      ltac:(lia) Hm) as Hle.
        rewrite Z.pow_0_r, Z.mul_1_r in Hle. exact Hle.
Qed.

(** X8: for a source of at least 0 and fewer than [2^53] words,
    [calculate_compression_ratio] returns, and what it returns is not
    negative and not greater than the source word count. *)
Theorem X8_compression_range source_words summary_words :
  0 <= source_words < 2 ^ 53 ->
  exists v, calculate_compression_ratio source_words summary_words = Ok v
            /\ num_le (Int 0) v /\ num_le v (Int source_words).
Proof.
  intros Ha. unfold calculate_compression_ratio.
  destruct (Z.ltb_spec 0 summary_words) as [Hpos|Hneg].
  - destruct (FloatFacts.int_true_div_proper source_words summary_words)
      as (q & Hq & _); [lia| |].
    { assert (2 ^ 53 <= 2 ^ 1023) by (apply Z.pow_le_mono_r; lia). nia. }
    rewrite Hq. exists (Float q). split; [reflexivity|].
    apply (quotient_bounds _ _ q Ha Hpos Hq).
  - exists (Int 0). split; [reflexivity|]. split; apply num_le_int; lia.
Qed.

Lemma X8_witness :
  exists v, calculate_compression_ratio 4200 17 = Ok v
            /\ num_le (Int 0) v /\ num_le v (Int 4200).
Proof.
  apply (X8_compression_range 4200 17). split; [lia|reflexivity].
Defined.

(* ===================================================================== *)
(** * Records of [analyze_model]: ranges, the blank summary, printing *)
(* ===================================================================== *)

Section RecordFacts.
Context `{PyRuntime}.

(** A value of [calculate_compression_ratio] is a float or the [int] 0. *)
Lemma compression_to_float source_words summary_words v :
  calculate_compression_ratio source_words summary_words = Ok v ->
  exists f, Num.to_float v = Ok f.
Proof.
  unfold calculate_compression_ratio. destruct (0 <? summary_words).
  - destruct (PyFloat.int_true_div _ _) as [q|e]; cbn [mbind result_bind];
      [|discriminate].
    intros [= <-]. exists q. reflexivity.
  - intros [= <-]. vm_compute. eauto.
Qed.

Lemma containment_to_float summary elements v :
  containment_score summary elements = Ok v -> exists f, Num.to_float v = Ok f.
Proof.
  destruct elements as [|e elements].
  - intros [= <-]. vm_compute. eauto.
  - destruct (containment_score_cons summary e elements) as (q & _ & _ & Hs).
    rewrite Hs. intros [= <-]. eexists. reflexivity.
Qed.

Lemma prompt_adherence_range summary word_count min_words max_words :
  45 <= calculate_prompt_adherence summary word_count min_words max_words <= 100.
Proof.
  rewrite prompt_adherence_parts.
  destruct (in_word_range _ _ _), (has_all_markers _); lia.
Qed.

Lemma coherence_range summary : 60 <= calculate_coherence summary <= 80.
Proof. unfold calculate_coherence. destruct (2 <? _); lia. Qed.

(** X9: in a record that [analyze_model] returns, every metric other than
    the compression ratio lies between 0 and 100, whatever the receiver and
    the statistics are. *)
Theorem X9_metric_ranges model_name summary s r :
  Method.returned (analyze_model model_name summary) s = Ok r ->
  Forall (fun item =>
            fst item <> u#"compression" ->
            num_le (Int 0) (snd item) /\ num_le (snd item) (Int 100))
         (metrics r).
Proof.
  intros Hr.
  destruct (analyze_model_returned _ _ _ _ Hr)
    as (coverage & compression & total & Hcov & _ & _ & ->).
  cbn [metrics]. unfold metrics_of.
  pose proof (prompt_adherence_range summary (len (Str.split_ws summary))
                default_min_words default_max_words) as Hp.
  pose proof (coherence_range summary) as Hc.
  destruct (containment_score_bounds summary key_elements) as (v & Hv & Hv0 & Hv1).
  unfold calculate_coverage in Hcov. rewrite Hv in Hcov. injection Hcov as <-.
  constructor; [intros _; split; apply num_le_int; lia|].
  constructor; [intros _; split; assumption|].
  constructor; [intros _; split; apply num_le_int; lia|].
  constructor; [intros _; split; apply num_le_int; lia|].
  constructor; [|constructor].
  intros Hne. exfalso. apply Hne. reflexivity.
Qed.

(** A blank summary has no word, no marker of the list and no full stop. *)
Lemma blank_no_substring needle c summary :
  Str.isspace c = false -> In c needle ->
  Text.blank summary = true -> Str.contains needle summary = false.
Proof.
  intros Hc Hin Hb.
  destruct (Str.contains needle summary) eqn:Ec; [|reflexivity].
  apply StrFacts.contains_spec in Ec as (before & after & ->).
  unfold Text.blank in Hb. rewrite !forallb_app in Hb.
  apply andb_true_iff in Hb as [_ Hb]. apply andb_true_iff in Hb as [Hb _].
  rewrite forallb_forall in Hb. rewrite (Hb c Hin) in Hc. discriminate.
Qed.

Lemma blank_count c summary :
  Str.isspace c = false -> Text.blank summary = true -> Text.count c summary = 0.
Proof.
  intros Hc. unfold Text.count, len, Text.blank.
  induction summary as [|d summary IH]; [reflexivity|].
  cbn [forallb List.filter]. intros Hb. apply andb_true_iff in Hb as [Hd Hb].
  destruct (N.eqb_spec d c) as [->|_]; [congruence|]. apply IH, Hb.
Qed.

(** X10: for a summary that is empty or holds only whitespace (what [main]
    passes when the JSON result has no summary), [analyze_model] under the
    constructor's weights returns for every statistics dictionary: the word
    count is 0, the compression ratio is the [int] 0 (no division is made),
    prompt adherence is 45 and coherence 60. *)
Theorem X10_blank_summary model_name summary stats :
  Text.blank summary = true ->
  exists coverage total,
    Method.returned (analyze_model model_name summary) (CallState init stats)
    = Ok {| model := model_name;
            word_count := 0;
            metrics := [ (u#"faithfulness", Int 100);
                         (u#"coverage", coverage);
                         (u#"prompt_adherence", Int 45);
                         (u#"coherence", Int 60);
                         (u#"compression", Int 0) ];
            total_score := total |}.
Proof.
  intros Hb.
  assert (Hw : len (Str.split_ws summary) = 0)
    by (apply (SplitFacts.count_words_blank summary), Hb).
  pose proof (analyze_model_init model_name summary stats) as Hi.
  rewrite Hw in Hi. unfold calculate_compression_ratio in Hi. cbn [Z.ltb Z.compare] in Hi.
  destruct Hi as (c & total & _ & _ & Hr).
  exists (Float c), (Float (PyFloat.round2 total)). rewrite Hr.
  unfold metrics_of. rewrite Hw.
  assert (Hm : has_all_markers summary = false).
  { unfold has_all_markers, markers. cbn [forallb].
    rewrite (blank_no_substring u#"1." 46%N summary); [reflexivity|reflexivity| |exact Hb].
    vm_compute. auto. }
  assert (Hc : calculate_coherence summary = 60).
  { unfold calculate_coherence. rewrite SplitFacts.split_on_length.
    rewrite (blank_count 46%N summary eq_refl Hb). reflexivity. }
  rewrite Hc, prompt_adherence_parts, Hm. reflexivity.
Qed.

(** Every metric of a record of [analyze_model] can be written by [:.1f]. *)
Lemma analyze_model_printable model_name summary s r :
  Method.returned (analyze_model model_name summary) s = Ok r ->
  Forall (fun item => exists f, Num.to_float (snd item) = Ok f) (metrics r).
Proof.
  intros Hr.
  destruct (analyze_model_returned _ _ _ _ Hr)
    as (coverage & compression & total & Hcov & Hcomp & _ & ->).
  cbn [metrics]. unfold metrics_of.
  constructor; [vm_compute; eauto|].
  constructor; [apply (containment_to_float summary key_elements), Hcov|].
  constructor; [apply prompt_adherence_float|].
  constructor; [apply coherence_float|].
  constructor; [|constructor].
  apply (compression_to_float _ _ _ Hcomp).
Qed.

(** X11: the two methods compose: on a list of records that [analyze_model]
    returned (for any names, summaries, receivers and statistics)
    [generate_comparison_report] returns a text and raises nothing. *)
Theorem X11_report_of_analysed today self analyses :
  Forall (fun r => exists model_name summary s,
            Method.returned (analyze_model model_name summary) s = Ok r)
         analyses ->
  exists text,
    Method.returned (generate_comparison_report today) (CallState self analyses)
    = Ok text.
Proof.
  intros Ha. rewrite generate_comparison_report_returned. cbn [arg_obj].
  destruct (details_total (sort_reverse total_score analyses)) as [details Hd].
  - apply (printable_perm analyses); [apply sort_reverse_perm|].
    unfold printable. eapply Forall_impl; [exact Ha|].
    intros r (model_name & summary & s & Hr).
    apply (analyze_model_printable _ _ _ _ Hr).
  - rewrite Hd. eexists. reflexivity.
Qed.

End RecordFacts.

Lemma X10_witness :
  exists coverage total,
    Method.returned (@analyze_model cpython312 u#"Groq Llama3-8B" [])
      (CallState init (<[u#"word_count" := 4200]> ∅))
    = Ok {| model := u#"Groq Llama3-8B";
            word_count := 0;
            metrics := [ (u#"faithfulness", Int 100);
                         (u#"coverage", coverage);
                         (u#"prompt_adherence", Int 45);
                         (u#"coherence", Int 60);
                         (u#"compression", Int 0) ];
            total_score := total |}.
Proof.
  apply (@X10_blank_summary cpython312 u#"Groq Llama3-8B" []
           (<[u#"word_count" := 4200]> ∅)).
  reflexivity.
Defined.

Lemma X9_witness :
  Forall (fun item =>
            fst item <> u#"compression" ->
            num_le (Int 0) (snd item) /\ num_le (snd item) (Int 100))
         (metrics Sample.analysed).
Proof.
  apply (@X9_metric_ranges cpython311 u#"Claude" Sample.summary
           (CallState init ∅) Sample.analysed).
  vm_compute. reflexivity.
Defined.

Lemma X11_witness :
  exists text,
    Method.returned (@generate_comparison_report cpython311 Sample.day1)
      (CallState init [Sample.analysed])
    = Ok text.
Proof.
  apply (@X11_report_of_analysed cpython311 Sample.day1 init [Sample.analysed]).
  constructor; [|constructor].
  exists u#"Claude", Sample.summary, (CallState init ∅).
  vm_compute. reflexivity.
Defined.

(* ===================================================================== *)
(** * The report does not depend on the order of the input *)
(* ===================================================================== *)

Section OrderFacts.
Context {A : Type} (key : A -> num).

(** Without NaN, two keys neither of which is less than the other are
    equal. *)
Lemma not_ltb_eqb x y :
  Num.is_nan x = false -> Num.is_nan y = false ->
  Num.ltb x y = false -> Num.ltb y x = false -> Num.eqb x y = true.
Proof.
  intros Hx Hy. unfold Num.ltb, Num.eqb.
  rewrite (NumOrder.compare_antisym x y). unfold Num.compare.
  pose proof (NumOrder.exact_nan x Hx) as Ex.
  pose proof (NumOrder.exact_nan y Hy) as Ey.
  destruct (Num.exact x) as [| |p|], (Num.exact y) as [| |q|];
    cbn [Num.ext_compare fmap option_fmap option_map CompOpp];
    try congruence.
  destruct (p ?= q)%Q; cbn [CompOpp]; congruence.
Qed.

(** A list has one arrangement in descending order at most, when elements
    with equal keys are equal. *)
Lemma descending_unique l : forall l',
  (forall a b, In a l -> In b l -> Num.eqb (key a) (key b) = true -> a = b) ->
  no_nan key l ->
  StronglySorted (desc key) l -> StronglySorted (desc key) l' ->
  Permutation l l' -> l = l'.
Proof.
  induction l as [|x l IH]; intros l' Hinj Hn Hs Hs' Hp.
  - apply Permutation_nil in Hp. congruence.
  - destruct l' as [|y l'].
    { symmetry in Hp. apply Permutation_nil in Hp. discriminate. }
    apply StronglySorted_inv in Hs as [Hs Hx].
    apply StronglySorted_inv in Hs' as [Hs' Hy].
    assert (Hn' : no_nan key (y :: l')).
    { unfold no_nan in *. rewrite <- Hp. exact Hn. }
    assert (Hxy : x = y).
    { assert (Hin : In x (y :: l'))
        by (apply (Permutation_in x Hp); left; reflexivity).
      assert (Hin' : In y (x :: l)).
      { symmetry in Hp. apply (Permutation_in y Hp). left. reflexivity. }
      destruct Hin as [Hin|Hin]; [congruence|].
      destruct Hin' as [Hin'|Hin']; [congruence|].
      rewrite List.Forall_forall in Hx, Hy.
      apply Hinj; [left; reflexivity|right; exact Hin'|].
      unfold no_nan in Hn, Hn'. rewrite List.Forall_forall in Hn, Hn'.
      apply not_ltb_eqb.
      - apply Hn. left. reflexivity.
      - apply Hn'. left. reflexivity.
      - apply (Hx y Hin').
      - apply (Hy x Hin). }
    subst y. f_equal. apply Permutation_cons_inv in Hp.
    apply IH; try assumption.
    + intros a b Ha Hb. apply Hinj; right; assumption.
    + unfold no_nan in *. apply Forall_cons in Hn as [_ Hn]. exact Hn.
Qed.

Lemma sort_reverse_perm_eq l l' :
  (forall a b, In a l -> In b l -> Num.eqb (key a) (key b) = true -> a = b) ->
  no_nan key l -> Permutation l l' ->
  sort_reverse key l = sort_reverse key l'.
Proof.
  intros Hinj Hn Hp.
  assert (Hn' : no_nan key l') by (unfold no_nan in *; rewrite <- Hp; exact Hn).
  apply descending_unique.
  - intros a b Ha Hb. apply Hinj.
    + apply (Permutation_in a (Permutation_sym (sort_reverse_perm key l))), Ha.
    + apply (Permutation_in b (Permutation_sym (sort_reverse_perm key l))), Hb.
  - unfold no_nan in *. rewrite <- (sort_reverse_perm key l). exact Hn.
  - apply sort_reverse_descending, Hn.
  - apply sort_reverse_descending, Hn'.
  - rewrite <- (sort_reverse_perm key l), <- (sort_reverse_perm key l'). exact Hp.
Qed.

End OrderFacts.

(** X12: when no total score is NaN and records with equal total scores are
    equal, [generate_comparison_report] returns the same text, and leaves the
    caller's list in the same order, for every arrangement of the input
    list. *)
Theorem X12_report_order_independent `{PyRuntime} today self
    (analyses analyses' : list ScoreRecord) :
  Permutation analyses analyses' ->
  no_nan total_score analyses ->
  (forall a b, In a analyses -> In b analyses ->
     Num.eqb (total_score a) (total_score b) = true -> a = b) ->
  Method.returned (generate_comparison_report today) (CallState self analyses)
  = Method.returned (generate_comparison_report today) (CallState self analyses')
  /\ Method.left_state (generate_comparison_report today) (CallState self analyses)
     = Method.left_state (generate_comparison_report today) (CallState self analyses').
Proof.
  intros Hp Hn Hinj.
  rewrite !generate_comparison_report_returned, !generate_comparison_report_left.
  cbn [arg_obj self_obj].
  rewrite (sort_reverse_perm_eq total_score analyses analyses' Hinj Hn Hp).
  split; reflexivity.
Qed.

Lemma X12_witness :
  Method.returned (@generate_comparison_report cpython311 Sample.day1)
    (CallState init [Sample.rec_80; Sample.rec_92_5])
  = Method.returned (@generate_comparison_report cpython311 Sample.day1)
      (CallState init [Sample.rec_92_5; Sample.rec_80]).
Proof.
  destruct (@X12_report_order_independent cpython311 Sample.day1 init
              [Sample.rec_80; Sample.rec_92_5] [Sample.rec_92_5; Sample.rec_80])
    as [Hr _].
  - apply perm_swap.
  - repeat constructor.
  - intros a b [<-|[<-|[]]] [<-|[<-|[]]]; try reflexivity; vm_compute; discriminate.
  - exact Hr.
Defined.

(* ===================================================================== *)
(** * [main]: taking the summary out of the file *)
(* ===================================================================== *)

Module ExtractFacts.

Lemma split_by_from_skip sep xs : forall cur rest,
  Text.split_by_from sep (length xs) cur (xs ++ rest)
  = Text.split_by_from sep 0 cur rest.
Proof.
  induction xs as [|x xs IH]; intros cur rest; [reflexivity|].
  cbn [length app Text.split_by_from]. apply IH.
Qed.

Lemma split_by_from_nonempty sep skip cur s :
  Text.split_by_from sep skip cur s <> [].
Proof.
  revert skip cur. induction s as [|c s IH]; intros skip cur; [discriminate|].
  cbn [Text.split_by_from]. destruct skip; [|apply IH].
  destruct (Str.startswith sep (c :: s)); [discriminate|apply IH].
Qed.

(** After a separator found at the front the rest is split anew. *)
Lemma split_by_from_front sep cur rest :
  sep <> [] ->
  Text.split_by_from sep 0 cur (sep ++ rest)
  = rev cur :: Text.split_by_from sep 0 [] rest.
Proof.
  intros Hsep. destruct sep as [|a sep]; [congruence|].
  cbn [app Text.split_by_from].
  replace (Str.startswith (a :: sep) (a :: sep ++ rest)) with true.
  - f_equal. replace (length (a :: sep) - 1)%nat with (length sep) by (cbn; lia).
    apply split_by_from_skip.
  - symmetry. apply (StrFacts.startswith_spec (a :: sep) (a :: sep ++ rest)).
    exists rest. reflexivity.
Qed.

(** The field in front of the first occurrence of the separator. *)
Lemma split_by_from_first sep rest pre : forall cur,
  sep <> [] ->
  none_before sep (length pre) (pre ++ sep ++ rest) ->
  Text.split_by_from sep 0 cur (pre ++ sep ++ rest)
  = (rev cur ++ pre) :: Text.split_by_from sep 0 [] rest.
Proof.
  induction pre as [|c pre IH]; intros cur Hsep Hfirst.
  - cbn [app]. rewrite app_nil_r. apply split_by_from_front, Hsep.
  - cbn [app Text.split_by_from].
    destruct (Str.startswith sep (c :: pre ++ sep ++ rest)) eqn:Es.
    + apply StrFacts.startswith_spec in Es as [q Hq].
      specialize (Hfirst [] q Hq). cbn in Hfirst. lia.
    + rewrite IH; [|exact Hsep|].
      * cbn [rev]. rewrite <- app_assoc. reflexivity.
      * intros p q Hpq. specialize (Hfirst (c :: p) q).
        cbn [app length] in Hfirst. rewrite Hpq in Hfirst.
        specialize (Hfirst eq_refl). lia.
Qed.

(** Without the separator there is one field. *)
Lemma split_by_from_none sep s : forall cur,
  Str.contains sep s = false ->
  Text.split_by_from sep 0 cur s = [rev cur ++ s].
Proof.
  induction s as [|c s IH]; intros cur Hc.
  - cbn. rewrite app_nil_r. reflexivity.
  - cbn [Str.contains] in Hc. apply orb_false_iff in Hc as [Hs Hc].
    cbn [Text.split_by_from]. rewrite Hs, (IH _ Hc).
    cbn [rev]. rewrite <- app_assoc. reflexivity.
Qed.

(** The first field is a prefix of the text that ends at the text's end or
    in front of a separator; when the separator occurs there are two fields
    at least. *)
Lemma split_by_from_field sep s : forall cur,
  sep <> [] ->
  exists field more rest,
    Text.split_by_from sep 0 cur s = (rev cur ++ field) :: more
    /\ s = field ++ rest
    /\ (rest = [] \/ exists q, rest = sep ++ q)
    /\ (Str.contains sep s = true -> more <> []).
Proof.
  induction s as [|c s IH]; intros cur Hsep.
  - exists [], [], []. cbn. rewrite app_nil_r.
    split; [reflexivity|]. split; [reflexivity|]. split; [left; reflexivity|].
    destruct sep; [congruence|discriminate].
  - cbn [Text.split_by_from Str.contains].
    destruct (Str.startswith sep (c :: s)) eqn:Es.
    + exists [], (Text.split_by_from sep (length sep - 1) [] s), (c :: s).
      rewrite app_nil_r. split; [reflexivity|]. split; [reflexivity|].
      split; [right; apply StrFacts.startswith_spec, Es|].
      intros _. apply split_by_from_nonempty.
    + destruct (IH (c :: cur) Hsep) as (field & more & rest & Hf & Hs & Hr & Hm).
      exists (c :: field), more, rest. rewrite Hf. cbn [rev].
      rewrite <- app_assoc. split; [reflexivity|].
      split; [cbn; congruence|]. split; [exact Hr|exact Hm].
Qed.

Lemma not_substring_contains needle hay :
  ~ substring needle hay -> Str.contains needle hay = false.
Proof.
  intros Hn. apply not_true_is_false. rewrite StrFacts.contains_spec. exact Hn.
Qed.

Lemma summary_marker_nonempty : summary_marker <> [].
Proof. vm_compute. discriminate. Qed.

Lemma statistics_marker_nonempty : statistics_marker <> [].
Proof. vm_compute. discriminate. Qed.

(** The index [1] is taken only from a list with two elements at least, the
    index [0] from a list that is not empty. *)
Lemma claude_summary_total content :
  exists summary, claude_summary_of content = Done summary.
Proof.
  unfold claude_summary_of.
  destruct (Str.contains summary_marker content) eqn:Ec; [|eauto].
  destruct (split_by_from_field summary_marker content [] summary_marker_nonempty)
    as (field & more & rest & Hf & _ & _ & Hm).
  unfold Text.split_by. rewrite Hf. specialize (Hm Ec).
  destruct more as [|parts more]; [congruence|].
  cbn [index lookup list_lookup mbind main_result_bind].
  pose proof (split_by_from_nonempty statistics_marker 0 [] parts) as Hn.
  destruct (Text.split_by_from statistics_marker 0 [] parts) as [|first fields];
    [congruence|].
  cbn. eauto.
Qed.

(** An upper part of the text in which the separator does not occur shows
    that every occurrence starts later. *)
Lemma none_before_check sep n s :
  sep <> [] ->
  Str.contains sep (take (n + length sep - 1) s) = false ->
  none_before sep n s.
Proof.
  intros Hsep Hc p q ->.
  destruct (Nat.le_gt_cases n (length p)) as [|Hlt]; [assumption|exfalso].
  assert (Hl : (0 < length sep)%nat) by (destruct sep; [congruence|cbn; lia]).
  assert (Ht : Str.contains sep (take (n + length sep - 1) (p ++ sep ++ q)) = true).
  { apply StrFacts.contains_spec.
    exists p, (take (n + length sep - 1 - length p - length sep) q).
    rewrite take_app_ge by lia. rewrite take_app_ge by lia. reflexivity. }
  congruence.
Qed.

(** [strip] removes whitespace at both ends only. *)
Lemma lstrip_spec s :
  exists ws, s = ws ++ Text.lstrip s /\ Text.blank ws = true
             /\ match Text.lstrip s with
                | c :: _ => Str.isspace c = false
                | [] => True
                end.
Proof.
  induction s as [|c s (ws & Hs & Hb & Hh)].
  - exists []. repeat split.
  - cbn [Text.lstrip]. destruct (Str.isspace c) eqn:Ec.
    + exists (c :: ws). split; [cbn; congruence|].
      split; [cbn; rewrite Ec; exact Hb|exact Hh].
    + exists []. split; [reflexivity|]. split; [reflexivity|exact Ec].
Qed.

Lemma blank_rev ws : Text.blank (rev ws) = Text.blank ws.
Proof.
  unfold Text.blank. apply eq_true_iff_eq. rewrite !forallb_forall.
  split; intros Hf x Hx; apply Hf; [apply in_rev in Hx|apply in_rev]; exact Hx.
Qed.

Lemma split_ws_from_blank cur ws :
  Text.blank ws = true ->
  Str.split_ws_from cur ws = match cur with [] => [] | _ => [rev cur] end.
Proof.
  unfold Text.blank. revert cur. induction ws as [|c ws IH]; intros cur Hb.
  - reflexivity.
  - cbn [forallb] in Hb. apply andb_true_iff in Hb as [Hc Hb].
    cbn [Str.split_ws_from]. rewrite Hc, (IH [] Hb). destruct cur; reflexivity.
Qed.

Lemma split_ws_from_app_blank a ws : forall cur,
  Text.blank ws = true ->
  Str.split_ws_from cur (a ++ ws) = Str.split_ws_from cur a.
Proof.
  induction a as [|c a IH]; intros cur Hb.
  - cbn [app]. rewrite (split_ws_from_blank cur ws Hb). reflexivity.
  - cbn [app Str.split_ws_from]. destruct (Str.isspace c).
    + destruct cur; rewrite (IH [] Hb); reflexivity.
    + apply IH, Hb.
Qed.

Lemma split_ws_blank_app ws s :
  Text.blank ws = true -> Str.split_ws (ws ++ s) = Str.split_ws s.
Proof.
  unfold Text.blank, Str.split_ws. induction ws as [|c ws IH]; intros Hb.
  - reflexivity.
  - cbn [forallb] in Hb. apply andb_true_iff in Hb as [Hc Hb].
    cbn [app Str.split_ws_from]. rewrite Hc. apply IH, Hb.
Qed.

Lemma strip_spec s :
  exists before after,
    s = before ++ Text.strip s ++ after
    /\ Text.blank before = true /\ Text.blank after = true.
Proof.
  destruct (lstrip_spec s) as (before & Hs & Hb & _).
  destruct (lstrip_spec (rev (Text.lstrip s))) as (ws & Hr & Hw & _).
  exists before, (rev ws). unfold Text.strip, Text.rstrip.
  split; [|split; [exact Hb|rewrite blank_rev; exact Hw]].
  rewrite <- rev_app_distr, <- Hr, rev_involutive. exact Hs.
Qed.

Lemma strip_words s : Str.split_ws (Text.strip s) = Str.split_ws s.
Proof.
  destruct (strip_spec s) as (before & after & Hs & Hb & Ha).
  rewrite Hs at 2. rewrite (split_ws_blank_app before _ Hb).
  unfold Str.split_ws. rewrite (split_ws_from_app_blank _ after [] Ha).
  reflexivity.
Qed.

End ExtractFacts.

(** X13: the summary that [main] takes out of the Claude file.  The index
    [1] never raises [IndexError].  A text without the marker
    "**Суммаризация:**" is used whole, whitespace at its ends included.
    Otherwise the summary is the text between the first such marker and the
    first "**Статистика:**" after it, stripped of whitespace at both ends,
    provided no second "**Суммаризация:**" starts before that
    "**Статистика:**" has ended; and when neither marker occurs after the
    first one, it is all the text after it, stripped. *)
Theorem X13_claude_summary content :
  (exists summary, claude_summary_of content = Done summary)
  /\ (~ substring summary_marker content -> claude_summary_of content = Done content)
  /\ (forall head body tail,
        content = head ++ summary_marker ++ body ++ statistics_marker ++ tail ->
        none_before summary_marker (length head) content ->
        none_before statistics_marker (length body)
          (body ++ statistics_marker ++ tail) ->
        none_before summary_marker (length (body ++ statistics_marker))
          (body ++ statistics_marker ++ tail) ->
        claude_summary_of content = Done (Text.strip body))
  /\ (forall head after,
        content = head ++ summary_marker ++ after ->
        none_before summary_marker (length head) content ->
        ~ substring summary_marker after ->
        ~ substring statistics_marker after ->
        claude_summary_of content = Done (Text.strip after)).
Proof.
  split; [apply ExtractFacts.claude_summary_total|].
  split.
  { intros Hn. unfold claude_summary_of.
    rewrite (ExtractFacts.not_substring_contains _ _ Hn). reflexivity. }
  split.
  - intros head body tail Hc Hhead Hbody Hnext.
    set (after := body ++ statistics_marker ++ tail) in *.
    unfold claude_summary_of.
    replace (Str.contains summary_marker content) with true
      by (symmetry; apply StrFacts.contains_spec; exists head, after; exact Hc).
    unfold Text.split_by. rewrite Hc in Hhead |- *.
    rewrite (ExtractFacts.split_by_from_first summary_marker after head []
               ExtractFacts.summary_marker_nonempty Hhead).
    destruct (ExtractFacts.split_by_from_field summary_marker after []
                ExtractFacts.summary_marker_nonempty)
      as (field & more & rest & Hf & Ha & Hr & _).
    rewrite Hf. cbn [rev app index lookup list_lookup mbind main_result_bind].
    assert (Hlen : (length (body ++ statistics_marker) <= length field)%nat).
    { destruct Hr as [->|[q ->]].
      - rewrite app_nil_r in Ha. rewrite <- Ha. unfold after.
        rewrite !length_app. lia.
      - apply (Hnext field q Ha). }
    assert (Hfield : field = body ++ statistics_marker
                       ++ take (length field - length (body ++ statistics_marker)) tail).
    { rewrite <- (take_app_length field rest) at 1. rewrite <- Ha. unfold after.
      rewrite (app_assoc body). rewrite take_app_ge by exact Hlen.
      rewrite <- app_assoc. reflexivity. }
    rewrite Hfield.
    rewrite (ExtractFacts.split_by_from_first statistics_marker _ body []
               ExtractFacts.statistics_marker_nonempty).
    + reflexivity.
    + intros p q Hpq. apply (Hbody p (q ++ rest)).
      rewrite Ha, Hfield, Hpq, <- !app_assoc. reflexivity.
  - intros head after Hc Hhead Hn1 Hn2. unfold claude_summary_of.
    replace (Str.contains summary_marker content) with true
      by (symmetry; apply StrFacts.contains_spec; exists head, after; exact Hc).
    unfold Text.split_by. rewrite Hc in Hhead |- *.
    rewrite (ExtractFacts.split_by_from_first summary_marker after head []
               ExtractFacts.summary_marker_nonempty Hhead).
    rewrite (ExtractFacts.split_by_from_none summary_marker after []
               (ExtractFacts.not_substring_contains _ _ Hn1)).
    cbn [rev app index lookup list_lookup mbind main_result_bind].
    rewrite (ExtractFacts.split_by_from_none statistics_marker after []
               (ExtractFacts.not_substring_contains _ _ Hn2)).
    reflexivity.
Qed.

Lemma X13_witness :
  claude_summary_of
    (u#"# Claude " ++ summary_marker ++ u#"  1. A. 2. B. 3. C. "
       ++ statistics_marker ++ u#" 9 слов")
  = Done u#"1. A. 2. B. 3. C.".
Proof.
  destruct (X13_claude_summary
              (u#"# Claude " ++ summary_marker ++ u#"  1. A. 2. B. 3. C. "
                 ++ statistics_marker ++ u#" 9 слов"))
    as (_ & _ & Hm & _).
  rewrite (Hm u#"# Claude " u#"  1. A. 2. B. 3. C. " u#" 9 слов").
  - reflexivity.
  - reflexivity.
  - apply ExtractFacts.none_before_check;
      [apply ExtractFacts.summary_marker_nonempty|vm_compute; reflexivity].
  - apply ExtractFacts.none_before_check;
      [apply ExtractFacts.statistics_marker_nonempty|vm_compute; reflexivity].
  - apply ExtractFacts.none_before_check;
      [apply ExtractFacts.summary_marker_nonempty|vm_compute; reflexivity].
Defined.

(** X14: [str.strip] as [main] uses it takes whitespace away at the two ends
    only, leaves no whitespace at either end, and does not change the words
    of the text, so the word count of the analysis is that of the text
    between the markers. *)
Theorem X14_strip s :
  (exists before after,
     s = before ++ Text.strip s ++ after
     /\ Text.blank before = true /\ Text.blank after = true)
  /\ match Text.strip s with c :: _ => Str.isspace c = false | [] => True end
  /\ match rev (Text.strip s) with c :: _ => Str.isspace c = false | [] => True end
  /\ Str.split_ws (Text.strip s) = Str.split_ws s
  /\ (Text.strip s = [] <-> Text.blank s = true).
Proof.
  split; [apply ExtractFacts.strip_spec|].
  destruct (ExtractFacts.lstrip_spec s) as (before & Hs & Hb & Hh).
  destruct (ExtractFacts.lstrip_spec (rev (Text.lstrip s))) as (ws & Hr & Hw & Hl).
  assert (Hls : Text.lstrip s = Text.strip s ++ rev ws).
  { unfold Text.strip, Text.rstrip.
    rewrite <- rev_app_distr, <- Hr, rev_involutive. reflexivity. }
  split; [|split; [|split]].
  - rewrite Hls in Hh. destruct (Text.strip s); [exact I|exact Hh].
  - unfold Text.strip, Text.rstrip. rewrite rev_involutive. exact Hl.
  - apply ExtractFacts.strip_words.
  - rewrite <- (SplitFacts.count_words_blank s). unfold count_words.
    rewrite <- (ExtractFacts.strip_words s). split.
    + intros ->. reflexivity.
    + intros Hz. fold (count_words (Text.strip s)) in Hz.
      apply SplitFacts.count_words_blank in Hz.
      rewrite Hls in Hh. destruct (Text.strip s) as [|c t]; [reflexivity|].
      cbn in Hh. unfold Text.blank in Hz. cbn [forallb] in Hz.
      rewrite Hh in Hz. discriminate.
Qed.

(* ===================================================================== *)
(** * [main]: what it prints, writes and raises *)
(* ===================================================================== *)

Section MainFacts.
Context `{PyRuntime}.

(** With [source_stats = {'word_count': 4200}] and a new analyser every
    analysis returns, and leaves the two objects as they were. *)
Lemma analyze_into_done model_name summary analyses :
  exists r,
    analyze_into model_name summary (main_state, analyses)
    = Done (main_state, analyses ++ [r])
    /\ Method.returned (analyze_model model_name summary) main_state = Ok r.
Proof.
  pose proof (analyze_model_init model_name summary (<[u#"word_count" := 4200]> ∅))
    as Hi.
  change (source_words_of (<[u#"word_count" := 4200]> ∅)) with 4200 in Hi.
  destruct (compression_ratio_4200 (len (Str.split_ws summary))) as [v Hv].
  rewrite Hv in Hi. destruct Hi as (c & total & _ & _ & Hr). fold main_state in Hr.
  pose proof (analyze_model_left model_name summary main_state) as Hl.
  unfold Method.returned, Method.left_state in *.
  unfold analyze_into. cbn [fst snd].
  destruct (run (analyze_model model_name summary) main_state) as [res s'].
  cbn [fst snd] in *. subst res s'. eexists. split; reflexivity.
Qed.

Lemma report_done today self analyses :
  analysed analyses ->
  exists report s',
    run (generate_comparison_report today) (CallState self analyses)
    = (Ok report, s').
Proof.
  intros Ha. rewrite generate_comparison_report_run. cbn [arg_obj self_obj].
  destruct (details_total (sort_reverse total_score analyses)) as [details Hd].
  - apply (printable_perm analyses); [apply sort_reverse_perm|].
    unfold printable. eapply Forall_impl; [exact Ha|].
    intros r (model_name & summary & s & Hr).
    apply (analyze_model_printable _ _ _ _ Hr).
  - cbv zeta. rewrite Hd. eexists _, _. reflexivity.
Qed.

Lemma analyze_claude_cases claude analyses :
  analysed analyses ->
  match claude with
  | Missing => analyze_claude claude (main_state, analyses) = Done (main_state, analyses)
  | Unreadable error =>
      analyze_claude claude (main_state, analyses) = Failed (ReadError error)
  | Readable content =>
      exists r, analyze_claude claude (main_state, analyses)
                = Done (main_state, analyses ++ [r])
                /\ analysed (analyses ++ [r])
  end.
Proof.
  intros Ha. destruct claude as [|error|content]; try reflexivity.
  cbn [analyze_claude].
  destruct (ExtractFacts.claude_summary_total content) as [summary ->].
  cbn [mbind main_result_bind].
  destruct (analyze_into_done u#"Claude 3.5 Sonnet" summary analyses) as (r & -> & Hr).
  exists r. split; [reflexivity|].
  apply Forall_app. split; [exact Ha|]. constructor; [|constructor]. eauto.
Qed.

Lemma analyze_groq_cases groq analyses :
  analysed analyses ->
  match groq with
  | Missing => analyze_groq groq (main_state, analyses) = Done (main_state, analyses)
  | Unreadable error =>
      analyze_groq groq (main_state, analyses) = Failed (ReadError error)
  | Readable groq_data =>
      (exists summary r,
         get_summary groq_data = Done (JString summary)
         /\ analyze_groq groq (main_state, analyses)
            = Done (main_state, analyses ++ [r])
         /\ analysed (analyses ++ [r]))
      \/ ((forall summary, get_summary groq_data <> Done (JString summary))
          /\ analyze_groq groq (main_state, analyses) = Failed AttributeError)
  end.
Proof.
  intros Ha. destruct groq as [|error|groq_data]; try reflexivity.
  cbn [analyze_groq].
  destruct (get_summary groq_data) as [[| | |summary| |]|e] eqn:Eg;
    cbn [mbind main_result_bind];
    try (right; split; [intros summary'; discriminate|reflexivity]).
  - left. destruct (analyze_into_done u#"Groq Llama3-8B" summary analyses)
      as (r & -> & Hr).
    exists summary, r. split; [reflexivity|]. split; [reflexivity|].
    apply Forall_app. split; [exact Ha|]. constructor; [|constructor]. eauto.
  - right. destruct groq_data; cbn in Eg; try discriminate; injection Eg as <-;
      (split; [intros summary'; discriminate|reflexivity]).
Qed.

Lemma write_report_cases today analyses :
  analysed analyses ->
  match analyses with
  | [] => write_report today (main_state, analyses)
          = Done {| printed := [no_files_line]; written := [] |}
  | _ :: _ =>
      exists report,
        write_report today (main_state, analyses)
        = Done {| printed := [report; saved_line];
                  written := [(report_name, report)] |}
        /\ Method.returned (generate_comparison_report today)
             (CallState init analyses) = Ok report
  end.
Proof.
  intros Ha. destruct analyses as [|r l]; [reflexivity|].
  destruct (report_done today init (r :: l) Ha) as (report & s' & Hr).
  exists report. unfold write_report, Method.returned. cbn [fst snd self_obj main_state].
  rewrite Hr. split; reflexivity.
Qed.

End MainFacts.


(* ===================================================================== *)
(** * The weight table and the exceptions of the two methods *)
(* ===================================================================== *)

Section RaiseFacts.
Context `{PyRuntime}.

Lemma mapM_ext_in {A B} (f g : A -> result B) l :
  Forall (fun x => f x = g x) l -> mapM f l = mapM g l.
Proof.
  induction 1 as [|x l Hx _ IH]; [reflexivity|].
  cbn [mapM]. cbn [mapM] in IH. rewrite Hx, IH. reflexivity.
Qed.

(** [mapM] raises what the first failing element raises. *)
Lemma mapM_first_raise {A B} (f : A -> result B) before x after e :
  Forall (fun a => exists y, f a = Ok y) before ->
  f x = Raise e ->
  mapM f (before ++ x :: after) = Raise e.
Proof.
  intros Hb Hx. induction Hb as [|a before [y Hy] _ IH].
  - cbn [app mapM]. rewrite Hx. reflexivity.
  - cbn [app mapM]. cbn [mapM] in IH. rewrite Hy, IH. reflexivity.
Qed.

Lemma mapM_raise_inv {A B} (f : A -> result B) l e :
  mapM f l = Raise e -> exists x, In x l /\ f x = Raise e.
Proof.
  induction l as [|x l IH]; cbn [mapM]; [discriminate|].
  destruct (f x) as [y|e'] eqn:Ex; cbn [mbind result_bind].
  - cbn [mapM] in IH. destruct (mapM f l) as [ys|e'];
      cbn [mbind result_bind mret result_ret]; [discriminate|].
    intros [= ->]. destruct (IH eq_refl) as (x' & Hin & Hx').
    exists x'. split; [right; exact Hin|exact Hx'].
  - intros [= ->]. exists x. split; [left; reflexivity|exact Ex].
Qed.

(** One product of the weighted sum: the metric is there, so only the
    weight can be missing. *)
Lemma weighted_item_found metrics weights metric v f :
  Dict.find metrics metric = Some v -> Num.to_float v = Ok f ->
  weighted_item metrics weights metric
  = match Dict.find weights metric with
    | Some w => Ok (PyFloat.mul f w)
    | None => Raise (KeyError metric)
    end.
Proof.
  intros Hv Hf. unfold weighted_item, Dict.item. rewrite Hv.
  cbn [mbind result_bind]. destruct (Dict.find weights metric); [|reflexivity].
  cbn [mbind result_bind]. unfold Num.mul_float. rewrite Hf. reflexivity.
Qed.

Lemma metrics_of_floats summary coverage compression :
  (exists f, Num.to_float coverage = Ok f) ->
  (exists f, Num.to_float compression = Ok f) ->
  Forall (fun metric => exists v f,
            Dict.find (metrics_of summary coverage compression) metric = Some v
            /\ Num.to_float v = Ok f)
         metric_names.
Proof.
  intros [cf Hc] [pf Hp].
  destruct (prompt_adherence_float summary (len (Str.split_ws summary))) as [af Ha].
  destruct (coherence_float summary) as [hf Hh].
  unfold metric_names.
  constructor; [exists (Int 100), f_100; split; reflexivity|].
  constructor; [exists coverage, cf; split; [reflexivity|exact Hc]|].
  constructor; [eexists _, af; split; [reflexivity|exact Ha]|].
  constructor; [eexists _, hf; split; [reflexivity|exact Hh]|].
  constructor; [exists compression, pf; split; [reflexivity|exact Hp]|].
  constructor.
Qed.

(** The weighted score reads the weight table at the five metric names
    only. *)
Lemma weighted_score_frame summary coverage compression weights weights' :
  Forall (fun metric => Dict.find weights metric = Dict.find weights' metric)
         metric_names ->
  weighted_score (metrics_of summary coverage compression) weights
  = weighted_score (metrics_of summary coverage compression) weights'.
Proof.
  intros Hw. unfold weighted_score. rewrite metrics_of_keys.
  rewrite (mapM_ext_in _ (weighted_item (metrics_of summary coverage compression)
                            weights') metric_names); [reflexivity|].
  eapply Forall_impl; [exact Hw|]. intros metric Hm.
  unfold weighted_item, Dict.item. rewrite Hm. reflexivity.
Qed.

(** X16: [analyze_model] reads the weight table of the analyser at the five
    metric names only: two analysers whose tables agree there (whatever the
    order of their keys and whatever else they hold) give the same result.
    When the table lacks the weight of a metric, the call raises [KeyError]
    with the first such name in the order faithfulness, coverage,
    prompt_adherence, coherence, compression, unless the compression ratio
    has raised before. *)
Theorem X16_weight_table (model_name summary : str) (s : call_state (gmap str Z)) :
  (forall s',
     source_words_of (arg_obj s') = source_words_of (arg_obj s) ->
     Forall (fun metric =>
               Dict.find (metrics_weights (self_obj s')) metric
               = Dict.find (metrics_weights (self_obj s)) metric) metric_names ->
     Method.returned (analyze_model model_name summary) s'
     = Method.returned (analyze_model model_name summary) s)
  /\ (forall before metric after,
        metric_names = before ++ metric :: after ->
        Forall (fun m => Dict.find (metrics_weights (self_obj s)) m <> None) before ->
        Dict.find (metrics_weights (self_obj s)) metric = None ->
        Method.returned (analyze_model model_name summary) s
        = match calculate_compression_ratio (source_words_of (arg_obj s))
                  (len (Str.split_ws summary)) with
          | Ok _ => Raise (KeyError metric)
          | Raise e => Raise e
          end).
Proof.
  split.
  - intros s' Hs Hw. unfold Method.returned. rewrite !analyze_model_run.
    cbn [fst]. rewrite Hs.
    destruct (calculate_coverage summary key_elements) as [coverage|e];
      cbn [mbind result_bind]; [|reflexivity].
    destruct (calculate_compression_ratio _ _) as [compression|e];
      cbn [mbind result_bind]; [|reflexivity].
    rewrite (weighted_score_frame summary coverage compression _ _ Hw).
    reflexivity.
  - intros before metric after Hn Hb Hm. unfold Method.returned.
    rewrite analyze_model_run. cbn [fst].
    destruct (coverage_key_elements summary) as (q & _ & _ & Hcov).
    rewrite Hcov. cbn [mbind result_bind].
    destruct (calculate_compression_ratio _ _) as [compression|e] eqn:Ec;
      cbn [mbind result_bind]; [|reflexivity].
    pose proof (metrics_of_floats summary (Float (PyFloat.mul q f_100)) compression
                  ltac:(eexists; reflexivity)
                  (compression_to_float _ _ _ Ec)) as Hf.
    rewrite Hn in Hf. apply Forall_app in Hf as [Hfb Hfm].
    apply Forall_cons in Hfm as [(v & f & Hv & Hvf) _].
    unfold weighted_score. rewrite metrics_of_keys, Hn.
    rewrite (mapM_first_raise _ before metric after (KeyError metric)).
    + reflexivity.
    + clear Hn. induction Hb as [|m before Hm' _ IH]; [constructor|].
      apply Forall_cons in Hfb as [(v' & f' & Hv' & Hvf') Hfb].
      constructor; [|apply IH, Hfb].
      rewrite (weighted_item_found _ _ m v' f' Hv' Hvf').
      destruct (Dict.find (metrics_weights (self_obj s)) m); [eauto|congruence].
    + rewrite (weighted_item_found _ _ metric v f Hv Hvf), Hm. reflexivity.
Qed.

(** What [:.1f] raises on a number. *)
Lemma to_float_raise v e :
  Num.to_float v = Raise e ->
  e = OverflowError /\ exists z, v = Int z /\ PyFloat.of_int z = Raise OverflowError.
Proof.
  destruct v as [z|f]; cbn [Num.to_float]; [|discriminate].
  unfold PyFloat.of_int. destruct (PyFloat.is_infinity _) eqn:Ei; [|discriminate].
  intros [= <-]. split; [reflexivity|]. exists z. split; [reflexivity|].
  unfold PyFloat.of_int. rewrite Ei. reflexivity.
Qed.

Lemma detail_lines_raise r e :
  detail_lines r = Raise e ->
  e = OverflowError
  /\ exists name z, In (name, Int z) (metrics r)
                    /\ PyFloat.of_int z = Raise OverflowError.
Proof.
  unfold detail_lines.
  destruct (mapM _ (metrics r)) as [bullets|e'] eqn:Eb;
    cbn [mbind result_bind mret result_ret]; [intros [=]|].
  intros [= ->]. apply mapM_raise_inv in Eb as ([name v] & Hin & Hl).
  unfold metric_line, Fmt.num_fixed1 in Hl. cbn [fst snd] in Hl.
  destruct (Num.to_float v) as [f|e'] eqn:Ef; cbn [mbind result_bind] in Hl;
    [discriminate|].
  injection Hl as ->. destruct (to_float_raise v e Ef) as (-> & z & -> & Hz).
  split; [reflexivity|]. exists name, z. split; [exact Hin|exact Hz].
Qed.

Lemma detail_lines_ok r d :
  detail_lines r = Ok d ->
  Forall (fun item => exists f, Num.to_float (snd item) = Ok f) (metrics r).
Proof.
  intros Hd. destruct (detail_lines_spec r d Hd) as (bullets & _ & Hf).
  clear Hd. induction Hf as [|item line l bullets (f & Hi & _) _ IH];
    constructor; eauto.
Qed.


End RaiseFacts.

Lemma X16_witness :
  Method.returned (@analyze_model cpython311 u#"Claude" Sample.summary)
    (CallState {| metrics_weights := [(u#"faithfulness", f_one)] |} ∅)
  = Raise (KeyError u#"coverage").
Proof.
  destruct (@X16_weight_table cpython311 u#"Claude" Sample.summary
              (CallState {| metrics_weights := [(u#"faithfulness", f_one)] |} ∅))
    as [_ Hk].
  rewrite (Hk [u#"faithfulness"] u#"coverage"
              [u#"prompt_adherence"; u#"coherence"; u#"compression"]).
  - reflexivity.
  - reflexivity.
  - constructor; [discriminate|constructor].
  - reflexivity.
Defined.


(* ===================================================================== *)
(** * The total score is a number *)
(* ===================================================================== *)

Module SignFacts.

(** Rounding a non-negative mantissa gives a zero, a finite value or an
    infinity of the sign asked for. *)
Lemma binary_round_aux_sign s m e l :
  0 <= m ->
  match binary_round_aux 53 1024 s m e l with
  | S754_zero s' | S754_finite s' _ _ | S754_infinity s' => s' = s
  | S754_nan => False
  end.
Proof.
  intros Hm. unfold binary_round_aux.
  destruct (shr_fexp_spec m e l Hm) as [He' Hm'].
  destruct (shr_fexp 53 1024 m e l) as [mrs' e']. cbn [fst snd] in He', Hm'.
  pose proof (round_nearest_even_bounds (shr_m mrs') (loc_of_shr_record mrs')) as Hr.
  set (m1 := round_nearest_even (shr_m mrs') (loc_of_shr_record mrs')) in *.
  assert (Hm'pos : 0 <= shr_m mrs').
  { rewrite Hm'. apply Z.div_pos; [lia|]. apply Z.pow_pos_nonneg; lia. }
  assert (Hm1 : 0 <= m1) by lia.
  destruct (shr_fexp_spec m1 e' loc_Exact Hm1) as [He'' Hm''].
  destruct (shr_fexp 53 1024 m1 e' loc_Exact) as [mrs'' e'']. cbn [fst snd] in He'', Hm''.
  assert (Hpos : 0 <= shr_m mrs'').
  { rewrite Hm''. apply Z.div_pos; [lia|]. apply Z.pow_pos_nonneg; lia. }
  destruct (shr_m mrs'') as [|p|p]; [reflexivity| |lia].
  destruct (e'' <=? 1024 - 53); reflexivity.
Qed.

Lemma binary_round_sign s m e :
  match binary_round 53 1024 s m e with
  | S754_zero s' | S754_finite s' _ _ | S754_infinity s' => s' = s
  | S754_nan => False
  end.
Proof.
  unfold binary_round. destruct (shl_align m e _) as [mz ez].
  apply binary_round_aux_sign. lia.
Qed.

Lemma binary_normalize_not_nan m e szero :
  binary_normalize 53 1024 m e szero <> S754_nan.
Proof.
  destruct m as [|p|p]; cbn [binary_normalize]; [discriminate| |].
  - pose proof (binary_round_sign false p e) as Hs.
    destruct (binary_round 53 1024 false p e); [discriminate..|destruct Hs|discriminate].
  - pose proof (binary_round_sign true p e) as Hs.
    destruct (binary_round 53 1024 true p e); [discriminate..|destruct Hs|discriminate].
Qed.

Lemma add_nonneg x y : nonneg x -> nonneg y -> nonneg (PyFloat.add x y).
Proof.
  unfold PyFloat.add, PyFloat.prec, PyFloat.emax.
  destruct x as [[]|[]| |[] mx ex], y as [[]|[]| |[] my ey];
    cbn [nonneg SFadd]; try tauto.
  intros _ _. cbn [cond_Zopp]. rewrite <- Pos2Z.inj_add. cbn [binary_normalize].
  pose proof (binary_round_sign false
                (fst (shl_align mx ex (Z.min ex ey)) + fst (shl_align my ey (Z.min ex ey)))
                (Z.min ex ey)) as Hs.
  destruct (binary_round 53 1024 false _ _) as [s|s| |s m e]; try subst s;
    cbn [nonneg]; tauto.
Qed.

(** Adding a finite value never gives NaN. *)
Lemma add_proper_not_nan x y :
  x <> S754_nan -> proper y -> PyFloat.add x y <> S754_nan.
Proof.
  unfold PyFloat.add, PyFloat.prec, PyFloat.emax.
  destruct x as [sx|sx| |sx mx ex], y as [sy|sy| |sy my ey];
    cbn [proper SFadd]; try tauto; try discriminate.
  - intros _ _. destruct sx, sy; discriminate.
  - intros _ _. apply binary_normalize_not_nan.
Qed.

Lemma mul_nonneg x w : nonneg x -> positive_finite w -> nonneg (PyFloat.mul x w).
Proof.
  unfold PyFloat.mul, PyFloat.prec, PyFloat.emax.
  destruct x as [sx|[]| |[] mx ex], w as [sw|sw| |[] mw ew];
    cbn [nonneg positive_finite SFmul xorb]; try tauto.
  intros _ _.
  pose proof (binary_round_aux_sign false (Zpos (mx * mw)) (ex + ew) loc_Exact
                ltac:(lia)) as Hs.
  destruct (binary_round_aux 53 1024 false _ _ _) as [s|s| |s m e]; try subst s;
    cbn [nonneg]; tauto.
Qed.

(** [float(z)] and [a / b] on integers that are not negative. *)
Lemma of_int_nonneg z f : 0 <= z -> PyFloat.of_int z = Ok f -> nonneg f.
Proof.
  intros Hz. unfold PyFloat.of_int, PyFloat.prec, PyFloat.emax.
  destruct (PyFloat.is_infinity _); [discriminate|]. intros [= <-].
  destruct z as [|p|p]; [exact I| |lia]. cbn [binary_normalize].
  pose proof (binary_round_sign false p 0) as Hs.
  destruct (binary_round 53 1024 false p 0) as [s|s| |s m e]; try subst s;
    cbn [nonneg]; tauto.
Qed.

Lemma int_true_div_nonneg a b q :
  0 <= a -> 0 < b -> PyFloat.int_true_div a b = Ok q -> nonneg q.
Proof.
  intros Ha Hb. unfold PyFloat.int_true_div.
  destruct (Z.eqb_spec b 0) as [|_]; [lia|].
  destruct (PyFloat.is_infinity _); [discriminate|]. intros [= <-].
  destruct b as [|b|b]; try lia. destruct a as [|a|a]; try lia; [exact I|].
  unfold PyFloat.div, PyFloat.prec, PyFloat.emax. cbn [PyFloat.raw SFdiv xorb].
  rewrite SFdiv_core_ints.
  match goal with |- nonneg (binary_round_aux 53 1024 false ?m ?e ?l) =>
    pose proof (binary_round_aux_sign false m e l) as Hs;
    destruct (binary_round_aux 53 1024 false m e l) as [s|s| |s m' e']
  end.
  - exact I.
  - rewrite Hs; [exact I|]. apply Z.div_pos; [|lia].
    apply Z.mul_nonneg_nonneg; [lia|]. apply Z.pow_nonneg. lia.
  - apply Hs. apply Z.div_pos; [|lia].
    apply Z.mul_nonneg_nonneg; [lia|]. apply Z.pow_nonneg. lia.
  - rewrite Hs; [exact I|]. apply Z.div_pos; [|lia].
    apply Z.mul_nonneg_nonneg; [lia|]. apply Z.pow_nonneg. lia.
Qed.

Lemma nonneg_not_nan x : nonneg x -> x <> S754_nan.
Proof. destruct x; cbn; [discriminate..|tauto|discriminate]. Qed.

(** [round(x, 2)] of a number is a number or an infinity. *)
Lemma round2_not_nan x : x <> S754_nan -> PyFloat.round2 x <> S754_nan.
Proof.
  destruct x as [s|s| |s m e]; cbn [PyFloat.round2]; try tauto.
  intros _. destruct (PyFloat.scaled_magnitude 2 m e) as [|p|p]; try discriminate.
  unfold PyFloat.div, PyFloat.prec, PyFloat.emax.
  change (PyFloat.raw 100) with (S754_finite false 100 0).
  cbn [SFdiv]. rewrite SFdiv_core_ints.
  match goal with |- binary_round_aux 53 1024 ?s ?m ?e ?l <> _ =>
    pose proof (binary_round_aux_sign s m e l) as Hs;
    destruct (binary_round_aux 53 1024 s m e l); try discriminate
  end.
  intros _. apply Hs. apply Z.div_pos; [|lia].
  apply Z.mul_nonneg_nonneg; [lia|]. apply Z.pow_nonneg. lia.
Qed.

(** Both summation algorithms return a number or an infinity on floats that
    are not negative. *)
Lemma sum_plain_nonneg xs : forall acc,
  nonneg acc -> Forall nonneg xs -> nonneg (fold_left PyFloat.add xs acc).
Proof.
  induction xs as [|x xs IH]; intros acc Ha Hx; [exact Ha|].
  apply Forall_cons in Hx as [Hx Hxs]. cbn [fold_left].
  apply IH; [apply add_nonneg; assumption|exact Hxs].
Qed.

Lemma neumaier_nonneg xs : forall st,
  nonneg (fst st) -> Forall nonneg xs ->
  nonneg (fst (fold_left Runtime.neumaier_step xs st)).
Proof.
  induction xs as [|x xs IH]; intros [f c] Hf Hx; [exact Hf|].
  apply Forall_cons in Hx as [Hx Hxs]. cbn [fold_left].
  apply IH; [|exact Hxs]. cbn [Runtime.neumaier_step fst] in *.
  apply add_nonneg; assumption.
Qed.

Lemma sum_compensated_not_nan xs :
  Forall nonneg xs -> Runtime.sum_compensated xs <> S754_nan.
Proof.
  intros Hx. destruct xs as [|x0 rest]; [discriminate|].
  apply Forall_cons in Hx as [Hx0 Hrest]. cbn [Runtime.sum_compensated].
  pose proof (neumaier_nonneg rest
                (PyFloat.add (S754_zero false) x0, S754_zero false)
                (add_nonneg (S754_zero false) x0 I Hx0) Hrest) as Hf.
  destruct (fold_left Runtime.neumaier_step rest _) as [f c]. cbn [fst] in Hf.
  destruct (negb (Runtime.is_zero c) && Runtime.is_finite c) eqn:Ec.
  - apply add_proper_not_nan; [apply nonneg_not_nan, Hf|].
    apply andb_true_iff in Ec as [_ Ec]. destruct c; try discriminate; exact I.
  - apply nonneg_not_nan, Hf.
Qed.

End SignFacts.

Section TotalFacts.
Context `{PyRuntime}.

Lemma sum_floats_not_nan xs :
  known_sum -> Forall nonneg xs -> sum_floats xs <> S754_nan.
Proof.
  intros [Hs|Hs] Hx; rewrite Hs.
  - apply SignFacts.nonneg_not_nan.
    apply (SignFacts.sum_plain_nonneg xs (S754_zero false) I Hx).
  - apply SignFacts.sum_compensated_not_nan, Hx.
Qed.

Lemma compression_nonneg source_words summary_words v f :
  0 <= source_words ->
  calculate_compression_ratio source_words summary_words = Ok v ->
  Num.to_float v = Ok f -> nonneg f.
Proof.
  intros Hs. unfold calculate_compression_ratio.
  destruct (Z.ltb_spec 0 summary_words) as [Hpos|_].
  - destruct (PyFloat.int_true_div source_words summary_words) as [q|e] eqn:Eq;
      cbn [mbind result_bind mret result_ret]; [|discriminate].
    intros [= <-] [= <-]. apply (SignFacts.int_true_div_nonneg _ _ q Hs Hpos Eq).
  - intros [= <-]. cbn [Num.to_float]. apply SignFacts.of_int_nonneg. lia.
Qed.

Lemma analyze_model_total_number (model_name summary : str) (stats : gmap str Z) r :
  known_sum -> 0 <= source_words_of stats ->
  Method.returned (analyze_model model_name summary) (CallState init stats) = Ok r ->
  Num.is_nan (total_score r) = false.
Proof.
  intros Hsum Hsw Hr.
  destruct (analyze_model_returned _ _ _ _ Hr)
    as (coverage & compression & total & Hcov & Hcomp & Htot & ->).
  cbn [arg_obj self_obj] in Hcomp, Htot. cbn [total_score]. clear Hr.
  destruct (coverage_key_elements summary) as (q & Hq & _ & Hcov').
  rewrite Hcov' in Hcov. injection Hcov as <-.
  destruct (compression_to_float _ _ _ Hcomp) as [cf Hcf].
  destruct (prompt_adherence_float summary (len (Str.split_ws summary))) as [pf Hpf].
  destruct (coherence_float summary) as [hf Hhf].
  rewrite (weighted_score_init summary _ compression cf pf hf Hcf Hpf Hhf) in Htot.
  injection Htot as <-. cbn [Num.round2 Num.is_nan].
  match goal with |- match PyFloat.round2 ?t with _ => _ end = false =>
    assert (Ht : PyFloat.round2 t <> S754_nan);
      [|destruct (PyFloat.round2 t); congruence]
  end.
  apply SignFacts.round2_not_nan, sum_floats_not_nan; [exact Hsum|].
  pose proof (covered_count_bounds summary key_elements) as Hc.
  pose proof (prompt_adherence_range summary (len (Str.split_ws summary))
                default_min_words default_max_words) as Hp.
  pose proof (coherence_range summary) as Hh.
  constructor; [vm_compute; exact I|].
  constructor.
  { apply SignFacts.mul_nonneg; [|vm_compute; exact I].
    apply SignFacts.mul_nonneg; [|vm_compute; exact I].
    refine (SignFacts.int_true_div_nonneg _ 14 q _ _ Hq); lia. }
  constructor.
  { apply SignFacts.mul_nonneg; [|vm_compute; exact I].
    refine (SignFacts.of_int_nonneg _ pf _ Hpf); lia. }
  constructor.
  { apply SignFacts.mul_nonneg; [|vm_compute; exact I].
    refine (SignFacts.of_int_nonneg _ hf _ Hhf); lia. }
  constructor; [|constructor].
  apply SignFacts.mul_nonneg; [|vm_compute; exact I].
  apply (compression_nonneg _ _ compression cf Hsw Hcomp Hcf).
Qed.

(** X18: under either summation algorithm of CPython and the constructor's
    weights, the total score of a record that [analyze_model] returns for a
    source word count that is not negative is never NaN; so on a list of
    such records the sort of [generate_comparison_report] compares keys
    that are totally ordered, and every record of the sorted list has a
    total score not less than that of every record after it. *)
Theorem X18_total_score_number :
  known_sum ->
  (forall (model_name summary : str) (stats : gmap str Z) r,
     0 <= source_words_of stats ->
     Method.returned (analyze_model model_name summary) (CallState init stats) = Ok r ->
     Num.is_nan (total_score r) = false)
  /\ (forall analyses,
        Forall (fun r => exists (model_name summary : str) (stats : gmap str Z),
                  0 <= source_words_of stats
                  /\ Method.returned (analyze_model model_name summary)
                       (CallState init stats) = Ok r) analyses ->
        StronglySorted (desc total_score) (sort_reverse total_score analyses)).
Proof.
  intros Hsum. split.
  - intros model_name summary stats r Hsw Hr.
    apply (analyze_model_total_number model_name summary stats r Hsum Hsw Hr).
  - intros analyses Ha. apply sort_reverse_descending. unfold no_nan.
    eapply Forall_impl; [exact Ha|].
    intros r (model_name & summary & stats & Hsw & Hr).
    apply (analyze_model_total_number model_name summary stats r Hsum Hsw Hr).
Qed.

End TotalFacts.

Lemma X18_witness :
  Num.is_nan (total_score Sample.analysed) = false.
Proof.
  destruct (@X18_total_score_number cpython312) as [Hn _].
  - right. reflexivity.
  - apply (Hn u#"Claude" Sample.summary ∅ Sample.analysed).
    + vm_compute. discriminate.
    + vm_compute. reflexivity.
Defined.

(* ===================================================================== *)
(** * The markers and the full stops *)
(* ===================================================================== *)

Module MarkerFacts.

Lemma count_one c (s : str) i :
  s !! i = Some c -> 1 <= Text.count c s.
Proof.
  unfold Text.count, len. revert i. induction s as [|d s IH]; intros i Hi.
  - destruct i; discriminate.
  - cbn [List.filter]. destruct i as [|i].
    + injection Hi as ->. rewrite N.eqb_refl. cbn [length]. lia.
    + specialize (IH i Hi). destruct (d =? c)%N; cbn [length]; lia.
Qed.

(** Two places that hold the character make a count of two at least. *)
Lemma count_two c (s : str) i j :
  i <> j -> s !! i = Some c -> s !! j = Some c -> 2 <= Text.count c s.
Proof.
  revert i j. induction s as [|d s IH]; intros i j Hij Hi Hj.
  - destruct i; discriminate.
  - destruct i as [|i], j as [|j]; [congruence| | |].
    + injection Hi as ->. pose proof (count_one c s j Hj) as H1.
      unfold Text.count, len in *. cbn [List.filter]. rewrite N.eqb_refl.
      cbn [length]. lia.
    + injection Hj as ->. pose proof (count_one c s i Hi) as H1.
      unfold Text.count, len in *. cbn [List.filter]. rewrite N.eqb_refl.
      cbn [length]. lia.
    + assert (Hij' : i <> j) by congruence.
      specialize (IH i j Hij' Hi Hj).
      unfold Text.count, len in *. cbn [List.filter].
      destruct (d =? c)%N; cbn [length]; lia.
Qed.

(** The places of a two-character marker in a text. *)
Lemma marker_places (a b : N) (before after : str) :
  (before ++ [a; b] ++ after) !! length before = Some a
  /\ (before ++ [a; b] ++ after) !! S (length before) = Some b.
Proof.
  split.
  - apply (list_lookup_middle before (b :: after) a). reflexivity.
  - change (before ++ [a; b] ++ after) with (before ++ [a] ++ b :: after).
    rewrite app_assoc. apply list_lookup_middle.
    rewrite length_app. cbn. lia.
Qed.

Lemma markers_full_stops summary :
  has_all_markers summary = true -> 3 <= 1 + Text.count 46%N summary.
Proof.
  rewrite StrFacts.has_all_markers_spec.
  intros ((b1 & a1 & H1) & (b2 & a2 & H2) & _).
  change u#"1." with [49%N; 46%N] in H1. change u#"2." with [50%N; 46%N] in H2.
  destruct (marker_places 49 46 b1 a1) as [Hd1 Hp1].
  destruct (marker_places 50 46 b2 a2) as [Hd2 Hp2].
  rewrite <- H1 in Hd1, Hp1. rewrite <- H2 in Hd2, Hp2.
  assert (Hne : S (length b1) <> S (length b2)).
  { intros [= He]. rewrite He in Hd1. congruence. }
  pose proof (count_two 46%N summary _ _ Hne Hp1 Hp2). lia.
Qed.

End MarkerFacts.

(** X19: a summary that holds the markers "1.", "2." and "3." holds two
    full stops at least, so whenever [calculate_prompt_adherence] gives the
    30 structure points [calculate_coherence] gives 80; and when
    [calculate_coherence] gives 60, [calculate_prompt_adherence] gives 85
    inside the word range and 45 outside it. *)
Theorem X19_markers_coherence summary word_count min_words max_words :
  (has_all_markers summary = true -> calculate_coherence summary = 80)
  /\ (calculate_coherence summary = 60 ->
      calculate_prompt_adherence summary word_count min_words max_words
      = if in_word_range word_count min_words max_words then 85 else 45).
Proof.
  assert (Hm : has_all_markers summary = true -> calculate_coherence summary = 80).
  { intros Hm. pose proof (MarkerFacts.markers_full_stops summary Hm) as Hc.
    unfold calculate_coherence. rewrite SplitFacts.split_on_length.
    destruct (Z.ltb_spec 2 (1 + Text.count 46%N summary)); [reflexivity|lia]. }
  split; [exact Hm|].
  intros Hc. rewrite prompt_adherence_parts.
  destruct (has_all_markers summary).
  - rewrite Hm in Hc by reflexivity. discriminate.
  - destruct (in_word_range _ _ _); reflexivity.
Qed.

Lemma X19_witness :
  calculate_coherence Sample.summary = 80.
Proof.
  destruct (X19_markers_coherence Sample.summary 17 100 150) as [Hm _].
  apply Hm. reflexivity.
Defined.
